(** * A shallow embedding of the logistics dashboard script [streamlit.py]

    The script is one top-to-bottom Streamlit program: helper functions
    ([format_status], [fetch_data], [update_data], [create_data]), a
    navigation radio, and one rendering branch per page.  The embedding
    keeps that shape: Python values and string methods first, then the
    HTTP helpers in a small state-and-exception monad, then the pages. *)

From Stdlib Require Import ZArith List String Ascii Bool Lia Floats.
From Stdlib Require Import Decimal DecimalString DecimalZ DecimalPos.
Import ListNotations.
Set Warnings "-register-all,-inexact-float".
Local Open Scope string_scope.
Local Open Scope list_scope.

(* ===================================================================== *)
(** * Part I: definitions                                                 *)
(* ===================================================================== *)

(** ** Python exceptions

    The exception classes the script can meet.  [RequestException] stands
    for [requests.exceptions.RequestException] and all its subclasses
    (ConnectionError, Timeout, HTTPError, JSONDecodeError); its argument is
    [str(e)].  [RerunException] is what [st.rerun()] raises to stop the
    current run.  [Unmodelled] marks a payload shape outside the part of
    pandas this development describes; no theorem reads it as a Python
    behaviour. *)
Inductive exn : Type :=
| RequestException (msg : string)
| KeyError (key : string)
| IndexError
| ValueError (msg : string)
| TypeError (msg : string)
| AttributeError (msg : string)
| NameError (name : string)
| ReError (msg : string)
| RerunException
| Unmodelled (what : string).

(** A computation that either returns or raises. *)
Inductive result (A : Type) : Type :=
| Ok (a : A)
| Raise (e : exn).
Arguments Ok {A} a.
Arguments Raise {A} e.

(** ** Python strings

    Text is a sequence of characters; case mapping is the ASCII one, which
    is Python's on ASCII text. *)
Module PyStr.

(** [str.lower()] on one character: [A]..[Z] move to [a]..[z]. *)
Definition lower_char (c : ascii) : ascii :=
  let n := nat_of_ascii c in
  if (65 <=? n)%nat && (n <=? 90)%nat then ascii_of_nat (n + 32) else c.

(** [s.lower()] *)
Fixpoint lower (s : string) : string :=
  match s with
  | EmptyString => EmptyString
  | String c s' => String (lower_char c) (lower s')
  end.

(** [s.replace(old, new)] for a one-character [old]. *)
Fixpoint replace_char (old : ascii) (new : string) (s : string) : string :=
  match s with
  | EmptyString => EmptyString
  | String c s' =>
      if Ascii.eqb c old then new ++ replace_char old new s'
      else String c (replace_char old new s')
  end.

(** [s.startswith(p)] *)
Fixpoint startswith (p s : string) : bool :=
  match p, s with
  | EmptyString, _ => true
  | String _ _, EmptyString => false
  | String a p', String b s' => Ascii.eqb a b && startswith p' s'
  end.

(** [s.endswith(suffix)] *)
Fixpoint endswith (suffix s : string) : bool :=
  String.eqb s suffix ||
  match s with
  | EmptyString => false
  | String _ s' => endswith suffix s'
  end.

(** [s.find(sub)]: the index of the first occurrence, [None] for -1. *)
Fixpoint find (sub s : string) : option nat :=
  if startswith sub s then Some 0
  else match s with
       | EmptyString => None
       | String _ s' => option_map S (find sub s')
       end.

(** [sub in s] *)
Definition contains (sub s : string) : bool :=
  match find sub s with Some _ => true | None => false end.

(** [s[:n]] and [s[n:]] *)
Fixpoint take (n : nat) (s : string) : string :=
  match n, s with
  | S n', String c s' => String c (take n' s')
  | _, _ => EmptyString
  end.

Fixpoint drop (n : nat) (s : string) : string :=
  match n, s with
  | S n', String _ s' => drop n' s'
  | _, _ => s
  end.

(** [s.split(sep)] for a non-empty [sep]: cut at each occurrence found
    from the left, the search resuming after the separator.  [fuel] bounds
    the number of cuts; [split] gives enough of it. *)
Fixpoint split_fuel (fuel : nat) (sep s : string) : list string :=
  match fuel with
  | O => [s]
  | S fuel' =>
      match find sep s with
      | None => [s]
      | Some i => take i s :: split_fuel fuel' sep (drop (i + String.length sep) s)
      end
  end.

Definition split (sep s : string) : list string :=
  split_fuel (String.length s) sep s.

(** [c in chars] for a character *)
Fixpoint char_in (c : ascii) (chars : string) : bool :=
  match chars with
  | EmptyString => false
  | String d chars' => Ascii.eqb c d || char_in c chars'
  end.

(** [s.lstrip(chars)], [s.rstrip(chars)] and [s.strip(chars)] *)
Fixpoint lstrip (chars s : string) : string :=
  match s with
  | EmptyString => EmptyString
  | String c s' => if char_in c chars then lstrip chars s' else s
  end.

Fixpoint rstrip (chars s : string) : string :=
  match s with
  | EmptyString => EmptyString
  | String c s' =>
      match rstrip chars s' with
      | EmptyString => if char_in c chars then EmptyString else String c EmptyString
      | r => String c r
      end
  end.

Definition strip (chars s : string) : string := rstrip chars (lstrip chars s).

(** [str(n)] for an integer. *)
Definition str_of_int (n : Z) : string := NilZero.string_of_int (Z.to_int n).

(** [int(s)]: an optional minus sign and decimal digits; anything else is
    a [ValueError].  (Python also accepts a plus sign, blanks around the
    number and underscores between digits; the script only ever hands
    [int] the digits it formatted itself, or text that is no number.) *)
Definition int_of_str (s : string) : result Z :=
  match NilZero.int_of_string s with
  | Some d => Ok (Z.of_int d)
  | None => Raise (ValueError ("invalid literal for int() with base 10: " ++ s))
  end.

(** The double quote character, for markup. *)
Definition dquote : string := String (ascii_of_nat 34) EmptyString.

End PyStr.

(** ** JSON payloads as Python values

    What [response.json()] returns: [None], booleans, integers, floats,
    strings, lists and dicts (insertion-ordered, hence an association
    list). *)
Inductive json : Type :=
| JNull
| JBool (b : bool)
| JInt (n : Z)
| JFloat (x : float)
| JStr (s : string)
| JList (items : list json)
| JDict (fields : list (string * json)).

Module Py.

(** Truth value of a Python object, as [if v:] tests it. *)
Definition truthy (v : json) : bool :=
  match v with
  | JNull => false
  | JBool b => b
  | JInt n => negb (n =? 0)%Z
  | JFloat x => negb (PrimFloat.eqb x 0%float)
  | JStr s => negb (String.eqb s EmptyString)
  | JList items => match items with [] => false | _ :: _ => true end
  | JDict fields => match fields with [] => false | _ :: _ => true end
  end.

(** Lookup in an insertion-ordered dict. *)
Fixpoint lookup {A : Type} (k : string) (d : list (string * A)) : option A :=
  match d with
  | [] => None
  | (k', v) :: d' => if String.eqb k k' then Some v else lookup k d'
  end.

(** [d[k] = v] on a dict: replace in place, or append a new key. *)
Fixpoint assign {A : Type} (k : string) (v : A) (d : list (string * A)) : list (string * A) :=
  match d with
  | [] => [(k, v)]
  | (k', v') :: d' => if String.eqb k k' then (k, v) :: d' else (k', v') :: assign k v d'
  end.

(** [list(d.keys())] and [list(d.values())] *)
Definition keys {A : Type} (d : list (string * A)) : list string := map fst d.
Definition values {A : Type} (d : list (string * A)) : list A := map snd d.

(** [v.get(k, default)]; only dicts have the method. *)
Definition get (v : json) (k : string) (default : json) : result json :=
  match v with
  | JDict fields =>
      match lookup k fields with Some x => Ok x | None => Ok default end
  | _ => Raise (AttributeError "object has no attribute 'get'")
  end.

(** [v[k]] with a string key. *)
Definition subscript (v : json) (k : string) : result json :=
  match v with
  | JDict fields =>
      match lookup k fields with Some x => Ok x | None => Raise (KeyError k) end
  | _ => Raise (TypeError "indices must be integers")
  end.

(** [k in v] with a string key [k]: dict membership is by key, list
    membership by element, string membership by substring. *)
Definition has_key (k : string) (v : json) : result bool :=
  match v with
  | JDict fields =>
      Ok (match lookup k fields with Some _ => true | None => false end)
  | JList items =>
      Ok (existsb (fun x => match x with JStr s => String.eqb s k | _ => false end) items)
  | JStr s => Ok (PyStr.contains k s)
  | _ => Raise (TypeError "argument is not iterable")
  end.

(** The builtin [min(a, b)] and [max(a, b)] on floats: the first argument
    is kept unless the second compares strictly below (above) it. *)
Definition min (a b : float) : float := if PrimFloat.ltb b a then b else a.
Definition max (a b : float) : float := if PrimFloat.ltb a b then b else a.

End Py.

(** ** The HTTP collaborator

    One call of [requests.get], [requests.put] or [requests.post]. *)
Inductive http_method : Type := GET | PUT | POST.

Record request : Type := mkRequest {
  req_method : http_method;
  req_url : string;
  req_params : option (list (string * json));   (* [params=] *)
  req_json : option json                         (* [json=] *)
}.

(** The body of a response, as [response.json()] sees it. *)
Inductive payload : Type :=
| Json (v : json)
| NotJson (why : string).

(** What a call comes back with: no response at all (connection error,
    timeout: [requests] raises a [RequestException] whose text is [why]),
    or the final response after redirects. *)
Inductive reply : Type :=
| NoReply (why : string)
| Reply (status_code : Z) (reason : string) (body : payload).

(** ** What a run shows

    Each [st.*] call that puts something on the page, in call order.  The
    constant markup around the interpolated values is left out: a card is
    its labelled values.  Layout containers ([st.columns], [st.tabs],
    [st.expander], [with] blocks) place elements and are not elements. *)
Record map_row : Type := mkMapRow {
  mr_ShipmentID : json;
  mr_ShipmentName : json;
  mr_Status : json;
  mr_Location : json;
  mr_lat : float;
  mr_lon : float
}.

Inductive element : Type :=
| Header (text : string)
| SubHeader (text : string)
| Markdown (text : string) (values : list json)
| MetricCard (label : string) (value : json)
| MetricCard1f (label : string) (value : json) (suffix : string)
| Card (fields : list (string * json))
| ErrorBox (msg : string)
| WarningBox (msg : string)
| InfoBox (msg : string)
| SuccessBox (msg : string)
| PieChart (title : string) (names : list string) (values : list json)
| BarChart (title : string) (xs : list string) (ys : list json)
| GaugeChart (title : string) (value : json)
| LineChart (title : string) (xs : list string) (ys : list float)
| MapChart (rows : list map_row) (colors : list string)
| Table (columns : list string) (rows : list (list json))
| NetworkChart (nodes : list (json * json * string * json))
               (edges : list ((json * json) * (json * json)))
| TextInput (label : string)
| NumberInput (label : string)
| SelectBox (label : string) (options : list json)
| Radio (label : string) (options : list string)
| Button (label : string)
| SubmitButton (form label : string).

(** The user's side of the widgets: what was typed, chosen and pressed,
    by the widget's key (its label when it has no key); the two random
    generators as the sequence of their draws; the clock; and the
    iteration order of a set of strings, which CPython fixes per process
    by its string hash seed. *)
Record Env : Type := mkEnv {
  typed : string -> string;
  number : string -> Z;
  chosen : string -> option string;
  pressed : string -> bool;
  random_draw : nat -> nat;
  normal_draw : nat -> float -> float -> float;
  today : Z;
  hash_rank : string -> nat
}.

(** The state a run threads: the backend, the requests sent to it, the
    page built so far, how many draws each generator has given, and
    [st.session_state]. *)
Record state (B : Type) : Type := mkState {
  backend : B;
  sent : list request;
  page : list element;
  random_used : nat;
  normal_used : nat;
  session : list (string * json)
}.
Arguments mkState {B}.
Arguments backend {B}.
Arguments sent {B}.
Arguments page {B}.
Arguments random_used {B}.
Arguments normal_used {B}.
Arguments session {B}.

(** The script monad: state passing with Python exceptions. *)
Definition M (B A : Type) : Type := state B -> result A * state B.

Definition ret {B A : Type} (a : A) : M B A := fun s => (Ok a, s).

Definition bind {B A C : Type} (c : M B A) (k : A -> M B C) : M B C :=
  fun s =>
    match c s with
    | (Ok a, s') => k a s'
    | (Raise e, s') => (Raise e, s')
    end.

Definition raise {B A : Type} (e : exn) : M B A := fun s => (Raise e, s).

(** A pure step that may raise. *)
Definition lift {B A : Type} (r : result A) : M B A := fun s => (r, s).

(** [try: c  except requests.exceptions.RequestException as e: h(str(e))] *)
Definition try_except {B A : Type} (c : M B A) (h : string -> M B A) : M B A :=
  fun s =>
    match c s with
    | (Raise (RequestException msg), s') => h msg s'
    | other => other
    end.

Declare Scope script_scope.
Delimit Scope script_scope with script.
Notation "x <- c ;; k" := (bind c (fun x => k))
  (at level 61, c at next level, right associativity) : script_scope.
Notation "c ;;; k" := (bind c (fun _ => k))
  (at level 61, right associativity) : script_scope.
Local Open Scope script_scope.

(** [for x in xs: body(x)] *)
Fixpoint for_each {B A : Type} (xs : list A) (body : A -> M B unit) : M B unit :=
  match xs with
  | [] => ret tt
  | x :: xs' => body x ;;; for_each xs' body
  end.

(** [[f(x) for x in xs]] where [f] has effects. *)
Fixpoint map_m {B A C : Type} (f : A -> M B C) (xs : list A) : M B (list C) :=
  match xs with
  | [] => ret []
  | x :: xs' => y <- f x ;; ys <- map_m f xs' ;; ret (y :: ys)
  end.

(** Putting an element on the page. *)
Definition show {B : Type} (e : element) : M B unit :=
  fun s => (Ok tt, mkState (backend s) (sent s) (page s ++ [e])
                            (random_used s) (normal_used s) (session s)).

(** [st.session_state.k = v] *)
Definition session_set {B : Type} (k : string) (v : json) : M B unit :=
  fun s => (Ok tt, mkState (backend s) (sent s) (page s)
                            (random_used s) (normal_used s) (Py.assign k v (session s))).

(** [st.rerun()] *)
Definition st_rerun {B A : Type} : M B A := raise RerunException.

(** Sequencing of pure steps that may raise. *)
Definition rbind {A C : Type} (r : result A) (k : A -> result C) : result C :=
  match r with
  | Ok a => k a
  | Raise e => Raise e
  end.

Declare Scope result_scope.
Delimit Scope result_scope with result.
Notation "x <~ r ;; k" := (rbind r (fun x => k))
  (at level 61, r at next level, right associativity) : result_scope.
Local Open Scope result_scope.

(** [[x for x in xs if p(x)]] where [p] may raise. *)
Fixpoint filter_r {A : Type} (p : A -> result bool) (xs : list A) : result (list A) :=
  match xs with
  | [] => Ok []
  | x :: xs' =>
      keep <~ p x ;;
      rest <~ filter_r p xs' ;;
      Ok (if keep then x :: rest else rest)
  end.

(** [[f(x) for x in xs]] where [f] may raise. *)
Fixpoint map_r {A C : Type} (f : A -> result C) (xs : list A) : result (list C) :=
  match xs with
  | [] => Ok []
  | x :: xs' =>
      y <~ f x ;;
      ys <~ map_r f xs' ;;
      Ok (y :: ys)
  end.

(** ** More of Python, pandas and the standard library *)

(** [str(v)], as an f-string renders an interpolated value.  The text of a
    float, a list or a dict is not described here. *)
Definition py_str (v : json) : result string :=
  match v with
  | JNull => Ok "None"
  | JBool true => Ok "True"
  | JBool false => Ok "False"
  | JInt n => Ok (PyStr.str_of_int n)
  | JStr s => Ok s
  | _ => Raise (Unmodelled "str() of a float, list or dict")
  end.

(** The format spec [:.1f] accepts numbers only; the element keeps the
    number. *)
Definition format_1f (v : json) : result json :=
  match v with
  | JInt _ | JFloat _ | JBool _ => Ok v
  | JStr _ => Raise (ValueError "Unknown format code 'f' for object of type 'str'")
  | _ => Raise (TypeError "unsupported format string")
  end.

(** [for x in v] *)
Definition py_iter (v : json) : result (list json) :=
  match v with
  | JList items => Ok items
  | JDict fields => Ok (map JStr (Py.keys fields))
  | JStr s => Ok (map (fun c => JStr (String c EmptyString)) (list_ascii_of_string s))
  | _ => Raise (TypeError "object is not iterable")
  end.

(** [list(v.keys())] and [list(v.values())] *)
Definition py_keys (v : json) : result (list string) :=
  match v with
  | JDict fields => Ok (Py.keys fields)
  | _ => Raise (AttributeError "object has no attribute 'keys'")
  end.

Definition py_values (v : json) : result (list json) :=
  match v with
  | JDict fields => Ok (Py.values fields)
  | _ => Raise (AttributeError "object has no attribute 'values'")
  end.

(** A float compared with an integer: Python compares the exact values. *)
Definition float_eq_int (x : float) (n : Z) : bool :=
  match Prim2SF x with
  | S754_zero _ => (n =? 0)%Z
  | S754_finite s m e =>
      if (0 <=? e)%Z then (cond_Zopp s (Z.pos m) * 2 ^ e =? n)%Z
      else ((Z.pos m) mod 2 ^ (- e) =? 0)%Z && (cond_Zopp s (Z.pos m / 2 ^ (- e)) =? n)%Z
  | _ => false
  end.

(** [v == n] for an integer [n]. *)
Definition py_eq_int (v : json) (n : Z) : bool :=
  match v with
  | JInt m => (m =? n)%Z
  | JBool b => ((if b then 1 else 0) =? n)%Z
  | JFloat x => float_eq_int x n
  | _ => false
  end.

(** Whether a value can be a dict key or a set member. *)
Definition hashable (v : json) : bool :=
  match v with
  | JList _ | JDict _ => false
  | _ => true
  end.

(** [v in d] for a dict [d] with string keys: an unhashable [v] raises, a
    hashable one is found when it is a string equal to a key. *)
Definition in_dict {A : Type} (v : json) (d : list (string * A)) : result bool :=
  match v with
  | JStr s => Ok (match Py.lookup s d with Some _ => true | None => false end)
  | JList _ | JDict _ => Raise (TypeError "unhashable type")
  | _ => Ok false
  end.

(** *** pandas

    A frame built from a list of JSON objects: its rows in order, its
    columns the keys met, a cell missing from a row reading as NaN.  Other
    payload shapes are outside this description, and so is the dtype
    coercion of pandas: a column of numbers with a missing or null cell
    reads as floats there, and an all-numeric row as floats.  A cell
    reads as it was sent in a frame whose text columns hold text in
    every row and whose id columns hold an integer or a text in every
    row; the statements about the values of cells are made for such
    frames. *)
Definition frame : Type := list (list (string * json)).

Definition row_of (v : json) : result (list (string * json)) :=
  match v with
  | JDict fields => Ok fields
  | _ => Raise (Unmodelled "DataFrame of a payload that is not a list of objects")
  end.

Fixpoint rows_of (items : list json) : result frame :=
  match items with
  | [] => Ok []
  | v :: items' =>
      match row_of v, rows_of items' with
      | Ok r, Ok rs => Ok (r :: rs)
      | Raise e, _ => Raise e
      | _, Raise e => Raise e
      end
  end.

(** [pd.DataFrame(v)] *)
Definition pd_DataFrame (v : json) : result frame :=
  match v with
  | JList items => rows_of items
  | _ => Raise (Unmodelled "DataFrame of a payload that is not a list of objects")
  end.

(** [df.columns] *)
Definition columns (df : frame) : list string :=
  nodup string_dec (List.concat (map Py.keys df)).

(** [row[k]] for a row of [df] *)
Definition cell (df : frame) (row : list (string * json)) (k : string) : result json :=
  if existsb (String.eqb k) (columns df) then
    match Py.lookup k row with
    | Some v => Ok v
    | None => Ok (JFloat nan)
    end
  else Raise (KeyError k).

(** [df[k]] as a list of cells *)
Fixpoint column_of (df : frame) (rows : frame) (k : string) : result (list json) :=
  match rows with
  | [] => if existsb (String.eqb k) (columns df) then Ok [] else Raise (KeyError k)
  | r :: rows' =>
      match cell df r k, column_of df rows' k with
      | Ok v, Ok vs => Ok (v :: vs)
      | Raise e, _ => Raise e
      | _, Raise e => Raise e
      end
  end.

Definition column (df : frame) (k : string) : result (list json) := column_of df df k.

(** A cell that must be text for the modelled string operations. *)
Definition as_text (what : string) (v : json) : result string :=
  match v with
  | JStr s => Ok s
  | _ => Raise (Unmodelled what)
  end.

Fixpoint all_text (what : string) (vs : list json) : result (list string) :=
  match vs with
  | [] => Ok []
  | v :: vs' =>
      match as_text what v, all_text what vs' with
      | Ok s, Ok ss => Ok (s :: ss)
      | Raise e, _ => Raise e
      | _, Raise e => Raise e
      end
  end.

(** *** Regular expressions, as [Series.str.contains(pat, case=False)]
    uses them ([regex=True] is the default): [re.search] with
    [re.IGNORECASE].  Described for patterns made of ordinary characters
    and the dot; a pattern with any other metacharacter is outside this
    description. *)
Definition re_special (c : ascii) : bool :=
  PyStr.char_in c "\^$*+?{}[]|()".

(** One pattern character against one character of text. *)
Definition re_char (p c : ascii) : bool :=
  if Ascii.eqb p "." then negb (Ascii.eqb c (ascii_of_nat 10))
  else Ascii.eqb (PyStr.lower_char p) (PyStr.lower_char c).

(** The pattern matches at the start of the text. *)
Fixpoint re_match_here (pat text : string) : bool :=
  match pat, text with
  | EmptyString, _ => true
  | String _ _, EmptyString => false
  | String p pat', String c text' => re_char p c && re_match_here pat' text'
  end.

(** The pattern matches somewhere in the text. *)
Fixpoint re_search_here (pat text : string) : bool :=
  re_match_here pat text ||
  match text with
  | EmptyString => false
  | String _ text' => re_search_here pat text'
  end.

Fixpoint re_plain (pat : string) : bool :=
  match pat with
  | EmptyString => true
  | String p pat' => negb (re_special p) && re_plain pat'
  end.

Definition re_search_ignorecase (pat text : string) : result bool :=
  if re_plain pat then Ok (re_search_here pat text)
  else Raise (Unmodelled "a pattern with metacharacters other than the dot").

(** *** [list(set(xs))] for strings: the distinct members, in the order
    the process's string hashing happens to give; [rank] stands for that
    hashing (any order of the members is the order of some [rank]). *)
Fixpoint insert_by (rank : string -> nat) (x : string) (l : list string) : list string :=
  match l with
  | [] => [x]
  | y :: l' => if (rank x <=? rank y)%nat then x :: l else y :: insert_by rank x l'
  end.

Definition list_set (rank : string -> nat) (xs : list string) : list string :=
  fold_right (insert_by rank) [] (nodup string_dec xs).

(** *** Dates: [(datetime.now() - timedelta(days=i)).strftime('%Y-%m-%d')]
    from the day number of today (days since 1970-01-01). *)
Definition civil_from_days (day : Z) : Z * Z * Z :=
  let z := (day + 719468)%Z in
  let era := (z / 146097)%Z in
  let doe := (z - era * 146097)%Z in
  let yoe := ((doe - doe / 1460 + doe / 36524 - doe / 146096) / 365)%Z in
  let doy := (doe - (365 * yoe + yoe / 4 - yoe / 100))%Z in
  let mp := ((5 * doy + 2) / 153)%Z in
  let d := (doy - (153 * mp + 2) / 5 + 1)%Z in
  let m := (if mp <? 10 then mp + 3 else mp - 9)%Z in
  let y := (yoe + era * 400 + (if m <=? 2 then 1 else 0))%Z in
  (y, m, d).

Fixpoint zero_pad (width : nat) (s : string) : string :=
  match width with
  | O => s
  | S w => if (String.length s <? width)%nat then zero_pad w ("0" ++ s) else s
  end.

Definition strftime_ymd (day : Z) : string :=
  let '(y, m, d) := civil_from_days day in
  zero_pad 4 (PyStr.str_of_int y) ++ "-" ++ zero_pad 2 (PyStr.str_of_int m)
    ++ "-" ++ zero_pad 2 (PyStr.str_of_int d).

(** *** networkx: an undirected graph keeps its nodes, and each node's
    neighbours, in insertion order. *)
Record nx_node : Type := mkNode {
  nx_pos : option (json * json);
  nx_size : option json
}.

Record nx_graph : Type := mkGraph {
  nx_nodes : list (string * nx_node);
  nx_adj : list (string * list string)
}.

Definition nx_Graph : nx_graph := mkGraph [] [].

Definition nx_has_node (g : nx_graph) (n : string) : bool :=
  match Py.lookup n (nx_nodes g) with Some _ => true | None => false end.

(** [G.add_node(n, pos=pos, size=size)] *)
Definition nx_add_node (g : nx_graph) (n : string) (pos : json * json) (size : json) : nx_graph :=
  mkGraph (Py.assign n (mkNode (Some pos) (Some size)) (nx_nodes g))
          (if nx_has_node g n then nx_adj g else nx_adj g ++ [(n, [])]).

(** A node an edge mentions is created when it is new. *)
Definition nx_touch (g : nx_graph) (n : string) : nx_graph :=
  if nx_has_node g n then g
  else mkGraph (nx_nodes g ++ [(n, mkNode None None)]) (nx_adj g ++ [(n, [])]).

Definition nx_link (u v : string) (adj : list (string * list string)) : list (string * list string) :=
  map (fun entry : string * list string =>
         let (n, nbrs) := entry in
         if String.eqb n u && negb (existsb (String.eqb v) nbrs)
         then (n, nbrs ++ [v]) else entry) adj.

(** [G.add_edge(u, v, weight=w)] *)
Definition nx_add_edge (g : nx_graph) (u v : string) : nx_graph :=
  let g := nx_touch (nx_touch g u) v in
  mkGraph (nx_nodes g) (nx_link v u (nx_link u v (nx_adj g))).

(** [G.edges()]: each edge once, from its endpoint inserted first. *)
Fixpoint nx_edges_from (adj : list (string * list string)) (seen : list string) : list (string * string) :=
  match adj with
  | [] => []
  | (n, nbrs) :: rest =>
      map (pair n) (filter (fun v => negb (existsb (String.eqb v) seen)) nbrs)
        ++ nx_edges_from rest (n :: seen)
  end.

Definition nx_edges (g : nx_graph) : list (string * string) := nx_edges_from (nx_adj g) [].

(** [pos[n]] for [pos = nx.get_node_attributes(G, 'pos')] *)
Definition nx_pos_of (g : nx_graph) (n : string) : result (json * json) :=
  match Py.lookup n (nx_nodes g) with
  | Some (mkNode (Some p) _) => Ok p
  | _ => Raise (KeyError n)
  end.

(** [G.nodes[n]['size']] *)
Definition nx_size_of (g : nx_graph) (n : string) : result json :=
  match Py.lookup n (nx_nodes g) with
  | Some (mkNode _ (Some v)) => Ok v
  | Some _ => Raise (KeyError "size")
  | None => Raise (KeyError n)
  end.

(** [v * 10] for a number. *)
Definition times_ten (v : json) : result json :=
  match v with
  | JInt n => Ok (JInt (n * 10))
  | JBool b => Ok (JInt (if b then 10 else 0))
  | JFloat x => Ok (JFloat (PrimFloat.mul x 10%float))
  | JNull | JDict _ => Raise (TypeError "unsupported operand type(s) for *")
  | _ => Raise (Unmodelled "repetition of a string or a list")
  end.

(** ** Helper functions of the script *)

(** [API_BASE_URL] *)
Definition API_BASE_URL : string := "http://localhost:8000".

(** The status styling: [status.lower().replace(" ", "")] picks the class. *)
Definition span (class body : string) : string :=
  "<span class=" ++ PyStr.dquote ++ class ++ PyStr.dquote ++ ">" ++ body ++ "</span>".

Definition format_status (status : string) : string :=
  let status_lower := PyStr.replace_char " " EmptyString (PyStr.lower status) in
  if String.eqb status_lower "delivered" then
    span "status-delivered" status
  else if String.eqb status_lower "intransit" || String.eqb status_lower "in-transit" then
    span "status-intransit" status
  else if String.eqb status_lower "processing" then
    span "status-processing" status
  else if String.eqb status_lower "delayed" then
    span "status-delayed" status
  else status.

(** The dropdown labels [f"{name} (ID: {id})"] and the way the pages read
    the id back: [int(selected.split("ID: ")[1].strip(")"))]. *)
Definition option_label (name id : string) : string :=
  name ++ " (ID: " ++ id ++ ")".

Definition parse_selected_id (selected : string) : result Z :=
  match nth_error (PyStr.split "ID: " selected) 1 with
  | None => Raise IndexError
  | Some part => PyStr.int_of_str (PyStr.strip ")" part)
  end.

(** The final response of a call, as the script reads it. *)
Record response : Type := mkResponse {
  resp_url : string;
  status_code : Z;
  reason : string;
  body : payload
}.

Section Script.

(** The backend: any state machine answering requests. *)
Context {B : Type}.
Variable serve : B -> request -> reply * B.

(** [requests.get/put/post(url, ..., timeout=10)]: the request goes out;
    without a response the library raises. *)
Definition requests_send (r : request) : M B response :=
  fun s =>
    let (rep, b') := serve (backend s) r in
    let s' := mkState b' (sent s ++ [r]) (page s)
                      (random_used s) (normal_used s) (session s) in
    match rep with
    | NoReply why => (Raise (RequestException why), s')
    | Reply code why bd => (Ok (mkResponse (req_url r) code why bd), s')
    end.

(** [response.raise_for_status()]: [requests] raises [HTTPError] for the
    status codes 400 to 599 and for no other. *)
Definition raise_for_status (r : response) : M B unit :=
  let c := status_code r in
  if (400 <=? c)%Z && (c <? 500)%Z then
    raise (RequestException (PyStr.str_of_int c ++ " Client Error: " ++ reason r
                             ++ " for url: " ++ resp_url r))
  else if (500 <=? c)%Z && (c <? 600)%Z then
    raise (RequestException (PyStr.str_of_int c ++ " Server Error: " ++ reason r
                             ++ " for url: " ++ resp_url r))
  else ret tt.

(** [response.json()]: [requests]' [JSONDecodeError] is a
    [RequestException] (since requests 2.27). *)
Definition response_json (r : response) : M B json :=
  match body r with
  | Json v => ret v
  | NotJson why => raise (RequestException why)
  end.

Definition fetch_data (endpoint : string) (params : option (list (string * json))) : M B json :=
  try_except
    (response <- requests_send (mkRequest GET (API_BASE_URL ++ "/" ++ endpoint) params None) ;;
     raise_for_status response ;;;
     response_json response)
    (fun e =>
       show (ErrorBox ("Error fetching data from " ++ endpoint ++ ": " ++ e)) ;;;
       ret JNull).

Definition update_data (endpoint : string) (data : json) : M B json :=
  try_except
    (response <- requests_send (mkRequest PUT (API_BASE_URL ++ "/" ++ endpoint) None (Some data)) ;;
     raise_for_status response ;;;
     response_json response)
    (fun e =>
       show (ErrorBox ("Error updating data at " ++ endpoint ++ ": " ++ e)) ;;;
       ret JNull).

Definition create_data (endpoint : string) (data : json) : M B json :=
  try_except
    (response <- requests_send (mkRequest POST (API_BASE_URL ++ "/" ++ endpoint) None (Some data)) ;;
     raise_for_status response ;;;
     response_json response)
    (fun e =>
       show (ErrorBox ("Error creating data at " ++ endpoint ++ ": " ++ e)) ;;;
       ret JNull).

(** ** Widgets

    A widget shows itself and returns what the user entered. *)
Variable env : Env.

Definition text_input (label : string) : M B string :=
  show (TextInput label) ;;; ret (typed env label).

(** [st.number_input(label, min_value=lo, step=1)] *)
Definition number_input (label : string) (lo : Z) : M B Z :=
  show (NumberInput label) ;;; ret (Z.max lo (number env label)).

(** [st.selectbox(label, options, key=key)] over a non-empty option list:
    the chosen option, the first one when nothing (or nothing still on
    offer) is chosen. *)
Definition pick (key : string) (first : string) (others : list string) : string :=
  match chosen env key with
  | Some v => if existsb (String.eqb v) (first :: others) then v else first
  | _ => first
  end.

Definition selectbox (label key : string) (first : string) (others : list string) : M B string :=
  show (SelectBox label (map JStr (first :: others))) ;;; ret (pick key first others).

Definition radio (label : string) (first : string) (others : list string) : M B string :=
  show (Radio label (first :: others)) ;;; ret (pick label first others).

Definition button (label key : string) : M B bool :=
  show (Button label) ;;; ret (pressed env key).

Definition form_submit_button (form label : string) : M B bool :=
  show (SubmitButton form label) ;;; ret (pressed env form).

(** ** The generators *)

(** [random.choice(xs)]: the element at a draw below [len(xs)]. *)
Definition random_choice {A : Type} (xs : list A) : M B A :=
  fun s =>
    match xs with
    | [] => (Raise IndexError, s)
    | x :: _ =>
        let i := (random_draw env (random_used s) mod List.length xs)%nat in
        (Ok (nth i xs x),
         mkState (backend s) (sent s) (page s)
                 (S (random_used s)) (normal_used s) (session s))
    end.

(** [np.random.normal(loc, scale)] *)
Definition np_random_normal (loc scale : float) : M B float :=
  fun s =>
    (Ok (normal_draw env (normal_used s) loc scale),
     mkState (backend s) (sent s) (page s)
             (random_used s) (S (normal_used s)) (session s)).

(** ** Dashboard page *)

(** [format_status(row['Status'])]: only text has [.lower()]. *)
Definition format_status_cell (v : json) : result string :=
  match v with
  | JStr s => Ok (format_status s)
  | _ => Raise (AttributeError "object has no attribute 'lower'")
  end.

Definition recent_shipment_card (df : frame) (row : list (string * json)) : M B unit :=
  status <- lift (cell df row "Status") ;;
  status_html <- lift (format_status_cell status) ;;
  name <- lift (cell df row "ShipmentName") ;;
  id <- lift (cell df row "ShipmentID") ;;
  customer <- lift (cell df row "CustomerName") ;;
  parcel <- lift (cell df row "ParcelName") ;;
  location <- lift (cell df row "CurrentLocation") ;;
  show (Card [("Shipment", name); ("ID", id); ("Customer", customer);
              ("Parcel", parcel); ("Status", JStr status_html);
              ("Location", location)]).

Definition dashboard_page : M B unit :=
  show (Header "DHL Logistics Dashboard") ;;;
  dashboard_data <- fetch_data "dashboard/summary" None ;;
  if Py.truthy dashboard_data then
    total_customers <- lift (Py.get dashboard_data "total_customers" (JInt 0)) ;;
    show (MetricCard "Total Customers" total_customers) ;;;
    total_parcels <- lift (Py.get dashboard_data "total_parcels" (JInt 0)) ;;
    show (MetricCard "Total Parcels" total_parcels) ;;;
    total_shipments <- lift (Py.get dashboard_data "total_shipments" (JInt 0)) ;;
    show (MetricCard "Total Shipments" total_shipments) ;;;
    on_time <- lift (Py.get dashboard_data "on_time_percentage" (JInt 0)) ;;
    on_time <- lift (format_1f on_time) ;;
    show (MetricCard1f "On-Time Delivery" on_time "%") ;;;
    show (SubHeader "Shipment Status Breakdown") ;;;
    status_data <- lift (Py.get dashboard_data "status_breakdown" (JDict [])) ;;
    (if Py.truthy status_data then
       names <- lift (py_keys status_data) ;;
       values <- lift (py_values status_data) ;;
       show (PieChart EmptyString names values)
     else show (InfoBox "No status data available")) ;;;
    show (SubHeader "Performance Metrics") ;;;
    efficiency <- lift (Py.get dashboard_data "efficiency" (JInt 0)) ;;
    show (GaugeChart "Efficiency Score" efficiency) ;;;
    show (SubHeader "Recent Shipments") ;;;
    recent_shipments <- lift (Py.get dashboard_data "recent_shipments" (JList [])) ;;
    (if Py.truthy recent_shipments then
       df <- lift (pd_DataFrame recent_shipments) ;;
       for_each df (recent_shipment_card df)
     else show (InfoBox "No recent shipments to display"))
  else ret tt.

(** ** Customers page *)

(** The two filters of the customer list: [filter_name] through
    [Series.str.contains(filter_name, case=False)] when it is not empty,
    [filter_type] by equality when it is not ["All"]. *)
Definition name_matches (df : frame) (filter_name : string) (row : list (string * json)) : result bool :=
  v <~ cell df row "Name" ;;
  name <~ as_text "a customer name that is not text" v ;;
  re_search_ignorecase filter_name name.

Definition type_is (df : frame) (filter_type : string) (row : list (string * json)) : result bool :=
  v <~ cell df row "Type" ;;
  Ok (match v with JStr t => String.eqb t filter_type | _ => false end).

Definition filter_customers (df : frame) (filter_name filter_type : string) : result frame :=
  filtered_df <~ (if negb (String.eqb filter_name EmptyString)
                  then filter_r (name_matches df filter_name) df
                  else Ok df) ;;
  if negb (String.eqb filter_type "All")
  then filter_r (type_is df filter_type) filtered_df
  else Ok filtered_df.

Definition customer_card (df : frame) (row : list (string * json)) : M B unit :=
  name <- lift (cell df row "Name") ;;
  id <- lift (cell df row "CustomerID") ;;
  type <- lift (cell df row "Type") ;;
  email <- lift (cell df row "Email") ;;
  phone <- lift (cell df row "Phone") ;;
  address <- lift (cell df row "Address") ;;
  show (Card [("Name", name); ("ID", id); ("Type", type); ("Email", email);
              ("Phone", phone); ("Address", address)]) ;;;
  id_text <- lift (py_str id) ;;
  clicked <- button ("View Details #" ++ id_text) ("view_" ++ id_text) ;;
  if clicked then
    customer_details <- fetch_data ("customers/" ++ id_text) None ;;
    if Py.truthy customer_details then
      session_set "customer_filter" id ;;;
      st_rerun
    else ret tt
  else ret tt.

Definition customer_list_tab : M B unit :=
  customers <- fetch_data "customers" (Some [("limit", JInt 100)]) ;;
  if Py.truthy customers then
    df <- lift (pd_DataFrame customers) ;;
    filter_name <- text_input "Filter by Name" ;;
    types <- lift (column df "Type") ;;
    types <- lift (all_text "a customer type that is not text" types) ;;
    filter_type <- selectbox "Filter by Type" "Filter by Type" "All"
                             (list_set (hash_rank env) types) ;;
    filtered_df <- lift (filter_customers df filter_name filter_type) ;;
    match filtered_df with
    | _ :: _ => for_each filtered_df (customer_card df)
    | [] => show (InfoBox "No customers found with the selected filters")
    end
  else show (ErrorBox "Failed to load customer data").

(** The [new_customer_form] block. *)
Definition new_customer_form : M B unit :=
  id <- number_input "Customer ID" 1 ;;
  name <- text_input "Name" ;;
  email <- text_input "Email" ;;
  phone <- text_input "Phone" ;;
  address <- text_input "Address" ;;
  type <- selectbox "Type" "Type" "Individual" ["Business"; "Corporate"; "Government"] ;;
  let new_customer :=
    JDict [("CustomerID", JInt id); ("Name", JStr name); ("Email", JStr email);
           ("Phone", JStr phone); ("Address", JStr address); ("Type", JStr type)] in
  submit_button <- form_submit_button "new_customer_form" "Add Customer" ;;
  if submit_button then
    if Py.truthy (JStr name) && Py.truthy (JStr email) then
      result <- create_data "customers" new_customer ;;
      if Py.truthy result then show (SuccessBox "Customer added successfully!")
      else ret tt
    else show (WarningBox "Please fill in all required fields")
  else ret tt.

Definition customers_page : M B unit :=
  show (Header "Customer Management") ;;;
  customer_list_tab ;;;
  show (SubHeader "Add New Customer") ;;;
  new_customer_form.

(** ** Parcels page *)

(** [f"{c['Name']} (ID: {c[id_key]})"] *)
Definition option_of (name_key id_key : string) (c : json) : result string :=
  name <~ Py.subscript c name_key ;;
  id <~ Py.subscript c id_key ;;
  name_text <~ py_str name ;;
  id_text <~ py_str id ;;
  Ok (option_label name_text id_text).

(** [[f"..." for c in v]] *)
Definition options_of (name_key id_key : string) (v : json) : result (list string) :=
  items <~ py_iter v ;;
  map_r (option_of name_key id_key) items.

Definition shipment_card (df : frame) (row : list (string * json)) : M B unit :=
  status <- lift (cell df row "Status") ;;
  status_html <- lift (format_status_cell status) ;;
  name <- lift (cell df row "ShipmentName") ;;
  id <- lift (cell df row "ShipmentID") ;;
  location <- lift (cell df row "CurrentLocation") ;;
  shipped <- lift (cell df row "ShipmentDate") ;;
  delivered <- lift (cell df row "DeliveryDate") ;;
  show (Card [("Shipment", name); ("ID", id); ("Status", JStr status_html);
              ("Current Location", location); ("Shipping Date", shipped);
              ("Delivery Date", delivered)]).

Definition parcel_columns : list string :=
  ["ParcelID"; "ParcelName"; "CustomerID"; "Weight"; "Type"; "ShippingMethod"].

(** [s['ParcelID'] == int(selected_parcel_id)] *)
Definition for_parcel (selected_parcel_id : string) (s : json) : result bool :=
  v <~ Py.subscript s "ParcelID" ;;
  n <~ PyStr.int_of_str selected_parcel_id ;;
  Ok (py_eq_int v n).

Definition parcel_details (selected_parcel_id : string) : M B unit :=
  parcel_detail <- fetch_data ("parcels/" ++ selected_parcel_id) None ;;
  if Py.truthy parcel_detail then
    v <- lift (Py.subscript parcel_detail "ParcelName") ;;
    show (Markdown "**Parcel Name:**" [v]) ;;;
    v <- lift (Py.subscript parcel_detail "CustomerID") ;;
    show (Markdown "**Customer ID:**" [v]) ;;;
    v <- lift (Py.subscript parcel_detail "Type") ;;
    show (Markdown "**Type:**" [v]) ;;;
    v <- lift (Py.subscript parcel_detail "Weight") ;;
    show (Markdown "**Weight:** kg" [v]) ;;;
    v <- lift (Py.subscript parcel_detail "ShippingMethod") ;;
    show (Markdown "**Shipping Method:**" [v]) ;;;
    shipments <- fetch_data "shipments" (Some [("limit", JInt 100)]) ;;
    if Py.truthy shipments then
      items <- lift (py_iter shipments) ;;
      parcel_shipments <- lift (filter_r (for_parcel selected_parcel_id) items) ;;
      match parcel_shipments with
      | _ :: _ =>
          show (Markdown "### Associated Shipments" []) ;;;
          shipment_df <- lift (pd_DataFrame (JList parcel_shipments)) ;;
          for_each shipment_df (shipment_card shipment_df)
      | [] => show (InfoBox "No shipments found for this parcel")
      end
    else ret tt
  else ret tt.

Definition parcels_page : M B unit :=
  show (Header "Parcel Management") ;;;
  parcels <- fetch_data "parcels" (Some [("limit", JInt 100)]) ;;
  customers <- fetch_data "customers" (Some [("limit", JInt 100)]) ;;
  parcels <- (if Py.truthy customers then
                customer_options <- lift (options_of "Name" "CustomerID" customers) ;;
                selected_customer <- selectbox "Filter by Customer" "Filter by Customer"
                                               "All" customer_options ;;
                if negb (String.eqb selected_customer "All") then
                  customer_id <- lift (parse_selected_id selected_customer) ;;
                  fetch_data "parcels" (Some [("customer_id", JInt customer_id);
                                              ("limit", JInt 100)])
                else ret parcels
              else ret parcels) ;;
  if Py.truthy parcels then
    df <- lift (pd_DataFrame parcels) ;;
    show (SubHeader "Parcels List") ;;;
    rows <- lift (map_r (fun row => map_r (cell df row) parcel_columns) df) ;;
    show (Table parcel_columns rows) ;;;
    ids <- lift (column df "ParcelID") ;;
    id_texts <- lift (map_r py_str ids) ;;
    selected_parcel_id <- selectbox "Select Parcel for Details" "Select Parcel for Details"
                                    "None" id_texts ;;
    if negb (String.eqb selected_parcel_id "None") then parcel_details selected_parcel_id
    else ret tt
  else show (ErrorBox "Failed to load parcel data").

(** ** Shipments page *)

(** The mock city table, in the order the dict literal gives. *)
Definition locations : list (string * (float * float)) :=
  [("New York", (40.7128, -74.0060)%float);
   ("Los Angeles", (34.0522, -118.2437)%float);
   ("Chicago", (41.8781, -87.6298)%float);
   ("Houston", (29.7604, -95.3698)%float);
   ("Phoenix", (33.4484, -112.0740)%float);
   ("Philadelphia", (39.9526, -75.1652)%float);
   ("San Antonio", (29.4241, -98.4936)%float);
   ("San Diego", (32.7157, -117.1611)%float);
   ("Dallas", (32.7767, -96.7970)%float);
   ("San Jose", (37.3382, -121.8863)%float);
   ("Austin", (30.2672, -97.7431)%float);
   ("Jacksonville", (30.3322, -81.6557)%float);
   ("San Francisco", (37.7749, -122.4194)%float);
   ("Columbus", (39.9612, -82.9988)%float);
   ("Indianapolis", (39.7684, -86.1581)%float);
   ("Seattle", (47.6062, -122.3321)%float);
   ("Denver", (39.7392, -104.9903)%float);
   ("Washington", (38.9072, -77.0369)%float);
   ("Boston", (42.3601, -71.0589)%float);
   ("Nashville", (36.1627, -86.7816)%float)].

(** [locations[k]] *)
Definition locations_at (k : string) : result (float * float) :=
  match Py.lookup k locations with
  | Some p => Ok p
  | None => Raise (KeyError k)
  end.

(** The placement of one shipment: its own city when the table has it,
    a randomly chosen city of the table otherwise. *)
Definition map_placement (location : json) : M B (float * float) :=
  known <- lift (in_dict location locations) ;;
  if known then
    match location with
    | JStr city => lift (locations_at city)
    | _ => raise (KeyError "location")
    end
  else
    random_location <- random_choice (Py.keys locations) ;;
    lift (locations_at random_location).

Definition map_data_row (df : frame) (row : list (string * json)) : M B map_row :=
  location <- lift (cell df row "CurrentLocation") ;;
  p <- map_placement location ;;
  id <- lift (cell df row "ShipmentID") ;;
  name <- lift (cell df row "ShipmentName") ;;
  status <- lift (cell df row "Status") ;;
  ret (mkMapRow id name status location (fst p) (snd p)).

Definition color_mapping : list (string * string) :=
  [("Processing", "black"); ("In Transit", "orange");
   ("Delivered", "green"); ("Delayed", "red")].

(** [color_mapping.get(x, 'gray')] *)
Definition color_of (x : json) : result string :=
  match x with
  | JStr s => Ok (match Py.lookup s color_mapping with Some c => c | None => "gray" end)
  | JList _ | JDict _ => Raise (TypeError "unhashable type")
  | _ => Ok "gray"
  end.

(** The per-shipment status update form. *)
Definition status_update_form (id : json) : M B unit :=
  id_text <- lift (py_str id) ;;
  new_status <- selectbox "New Status" ("status_" ++ id_text)
                          "Processing" ["In Transit"; "Delivered"; "Delayed"] ;;
  submitted <- form_submit_button ("update_form_" ++ id_text) "Update Status" ;;
  if submitted then
    result <- update_data ("shipments/" ++ id_text ++ "/status")
                          (JDict [("Status", JStr new_status)]) ;;
    if Py.truthy result then
      show (SuccessBox ("Updated status to " ++ new_status)) ;;;
      st_rerun
    else ret tt
  else ret tt.

Definition shipment_entry (df : frame) (row : list (string * json)) : M B unit :=
  shipment_card df row ;;;
  id <- lift (cell df row "ShipmentID") ;;
  status_update_form id.

Definition shipments_page : M B unit :=
  show (Header "Shipment Tracking") ;;;
  selected_status <- selectbox "Filter by Status" "Filter by Status" "All"
                               ["Processing"; "In Transit"; "Delivered"; "Delayed"] ;;
  customers <- fetch_data "customers" (Some [("limit", JInt 100)]) ;;
  selected_customer <- (if Py.truthy customers then
                          customer_options <- lift (options_of "Name" "CustomerID" customers) ;;
                          chosen_one <- selectbox "Filter by Customer" "Filter by Customer"
                                                  "All" customer_options ;;
                          ret (Some chosen_one)
                        else ret None) ;;
  let params := [("limit", JInt 100)] in
  let params := if negb (String.eqb selected_status "All")
                then params ++ [("status", JStr selected_status)] else params in
  params <- match selected_customer with
            | None => raise (NameError "selected_customer")
            | Some selected =>
                if negb (String.eqb selected "All") then
                  customer_id <- lift (parse_selected_id selected) ;;
                  ret (params ++ [("customer_id", JInt customer_id)])
                else ret params
            end ;;
  shipments <- fetch_data "shipments" (Some params) ;;
  if Py.truthy shipments then
    df <- lift (pd_DataFrame shipments) ;;
    show (SubHeader "Shipment Locations") ;;;
    map_data <- map_m (map_data_row df) df ;;
    colors <- lift (map_r (fun r => color_of (mr_Status r)) map_data) ;;
    show (MapChart map_data colors) ;;;
    show (SubHeader "Shipment List") ;;;
    for_each df (shipment_entry df)
  else show (ErrorBox "Failed to load shipment data").

(** ** Personnel page *)

Definition person_card (df : frame) (row : list (string * json)) : M B unit :=
  name <- lift (cell df row "Name") ;;
  role <- lift (cell df row "Role") ;;
  id <- lift (cell df row "PersonnelID") ;;
  phone <- lift (cell df row "Phone") ;;
  show (Card [("Name", name); ("Role", role); ("ID", id); ("Phone", phone)]).

(** [st.selectbox(label, options)] over a computed option list; with no
    option it returns [None], whose [.split] does not exist. *)
Definition selectbox_of (label : string) (options : list string) : M B string :=
  match options with
  | first :: others => selectbox label label first others
  | [] =>
      show (SelectBox label []) ;;;
      raise (AttributeError "'NoneType' object has no attribute 'split'")
  end.

Definition personnel_assignment (personnel : json) : M B unit :=
  shipments <- fetch_data "shipments" (Some [("limit", JInt 100)]) ;;
  shipment <- (if Py.truthy shipments then
                 shipment_options <- lift (options_of "ShipmentName" "ShipmentID" shipments) ;;
                 selected_shipment <- selectbox_of "Select Shipment" shipment_options ;;
                 shipment_id <- lift (parse_selected_id selected_shipment) ;;
                 ret (Some (selected_shipment, shipment_id))
               else
                 show (ErrorBox "Could not load shipments") ;;;
                 ret None) ;;
  personnel_options <- lift (options_of "Name" "PersonnelID" personnel) ;;
  selected_personnel <- selectbox_of "Select Personnel" personnel_options ;;
  personnel_id <- lift (parse_selected_id selected_personnel) ;;
  submit <- form_submit_button "personnel_assignment" "Assign to Shipment" ;;
  if submit then
    match shipment with
    | Some (selected_shipment, shipment_id) =>
        if negb (shipment_id =? 0)%Z then
          show (SuccessBox ("Assigned " ++ selected_personnel ++ " to " ++ selected_shipment)) ;;;
          show (Markdown "### Current Assignments" []) ;;;
          show (InfoBox "This is a demo view. In a real application, this would show actual data from the API.") ;;;
          show (Card [("Shipment", JStr selected_shipment);
                      ("Assigned Personnel", JStr selected_personnel)])
        else ret tt
    | None => ret tt
    end
  else ret tt.

Definition personnel_page : M B unit :=
  show (Header "Personnel Management") ;;;
  role_filter <- selectbox "Filter by Role" "Filter by Role" "All"
                           ["Driver"; "Warehouse"; "Customer Service"; "Manager"] ;;
  let params := [("limit", JInt 100)] in
  let params := if negb (String.eqb role_filter "All")
                then params ++ [("role", JStr role_filter)] else params in
  personnel <- fetch_data "personnel" (Some params) ;;
  if Py.truthy personnel then
    df <- lift (pd_DataFrame personnel) ;;
    show (SubHeader "Personnel Directory") ;;;
    for_each df (person_card df) ;;;
    show (SubHeader "Assign Personnel to Shipment") ;;;
    personnel_assignment personnel
  else show (ErrorBox "Failed to load personnel data").

(** ** Analytics page *)

(** An integer as a float, as [base + noise] converts it. *)
Definition float_of_int (n : Z) : result float :=
  if (Z.abs n <? 2 ^ 63)%Z then
    let m := PrimFloat.of_uint63 (Uint63.of_Z (Z.abs n)) in
    Ok (if (n <? 0)%Z then PrimFloat.opp m else m)
  else Raise (Unmodelled "float() of an integer of 2^63 or more").

Definition as_float (v : json) : result float :=
  match v with
  | JFloat x => Ok x
  | JInt n => float_of_int n
  | JBool b => Ok (if b then 1%float else 0%float)
  | _ => Raise (TypeError "unsupported operand type(s) for +")
  end.

(** One point of a mock trend: [max(min(base + noise, upper), lower)]. *)
Definition trend_point (lower upper base noise : float) : float :=
  Py.max (Py.min (PrimFloat.add base noise) upper) lower.

(** [[max(min(base + np.random.normal(0, scale), upper), lower)
      for _ in range(n)]] *)
Fixpoint trend_series (n : nat) (base scale upper lower : float) : M B (list float) :=
  match n with
  | O => ret []
  | S n' =>
      noise <- np_random_normal 0%float scale ;;
      rest <- trend_series n' base scale upper lower ;;
      ret (trend_point lower upper base noise :: rest)
  end.

(** [[(datetime.now() - timedelta(days=i)).strftime('%Y-%m-%d')
      for i in range(30, 0, -1)]] *)
Definition trend_dates : list string :=
  map (fun i => strftime_ymd (today env - Z.of_nat i)) (List.rev (seq 1 30)).

Definition kpi_card (kpi_data : json) (key label suffix : string) : M B unit :=
  v <- lift (Py.get kpi_data key (JInt 0)) ;;
  v <- lift (format_1f v) ;;
  show (MetricCard1f label v suffix).

Definition kpi_base (kpi_data : json) (key : string) (default : Z) : M B float :=
  v <- lift (Py.get kpi_data key (JInt default)) ;;
  lift (as_float v).

Definition analytics_page : M B unit :=
  show (Header "Analytics & KPIs") ;;;
  kpi_data <- fetch_data "analytics/kpi" None ;;
  analytics_data <- fetch_data "analytics" (Some [("limit", JInt 100)]) ;;
  customer_insights <- fetch_data "dashboard/customer-insights" None ;;
  if Py.truthy kpi_data && Py.truthy analytics_data && Py.truthy customer_insights then
    kpi_card kpi_data "avg_efficiency" "Average Efficiency" "%" ;;;
    kpi_card kpi_data "avg_customer_rating" "Customer Satisfaction" "/5" ;;;
    kpi_card kpi_data "on_time_percentage" "On-Time Delivery" "%" ;;;
    show (SubHeader "KPI Trends (Last 30 Days)") ;;;
    let dates := trend_dates in
    base_efficiency <- kpi_base kpi_data "avg_efficiency" 75 ;;
    efficiency_data <- trend_series 30 base_efficiency 5%float 100%float 50%float ;;
    base_rating <- kpi_base kpi_data "avg_customer_rating" 4 ;;
    rating_data <- trend_series 30 base_rating 0.3%float 5%float 1%float ;;
    base_ontime <- kpi_base kpi_data "on_time_percentage" 85 ;;
    ontime_data <- trend_series 30 base_ontime 3%float 100%float 70%float ;;
    show (LineChart "Efficiency Score Trend" dates efficiency_data) ;;;
    show (LineChart "Customer Satisfaction Trend" dates rating_data) ;;;
    show (LineChart "On-Time Delivery Trend" dates ontime_data) ;;;
    show (SubHeader "Customer Insights") ;;;
    has_distribution <- lift (Py.has_key "customer_distribution" customer_insights) ;;
    (if has_distribution then
       customer_dist <- lift (Py.subscript customer_insights "customer_distribution") ;;
       xs <- lift (py_keys customer_dist) ;;
       ys <- lift (py_values customer_dist) ;;
       show (BarChart "Customer Type Distribution" xs ys)
     else ret tt) ;;;
    has_methods <- lift (Py.has_key "shipping_methods" analytics_data) ;;
    (if has_methods then
       shipping_methods <- lift (Py.subscript analytics_data "shipping_methods") ;;
       names <- lift (py_keys shipping_methods) ;;
       values <- lift (py_values shipping_methods) ;;
       show (PieChart "Shipping Volume by Method" names values)
     else ret tt)
  else show (ErrorBox "Failed to load analytics data").

(** ** Network Visualization page *)

Definition add_hub (g : nx_graph) (hub : json) : result nx_graph :=
  name <~ Py.subscript hub "name" ;;
  lon <~ Py.subscript hub "lon" ;;
  lat <~ Py.subscript hub "lat" ;;
  size <~ Py.subscript hub "size" ;;
  n <~ as_text "a hub name that is not text" name ;;
  Ok (nx_add_node g n (lon, lat) size).

Definition add_route (g : nx_graph) (route : json) : result nx_graph :=
  origin <~ Py.subscript route "origin" ;;
  destination <~ Py.subscript route "destination" ;;
  _ <~ Py.subscript route "volume" ;;
  u <~ as_text "a route end that is not text" origin ;;
  v <~ as_text "a route end that is not text" destination ;;
  Ok (nx_add_edge g u v).

Fixpoint fold_r {A S : Type} (f : S -> A -> result S) (xs : list A) (s : S) : result S :=
  match xs with
  | [] => Ok s
  | x :: xs' => s' <~ f s x ;; fold_r f xs' s'
  end.

Definition edge_segment (g : nx_graph) (e : string * string) : result ((json * json) * (json * json)) :=
  p0 <~ nx_pos_of g (fst e) ;;
  p1 <~ nx_pos_of g (snd e) ;;
  Ok (p0, p1).

Definition node_marker (g : nx_graph) (n : string) : result (json * json * string * json) :=
  p <~ nx_pos_of g n ;;
  size <~ nx_size_of g n ;;
  size10 <~ times_ten size ;;
  Ok (fst p, snd p, n, size10).

Definition whole_table (v : json) : M B unit :=
  df <- lift (pd_DataFrame v) ;;
  show (Table (columns df)
              (map (fun row => map (fun k => match Py.lookup k row with
                                             | Some x => x
                                             | None => JFloat nan
                                             end) (columns df)) df)).

Definition network_page : M B unit :=
  show (Header "Logistics Network") ;;;
  network_data <- fetch_data "network" None ;;
  if Py.truthy network_data then
    show (SubHeader "Network Overview") ;;;
    v <- lift (Py.get network_data "total_hubs" (JInt 0)) ;;
    show (MetricCard "Total Hubs" v) ;;;
    v <- lift (Py.get network_data "active_routes" (JInt 0)) ;;
    show (MetricCard "Active Routes" v) ;;;
    v <- lift (Py.get network_data "fleet_size" (JInt 0)) ;;
    show (MetricCard "Fleet Size" v) ;;;
    show (SubHeader "Network Map") ;;;
    has_hubs <- lift (Py.has_key "hubs" network_data) ;;
    has_routes <- (if has_hubs then lift (Py.has_key "routes" network_data) else ret false) ;;
    if has_routes then
      hubs <- lift (Py.subscript network_data "hubs") ;;
      hub_items <- lift (py_iter hubs) ;;
      G <- lift (fold_r add_hub hub_items nx_Graph) ;;
      routes <- lift (Py.subscript network_data "routes") ;;
      route_items <- lift (py_iter routes) ;;
      G <- lift (fold_r add_route route_items G) ;;
      edges <- lift (map_r (edge_segment G) (nx_edges G)) ;;
      nodes <- lift (map_r (node_marker G) (Py.keys (nx_nodes G))) ;;
      show (NetworkChart nodes edges) ;;;
      show (SubHeader "Hub List") ;;;
      whole_table hubs ;;;
      has_fleet <- lift (Py.has_key "fleet" network_data) ;;
      if has_fleet then
        show (SubHeader "Fleet Information") ;;;
        fleet <- lift (Py.subscript network_data "fleet") ;;
        whole_table fleet
      else ret tt
    else show (ErrorBox "Incomplete network data")
  else show (ErrorBox "Failed to load network data").

(** ** The script, top to bottom *)

Definition navigation_options : list string :=
  ["Dashboard"; "Shipments"; "Customers"; "Parcels"; "Analytics"].

(** The branches of the [if page == ...: / elif ...] chain. *)
Inductive branch : Type :=
| DashboardBranch
| CustomersBranch
| ParcelsBranch
| ShipmentsBranch
| PersonnelBranch
| AnalyticsBranch
| NetworkBranch
| NoBranch.

Definition dispatch (page : string) : branch :=
  if String.eqb page "Dashboard" then DashboardBranch
  else if String.eqb page "Customers" then CustomersBranch
  else if String.eqb page "Parcels" then ParcelsBranch
  else if String.eqb page "Shipments" then ShipmentsBranch
  else if String.eqb page "Personnel" then PersonnelBranch
  else if String.eqb page "Analytics" then AnalyticsBranch
  else if String.eqb page "Network Visualization" then NetworkBranch
  else NoBranch.

Definition render (b : branch) : M B unit :=
  match b with
  | DashboardBranch => dashboard_page
  | CustomersBranch => customers_page
  | ParcelsBranch => parcels_page
  | ShipmentsBranch => shipments_page
  | PersonnelBranch => personnel_page
  | AnalyticsBranch => analytics_page
  | NetworkBranch => network_page
  | NoBranch => ret tt
  end.

(** [if k not in st.session_state: st.session_state.k = None] *)
Definition session_default (k : string) : M B unit :=
  fun s =>
    match Py.lookup k (session s) with
    | Some _ => (Ok tt, s)
    | None => session_set k JNull s
    end.

Definition script : M B unit :=
  show (Markdown "<style>" []) ;;;
  show (Markdown "<div class='main-header'>DHL Logistics</div>" []) ;;;
  show (Markdown "dhl-logo.svg" []) ;;;
  page <- radio "Navigation" "Dashboard" ["Shipments"; "Customers"; "Parcels"; "Analytics"] ;;
  show (Markdown "---" []) ;;;
  show (Markdown "### Filters" []) ;;;
  session_default "customer_filter" ;;;
  session_default "status_filter" ;;;
  render (dispatch page) ;;;
  show (InfoBox "This is a demo dashboard for DHL Logistics. Data is simulated.").

(** One run of the script from a state: what it returned or raised, and
    the state it left. *)
Definition run (s : state B) : result unit * state B := script s.

End Script.

(** ** Vocabulary of the statements

    Names for what the theorems below talk about: the requests the helpers
    send, the states a request or an element leads to, and the wording of
    the specification where a theorem compares the code with it. *)

(** The requests [fetch_data], [update_data] and [create_data] send. *)
Definition get_request (endpoint : string) (params : option (list (string * json))) : request :=
  mkRequest GET (API_BASE_URL ++ "/" ++ endpoint) params None.

Definition put_request (endpoint : string) (data : json) : request :=
  mkRequest PUT (API_BASE_URL ++ "/" ++ endpoint) None (Some data).

Definition post_request (endpoint : string) (data : json) : request :=
  mkRequest POST (API_BASE_URL ++ "/" ++ endpoint) None (Some data).

(** The state once a request has gone out and the backend has moved. *)
Definition after_request {B : Type} (s : state B) (r : request) (b' : B) : state B :=
  mkState b' (sent s ++ [r]) (page s) (random_used s) (normal_used s) (session s).

(** The state with one more element on the page. *)
Definition with_element {B : Type} (s : state B) (e : element) : state B :=
  mkState (backend s) (sent s) (page s ++ [e]) (random_used s) (normal_used s) (session s).

(** A reply the helpers turn into [None]: no response, a 4xx or 5xx
    status, or a body that is not JSON. *)
Definition http_failure (rep : reply) : Prop :=
  match rep with
  | NoReply _ => True
  | Reply _ _ (NotJson _) => True
  | Reply code _ (Json _) => (400 <= code < 600)%Z
  end.

(** What the three helpers share inside their [try]: one request, the
    status check, the decoding. *)
Definition call {B : Type} (serve : B -> request -> reply * B) (r : request) : M B json :=
  (response <- requests_send serve r ;;
   raise_for_status response ;;;
   response_json response)%script.

(** Every character of a string passes a test. *)
Fixpoint all_chars (p : ascii -> bool) (s : string) : bool :=
  match s with
  | EmptyString => true
  | String c s' => p c && all_chars p s'
  end.

Definition is_digit (c : ascii) : bool :=
  let n := nat_of_ascii c in (48 <=? n)%nat && (n <=? 57)%nat.

(** The specification's wording for the status styling: two strings are
    the same when compared case-insensitively and without the separating
    spaces.  The hyphenated spelling is a key of its own. *)
Definition same_ignoring_case_and_spaces (a b : string) : Prop :=
  PyStr.lower (PyStr.replace_char " " EmptyString a)
  = PyStr.lower (PyStr.replace_char " " EmptyString b).


Definition status_class (key : string) : string :=
  if String.eqb key "delivered" then "status-delivered"
  else if String.eqb key "intransit" || String.eqb key "in-transit" then "status-intransit"
  else if String.eqb key "processing" then "status-processing"
  else "status-delayed".










(** A state to start a run from. *)
Definition initial {B : Type} (b : B) : state B := mkState b [] [] 0 0 [].

(** An environment in which nothing was typed, chosen or pressed. *)
Definition idle : Env :=
  mkEnv (fun _ => EmptyString) (fun _ => 0%Z) (fun _ => None) (fun _ => false)
        (fun _ => 0) (fun _ loc _ => loc) 0%Z (fun _ => 0).

(** The status the update form offers and returns. *)
Definition new_status_of (env : Env) (id_text : string) : string :=
  pick env ("status_" ++ id_text) "Processing" ["In Transit"; "Delivered"; "Delayed"].

(** The request the update form sends for a shipment. *)
Definition status_request (env : Env) (id_text : string) : request :=
  put_request ("shipments/" ++ id_text ++ "/status")
              (JDict [("Status", JStr (new_status_of env id_text))]).

(** The state in which the update form sends it: its two widgets shown. *)
Definition update_form_shown {B : Type} (s : state B) (id_text : string) : state B :=
  with_element
    (with_element s (SelectBox "New Status"
                       (map JStr ["Processing"; "In Transit"; "Delivered"; "Delayed"])))
    (SubmitButton ("update_form_" ++ id_text) "Update Status").

(** The customer the form has collected. *)
Definition new_customer_of (env : Env) : json :=
  JDict [("CustomerID", JInt (Z.max 1 (number env "Customer ID")));
         ("Name", JStr (typed env "Name"));
         ("Email", JStr (typed env "Email"));
         ("Phone", JStr (typed env "Phone"));
         ("Address", JStr (typed env "Address"));
         ("Type", JStr (pick env "Type" "Individual" ["Business"; "Corporate"; "Government"]))].

(** The state once the form has shown its widgets. *)
Definition new_customer_form_shown {B : Type} (s : state B) : state B :=
  mkState (backend s) (sent s)
          (page s ++ [NumberInput "Customer ID"; TextInput "Name"; TextInput "Email";
                      TextInput "Phone"; TextInput "Address";
                      SelectBox "Type" (map JStr ["Individual"; "Business"; "Corporate"; "Government"]);
                      SubmitButton "new_customer_form" "Add Customer"])
          (random_used s) (normal_used s) (session s).

(** The user of the concrete runs: shipment 7's update form is submitted,
    and so is the Add Customer form, with a name and an email typed. *)
Definition submitting : Env :=
  mkEnv (fun label => if String.eqb label "Name" then "Ada"
                      else if String.eqb label "Email" then "ada@example.org"
                      else EmptyString)
        (fun _ => 1%Z) (fun _ => None)
        (fun key => String.eqb key "update_form_7" || String.eqb key "new_customer_form")
        (fun _ => 0) (fun _ loc _ => loc) 0%Z (fun _ => 0).

(** The specification's name filter: the name contains the filter text
    as a case-insensitive substring. *)
Definition contains_ignoring_case (filter_name name : string) : bool :=
  PyStr.contains (PyStr.lower filter_name) (PyStr.lower name).

(** The filter text holds no dot. *)
Definition dotless (pat : string) : bool :=
  all_chars (fun c => negb (Ascii.eqb c ".")) pat.

(** Every row has a text under the key. *)
Definition text_column (key : string) (df : frame) : Prop :=
  Forall (fun row => exists t, Py.lookup key row = Some (JStr t)) df.

(** The text a row has under a key, empty when it has none. *)
Definition text_at (key : string) (row : list (string * json)) : string :=
  match Py.lookup key row with
  | Some (JStr t) => t
  | _ => EmptyString
  end.

(** Two customers for the concrete runs. *)
Definition john_doe : list (string * json) :=
  [("CustomerID", JInt 1); ("Name", JStr "John Doe"); ("Type", JStr "Business")].

Definition jane : list (string * json) :=
  [("CustomerID", JInt 2); ("Name", JStr "Jane"); ("Type", JStr "Individual")].

(** The state after one draw of the [random] module. *)
Definition after_draw {B : Type} (s : state B) : state B :=
  mkState (backend s) (sent s) (page s) (S (random_used s)) (normal_used s) (session s).

(** The state after [n] draws of numpy's generator. *)
Definition after_normals {B : Type} (n : nat) (s : state B) : state B :=
  mkState (backend s) (sent s) (page s) (random_used s) (n + normal_used s) (session s).

(** A point lies between the bounds. *)
Definition within (lower upper y : float) : Prop :=
  PrimFloat.leb lower y = true /\ PrimFloat.leb y upper = true.

(** Example backends for the concrete runs below.  [multiple_choices]
    answers every request with status 300 and a JSON list (a status
    [requests] neither follows nor reports as an error); [empty_object]
    answers 200 with the empty object. *)
Definition multiple_choices (b : unit) (r : request) : reply * unit :=
  (Reply 300 "Multiple Choices" (Json (JList [JInt 1])), b).

Definition empty_object (b : unit) (r : request) : reply * unit :=
  (Reply 200 "OK" (Json (JDict [])), b).

(** A backend that counts the requests it has served and accepts each
    with a small JSON object. *)
Definition counting (b : nat) (r : request) : reply * nat :=
  (Reply 200 "OK" (Json (JDict [("ok", JBool true)])), S b).

(** A backend whose every answer is a KPI object with a NaN efficiency
    (Python's JSON decoder reads the literal [NaN]). *)
Definition nan_kpi (b : unit) (r : request) : reply * unit :=
  (Reply 200 "OK" (Json (JDict [("avg_efficiency", JFloat nan)])), b).

(** The user who has chosen a page on day [day] and does nothing else. *)
Definition viewing (page : string) (day : Z) : Env :=
  mkEnv (fun _ => EmptyString) (fun _ => 0%Z)
        (fun key => if String.eqb key "Navigation" then Some page else None)
        (fun _ => false) (fun _ => 0) (fun _ loc _ => loc) day (fun _ => 0).

(** C1 as first stated, for the counterexample: success on 2xx, and
    [None] with one error naming the endpoint on every other status and
    on a transport error. *)
Definition fetch_data_claim_as_stated : Prop :=
  forall (serve : unit -> request -> reply * unit) endpoint params (s : state unit),
    let rep := fst (serve (backend s) (get_request endpoint params)) in
    let out := fetch_data serve endpoint params s in
    let reported :=
      fst out = Ok JNull /\
      exists msg, page (snd out) = (page s ++ [ErrorBox msg])%list
                  /\ PyStr.contains endpoint msg = true in
    (forall code why v, rep = Reply code why (Json v) -> (200 <= code <= 299)%Z ->
       fst out = Ok v) /\
    (forall code why bd, rep = Reply code why bd -> ~ (200 <= code <= 299)%Z -> reported) /\
    (forall why, rep = NoReply why -> reported).

(** Two environments with the same entries and the same draws; the clock
    and the hash order are left free. *)
Definition same_inputs_and_draws (e1 e2 : Env) : Prop :=
  (forall k, typed e1 k = typed e2 k) /\
  (forall k, number e1 k = number e2 k) /\
  (forall k, chosen e1 k = chosen e2 k) /\
  (forall k, pressed e1 k = pressed e2 k) /\
  (forall n, random_draw e1 n = random_draw e2 n) /\
  (forall n loc scale, normal_draw e1 n loc scale = normal_draw e2 n loc scale).

(** C7 as first stated, for the counterexample: the page is a function
    of the backend, the entries and the draws alone. *)
Definition render_claim_as_stated : Prop :=
  forall (serve : nat -> request -> reply * nat) (e1 e2 : Env) (s : state nat),
    same_inputs_and_draws e1 e2 ->
    page (snd (run serve e1 s)) = page (snd (run serve e2 s)).

(** The choices of the type filter a page shows. *)
Definition type_filter_choices (p : list element) : option (list json) :=
  match find (fun e => match e with SelectBox "Filter by Type" _ => true | _ => false end) p with
  | Some (SelectBox _ choices) => Some choices
  | _ => None
  end.

(** The branch the script takes: that of the page chosen in the
    sidebar. *)
Definition chosen_page (env : Env) : branch :=
  dispatch (pick env "Navigation" "Dashboard" ["Shipments"; "Customers"; "Parcels"; "Analytics"]).

(** The same user on a process whose string hashing orders by [rank]. *)
Definition with_hash_rank (rank : string -> nat) (env : Env) : Env :=
  mkEnv (typed env) (number env) (chosen env) (pressed env)
        (random_draw env) (normal_draw env) (today env) rank.

(** A hash order that puts the longer text first. *)
Definition longest_first (k : string) : nat := 20 - String.length k.

(** The first date of the first trend chart of a page. *)
Definition first_trend_date (p : list element) : option string :=
  match find (fun e => match e with LineChart _ _ _ => true | _ => false end) p with
  | Some (LineChart _ (d :: _) _) => Some d
  | _ => None
  end.


(** ** Vocabulary of the page-level statements *)

(** What [fetch_data] hands back for a reply: the parsed body of a
    response that is no 4xx or 5xx, [None] for everything else. *)
Definition fetched (rep : reply) : json :=
  match rep with
  | Reply code _ (Json v) => if (400 <=? code)%Z && (code <? 600)%Z then JNull else v
  | _ => JNull
  end.

(** The answers of a backend to a sequence of requests, starting from
    backend state [b]. *)
Fixpoint replies {B : Type} (serve : B -> request -> reply * B) (b : B)
    (rs : list request) : list reply :=
  match rs with
  | [] => []
  | r :: rs' => fst (serve b r) :: replies serve (snd (serve b r)) rs'
  end.

(** A relation between the state a computation starts from and the state
    it leaves holds from every start. *)
Definition preserves {B A : Type} (R : state B -> state B -> Prop) (c : M B A) : Prop :=
  forall s, R s (snd (c s)).

Definition is_get (r : request) : bool :=
  match req_method r with GET => true | _ => false end.

(** The requests sent between two states all pass a test. *)
Definition adds_only {B : Type} (allowed : request -> bool) (s s' : state B) : Prop :=
  exists more, sent s' = (sent s ++ more)%list /\ forallb allowed more = true.

(** The session keeps the keys it has. *)
Definition keeps_keys {B : Type} (s s' : state B) : Prop :=
  forall k, Py.lookup k (session s) <> None -> Py.lookup k (session s') <> None.

(** What a relation has to respect to hold across a run in which the
    requests sent are the [allowed] ones. *)
Class Invariant {B : Type} (R : state B -> state B -> Prop)
    (allowed : request -> bool) : Prop := {
  R_refl : forall s, R s s;
  R_trans : forall s1 s2 s3, R s1 s2 -> R s2 s3 -> R s1 s3;
  R_show : forall s e, R s (with_element s e);
  R_random : forall s, R s (after_draw s);
  R_normal : forall s, R s (after_normals 1 s);
  R_session :
    forall s k v, R s (mkState (backend s) (sent s) (page s) (random_used s)
                               (normal_used s) (Py.assign k v (session s)));
  R_request : forall s r b', allowed r = true -> R s (after_request s r b')
}.

(** The reads are allowed. *)
Class Reads (allowed : request -> bool) : Prop := {
  allowed_get : forall endpoint params, allowed (get_request endpoint params) = true
}.

(** The writes user [env] causes are allowed. *)
Class Writes (env : Env) (allowed : request -> bool) : Prop := {
  allowed_status :
    forall id_text, pressed env ("update_form_" ++ id_text) = true ->
                    allowed (status_request env id_text) = true;
  allowed_customer :
    pressed env "new_customer_form" = true ->
    Py.truthy (JStr (typed env "Name")) && Py.truthy (JStr (typed env "Email")) = true ->
    allowed (post_request "customers" (new_customer_of env)) = true
}.

(** A user who presses no button and submits no form. *)
Definition presses_nothing (env : Env) : Prop :=
  forall key, pressed env key = false.

(** The four statuses the update form offers. *)
Definition statuses : list string :=
  ["Processing"; "In Transit"; "Delivered"; "Delayed"].

(** The address of an endpoint. *)
Definition url_of (endpoint : string) : string := API_BASE_URL ++ "/" ++ endpoint.

(** A status update: a PUT to [shipments/<id>/status] whose body is the
    one-key object [{"Status": v}] with [v] one of the four statuses. *)
Definition is_status_update (r : request) : bool :=
  match req_method r, req_params r, req_json r with
  | PUT, None, Some (JDict [(k, JStr v)]) =>
      String.eqb k "Status" && existsb (String.eqb v) statuses
      && PyStr.startswith (url_of "shipments/") (req_url r)
      && PyStr.endswith "/status" (req_url r)
  | _, _, _ => false
  end.

(** A customer creation: a POST to [customers] whose body has the six
    keys of the form, in its order, with a name and an email that are
    not empty and an id of 1 or more. *)
Definition is_new_customer (r : request) : bool :=
  match req_method r, req_params r, req_json r with
  | POST, None, Some (JDict [(k1, JInt id); (k2, JStr name); (k3, JStr email);
                             (k4, JStr _); (k5, JStr _); (k6, JStr type)]) =>
      String.eqb (req_url r) (url_of "customers")
      && forallb (fun p => String.eqb (fst p) (snd p))
           [(k1, "CustomerID"); (k2, "Name"); (k3, "Email");
            (k4, "Phone"); (k5, "Address"); (k6, "Type")]
      && (1 <=? id)%Z
      && negb (String.eqb name EmptyString) && negb (String.eqb email EmptyString)
      && existsb (String.eqb type) ["Individual"; "Business"; "Corporate"; "Government"]
  | _, _, _ => false
  end.

(** The requests the script can send at all. *)
Definition script_request (r : request) : bool :=
  is_get r || is_status_update r || is_new_customer r.

(** The three requests of the Analytics page, in order. *)
Definition analytics_requests : list request :=
  [get_request "analytics/kpi" None;
   get_request "analytics" (Some [("limit", JInt 100)]);
   get_request "dashboard/customer-insights" None].

(** An error notification. *)
Definition is_error_box (e : element) : bool :=
  match e with ErrorBox _ => true | _ => false end.

(** The user who presses every button and submits every form, with a
    name and an email typed into the Add Customer form. *)
Definition eager : Env :=
  mkEnv (fun label => if String.eqb label "Name" then "Ada"
                      else if String.eqb label "Email" then "ada@example.org"
                      else EmptyString)
        (fun _ => 1%Z) (fun key => if String.eqb key "Navigation" then Some "Customers" else None)
        (fun _ => true) (fun _ => 0) (fun _ loc _ => loc) 0%Z (fun _ => 0).

(** The Analytics page once its three payloads have arrived and are all
    true values: the block under
    [if kpi_data and analytics_data and customer_insights:]. *)
Definition analytics_charts {B : Type} (env : Env)
    (kpi_data analytics_data customer_insights : json) : M B unit :=
  (kpi_card kpi_data "avg_efficiency" "Average Efficiency" "%" ;;;
   kpi_card kpi_data "avg_customer_rating" "Customer Satisfaction" "/5" ;;;
   kpi_card kpi_data "on_time_percentage" "On-Time Delivery" "%" ;;;
   show (SubHeader "KPI Trends (Last 30 Days)") ;;;
   let dates := trend_dates env in
   base_efficiency <- kpi_base kpi_data "avg_efficiency" 75 ;;
   efficiency_data <- trend_series env 30 base_efficiency 5%float 100%float 50%float ;;
   base_rating <- kpi_base kpi_data "avg_customer_rating" 4 ;;
   rating_data <- trend_series env 30 base_rating 0.3%float 5%float 1%float ;;
   base_ontime <- kpi_base kpi_data "on_time_percentage" 85 ;;
   ontime_data <- trend_series env 30 base_ontime 3%float 100%float 70%float ;;
   show (LineChart "Efficiency Score Trend" dates efficiency_data) ;;;
   show (LineChart "Customer Satisfaction Trend" dates rating_data) ;;;
   show (LineChart "On-Time Delivery Trend" dates ontime_data) ;;;
   show (SubHeader "Customer Insights") ;;;
   has_distribution <- lift (Py.has_key "customer_distribution" customer_insights) ;;
   (if has_distribution then
      customer_dist <- lift (Py.subscript customer_insights "customer_distribution") ;;
      xs <- lift (py_keys customer_dist) ;;
      ys <- lift (py_values customer_dist) ;;
      show (BarChart "Customer Type Distribution" xs ys)
    else ret tt) ;;;
   has_methods <- lift (Py.has_key "shipping_methods" analytics_data) ;;
   (if has_methods then
      shipping_methods <- lift (Py.subscript analytics_data "shipping_methods") ;;
      names <- lift (py_keys shipping_methods) ;;
      values <- lift (py_values shipping_methods) ;;
      show (PieChart "Shipping Volume by Method" names values)
    else ret tt))%script.

(** The state [fetch_data] leaves: the backend moved, the request sent,
    and what the [except] clause showed. *)
Definition after_fetch {B : Type} (s : state B) (r : request) (b' : B)
    (shown : list element) : state B :=
  mkState b' (sent s ++ [r]) (page s ++ shown) (random_used s) (normal_used s) (session s).

(** The customers request of the Parcels and Shipments filters. *)
Definition customers_request : request :=
  get_request "customers" (Some [("limit", JInt 100)]).

(** A backend that answers nothing: every request times out. *)
Definition unreachable (b : unit) (r : request) : reply * unit :=
  (NoReply "Connection refused", b).

(** The requests of the Parcels page: all parcels, and the parcels of
    one customer. *)
Definition parcels_request : request :=
  get_request "parcels" (Some [("limit", JInt 100)]).

Definition parcels_of_customer (customer_id : Z) : request :=
  get_request "parcels" (Some [("customer_id", JInt customer_id); ("limit", JInt 100)]).

(** The status the Shipments page filters by, and the customer label the
    Parcels and Shipments pages filter by, as the user left them. *)
Definition selected_status (env : Env) : string :=
  pick env "Filter by Status" "All" ["Processing"; "In Transit"; "Delivered"; "Delayed"].

Definition selected_customer (env : Env) (labels : list string) : string :=
  pick env "Filter by Customer" "All" labels.

(** The query of the shipments request for a status, a customer label
    and the id read from that label: the keys in the order the script
    sets them. *)
Definition shipments_query (status customer : string) (customer_id : Z) : list (string * json) :=
  ([("limit", JInt 100)]
   ++ (if String.eqb status "All" then [] else [("status", JStr status)])
   ++ (if String.eqb customer "All" then [] else [("customer_id", JInt customer_id)]))%list.

(** A backend with two customers, for the concrete runs. *)
Definition two_customers (b : unit) (r : request) : reply * unit :=
  (Reply 200 "OK" (Json (JList [JDict john_doe; JDict jane])), b).

(** The user who filters by John Doe and by the status Delayed. *)
Definition filtering : Env :=
  mkEnv (fun _ => EmptyString) (fun _ => 0%Z)
        (fun key => if String.eqb key "Filter by Customer" then Some "John Doe (ID: 1)"
                    else if String.eqb key "Filter by Status" then Some "Delayed"
                    else None)
        (fun _ => false) (fun _ => 0) (fun _ loc _ => loc) 0%Z (fun _ => 0).

(** The Dashboard's request, and the keys it reads from the summary. *)
Definition dashboard_request : request := get_request "dashboard/summary" None.

Definition dashboard_keys : list string :=
  ["total_customers"; "total_parcels"; "total_shipments"; "on_time_percentage";
   "status_breakdown"; "efficiency"; "recent_shipments"].

(** The Dashboard of a summary that has none of its keys: every count
    is 0 and the two lists are replaced by their notices. *)
Definition empty_dashboard : list element :=
  [Header "DHL Logistics Dashboard";
   MetricCard "Total Customers" (JInt 0);
   MetricCard "Total Parcels" (JInt 0);
   MetricCard "Total Shipments" (JInt 0);
   MetricCard1f "On-Time Delivery" (JInt 0) "%";
   SubHeader "Shipment Status Breakdown";
   InfoBox "No status data available";
   SubHeader "Performance Metrics";
   GaugeChart "Efficiency Score" (JInt 0);
   SubHeader "Recent Shipments";
   InfoBox "No recent shipments to display"].

(** The state with more elements on the page. *)
Definition with_elements {B : Type} (s : state B) (es : list element) : state B :=
  mkState (backend s) (sent s) (page s ++ es) (random_used s) (normal_used s) (session s).

(** The request behind the View Details button of a customer. *)
Definition customer_request (id_text : string) : request :=
  get_request ("customers/" ++ id_text) None.

(** The user who presses View Details of customer 1. *)
Definition curious : Env :=
  mkEnv (fun _ => EmptyString) (fun _ => 0%Z) (fun _ => None)
        (fun key => String.eqb key "view_1")
        (fun _ => 0) (fun _ loc _ => loc) 0%Z (fun _ => 0).

(** A customer with all the cells of a card. *)
Definition ada : list (string * json) :=
  [("CustomerID", JInt 1); ("Name", JStr "Ada"); ("Type", JStr "Business");
   ("Email", JStr "ada@example.org"); ("Phone", JStr "1"); ("Address", JStr "2")].

(** A second customer, of another type, and a backend whose customers
    are Ada and Grace. *)
Definition grace : list (string * json) :=
  [("CustomerID", JInt 2); ("Name", JStr "Grace"); ("Type", JStr "Individual");
   ("Email", JStr "grace@example.org"); ("Phone", JStr "3"); ("Address", JStr "4")].

Definition ada_and_grace (b : unit) (r : request) : reply * unit :=
  (Reply 200 "OK" (Json (JList [JDict ada; JDict grace])), b).

(** Two states that differ in [st.session_state] at most. *)
Definition same_but_session {B : Type} (s1 s2 : state B) : Prop :=
  backend s1 = backend s2 /\ sent s1 = sent s2 /\ page s1 = page s2 /\
  random_used s1 = random_used s2 /\ normal_used s1 = normal_used s2.

(** A computation that does not read the session: from two such states
    it returns the same and leaves two such states. *)
Definition session_blind {B A : Type} (c : M B A) : Prop :=
  forall s1 s2, same_but_session s1 s2 ->
    fst (c s1) = fst (c s2) /\ same_but_session (snd (c s1)) (snd (c s2)).

(** A session in which View Details has stored customer 7. *)
Definition after_view_details : state nat :=
  mkState 0 [] [] 0 0 [("customer_filter", JInt 7); ("status_filter", JNull)].

(** The specification's reading of both customer filters at once: the
    name contains the filter text, case apart, and the type is the
    chosen one unless "All" is chosen. *)
Definition customer_matches (filter_name filter_type : string)
    (row : list (string * json)) : bool :=
  contains_ignoring_case filter_name (text_at "Name" row)
  && (String.eqb filter_type "All" || String.eqb (text_at "Type" row) filter_type).

(** The value a row has under a key, NaN when it has none (as a frame
    reads a missing cell). *)
Definition value_at (key : string) (row : list (string * json)) : json :=
  match Py.lookup key row with
  | Some v => v
  | None => JFloat nan
  end.

(** A shipment row as the data model has it: a location, a name and a
    status that are text, an id that is an integer or text.  (In a
    frame of such rows pandas keeps every cell as it was sent: it turns
    a column of integers into floats only when a cell of the column is
    missing or null.) *)
Definition is_shipment_row (row : list (string * json)) : bool :=
  match Py.lookup "CurrentLocation" row, Py.lookup "ShipmentID" row,
        Py.lookup "ShipmentName" row, Py.lookup "Status" row with
  | Some (JStr _), Some (JInt _ | JStr _), Some (JStr _), Some (JStr _) => true
  | _, _, _, _ => false
  end.

(** The frame has the columns. *)
Definition has_columns (df : frame) (keys : list string) : bool :=
  forallb (fun k => existsb (String.eqb k) (columns df)) keys.

(** The columns the map data reads. *)
Definition map_columns : list string :=
  ["CurrentLocation"; "ShipmentID"; "ShipmentName"; "Status"].

(** The pair of a location that is a key of the city table. *)
Definition own_pair (location : json) : option (float * float) :=
  match location with
  | JStr city => Py.lookup city locations
  | _ => None
  end.

(** The city [random.choice] selects at a draw: the one at the index the
    draw gives below the table's length. *)
Definition city_of_draw (d : nat) : string :=
  nth (d mod 20) (Py.keys locations) "New York".


(** A map row shows a shipment row: the shipment's id, name, status and
    location, at its own city when the table has it and at a city of
    the table in any case. *)
Definition marks (row : list (string * json)) (r : map_row) : Prop :=
  mr_ShipmentID r = value_at "ShipmentID" row
  /\ mr_ShipmentName r = value_at "ShipmentName" row
  /\ mr_Status r = value_at "Status" row
  /\ mr_Location r = value_at "CurrentLocation" row
  /\ In (mr_lat r, mr_lon r) (Py.values locations)
  /\ match own_pair (value_at "CurrentLocation" row) with
     | Some q => (mr_lat r, mr_lon r) = q
     | None => True
     end.



(** Two shipments for the concrete runs: one in Chicago, one in a
    place the table does not have. *)
Definition two_shipments : frame :=
  [[("ShipmentID", JInt 1); ("ShipmentName", JStr "S1"); ("Status", JStr "Delayed");
    ("CurrentLocation", JStr "Chicago")];
   [("ShipmentID", JInt 2); ("ShipmentName", JStr "S2"); ("Status", JStr "Lost");
    ("CurrentLocation", JStr "Nowhereville")]].

(** The parcel id of a shipment equals [n]; a shipment without that key
    has none. *)
Definition of_parcel (n : Z) (s : json) : bool :=
  match Py.subscript s "ParcelID" with
  | Ok v => py_eq_int v n
  | Raise _ => false
  end.

(** A customer row as the data model has it: a name, a type, an email,
    a phone and an address that are text, an id that is an integer or
    text.  (In a frame of such rows pandas keeps every cell as it was
    sent: it turns a column of integers into floats only when a cell of
    the column is missing or null.) *)
Definition is_customer_row (row : list (string * json)) : bool :=
  match Py.lookup "CustomerID" row with
  | Some (JInt _ | JStr _) =>
      forallb (fun k => match Py.lookup k row with Some (JStr _) => true | _ => false end)
              ["Name"; "Type"; "Email"; "Phone"; "Address"]
  | _ => false
  end.

(** A text of ASCII characters only.  (The strings of the model are
    byte strings and its case folding is that of the ASCII letters; on
    ASCII texts both are Python's.) *)
Definition is_ascii (t : string) : bool :=
  all_chars (fun c => (nat_of_ascii c <? 128)%nat) t.

(** Every name of the frame is ASCII. *)
Definition ascii_names (df : frame) : bool :=
  forallb (fun row => is_ascii (text_at "Name" row)) df.

(** [str(row['CustomerID'])] *)
Definition id_text_of (row : list (string * json)) : string :=
  match py_str (value_at "CustomerID" row) with
  | Ok t => t
  | Raise _ => EmptyString
  end.





(** The points of a mock trend drawn from draw number [from] on: each
    the clamp of the base plus one draw. *)
Definition trend_points (env : Env) (n from : nat) (base scale upper lower : float) : list float :=
  map (fun i => trend_point lower upper base (normal_draw env (from + i) 0%float scale))
      (seq 0 n).

(** The KPI keys the Analytics page reads. *)
Definition kpi_keys : list string :=
  ["avg_efficiency"; "avg_customer_rating"; "on_time_percentage"].

(** The page only grows. *)
Definition page_grows {B : Type} (s s' : state B) : Prop :=
  exists more, page s' = (page s ++ more)%list.

(** What the Analytics page shows, up to the heading of its last
    section, for a KPI object without the KPI keys, from draw number
    [from] on. *)
Definition analytics_of_missing_kpis (env : Env) (from : nat) : list element :=
  [Header "Analytics & KPIs";
   MetricCard1f "Average Efficiency" (JInt 0) "%";
   MetricCard1f "Customer Satisfaction" (JInt 0) "/5";
   MetricCard1f "On-Time Delivery" (JInt 0) "%";
   SubHeader "KPI Trends (Last 30 Days)";
   LineChart "Efficiency Score Trend" (trend_dates env)
             (trend_points env 30 from 75%float 5%float 100%float 50%float);
   LineChart "Customer Satisfaction Trend" (trend_dates env)
             (trend_points env 30 (from + 30) 4%float 0.3%float 5%float 1%float);
   LineChart "On-Time Delivery Trend" (trend_dates env)
             (trend_points env 30 (from + 60) 85%float 3%float 100%float 70%float);
   SubHeader "Customer Insights"].

(* ===================================================================== *)
(** * Part II: lemmas and theorems                                        *)
(* ===================================================================== *)

(** ** Python strings *)

Section PyStrFacts.
Import PyStr.
Local Open Scope string_scope.

Lemma lower_char_space c : Ascii.eqb (lower_char c) " " = Ascii.eqb c " ".
Proof. destruct c as [[] [] [] [] [] [] [] []]; reflexivity. Qed.

Lemma lower_replace_space s :
  lower (replace_char " " EmptyString s) = replace_char " " EmptyString (lower s).
Proof.
  induction s as [|c s IH]; simpl; [reflexivity|].
  rewrite lower_char_space. destruct (Ascii.eqb c " "); simpl; now rewrite IH.
Qed.

Lemma find_cons_none sub c s :
  find sub (String c s) = None -> find sub s = None.
Proof.
  destruct sub as [|a sub']; simpl; [easy|].
  destruct (Ascii.eqb a c && startswith sub' s); [easy|].
  destruct (find (String a sub') s); [easy|reflexivity].
Qed.

Lemma contains_cons sub c s :
  contains sub (String c s) = false ->
  startswith sub (String c s) = false /\ contains sub s = false.
Proof.
  unfold contains. intros H.
  destruct (find sub (String c s)) eqn:E; [discriminate|].
  split.
  - destruct sub as [|a sub']; simpl in E; [discriminate|].
    simpl. destruct (Ascii.eqb a c && startswith sub' s); [discriminate|reflexivity].
  - now rewrite (find_cons_none _ _ _ E).
Qed.

Lemma find_label name rest :
  contains "ID: " name = false -> endswith "ID:" name = false ->
  find "ID: " (name ++ " (ID: " ++ rest) = Some (String.length name + 2).
Proof.
  induction name as [|c n IH]; intros Hc He; [reflexivity|].
  apply contains_cons in Hc. destruct Hc as [Hs Hc].
  cbn [endswith] in He. apply orb_false_elim in He. destruct He as [Heq He].
  specialize (IH Hc He).
  cbn [append find].
  assert (Hn : startswith "ID: " (String c (n ++ " (ID: " ++ rest)) = false).
  { cbn [startswith]. destruct (Ascii.eqb_spec "I" c) as [<-|]; [|reflexivity]. cbn [andb].
    destruct n as [|d n]; [reflexivity|]. cbn [append startswith].
    destruct (Ascii.eqb_spec "D" d) as [<-|]; [|reflexivity]. cbn [andb].
    destruct n as [|e n]; [reflexivity|]. cbn [append startswith].
    destruct (Ascii.eqb_spec ":" e) as [<-|]; [|reflexivity]. cbn [andb].
    destruct n as [|f n]; [now vm_compute in Heq|]. cbn [append startswith].
    destruct (Ascii.eqb_spec " " f) as [<-|]; [|reflexivity].
    now cbn in Hs. }
  cbn [append] in Hn, IH. rewrite Hn, IH. reflexivity.
Qed.

Lemma all_chars_app p a b : all_chars p (a ++ b) = all_chars p a && all_chars p b.
Proof. induction a; simpl; [reflexivity|]. now rewrite IHa, andb_assoc. Qed.

Lemma find_absent_first sub c s :
  all_chars (fun x => negb (Ascii.eqb c x)) s = true ->
  find (String c sub) s = None.
Proof.
  induction s as [|d s IH]; simpl; [reflexivity|].
  intros H. apply andb_prop in H. destruct H as [Hd Hs].
  apply negb_true_iff in Hd. rewrite Hd. simpl. now rewrite (IH Hs).
Qed.

Lemma split_fuel_absent fuel sep s :
  find sep s = None -> split_fuel fuel sep s = [s].
Proof. intros H. destruct fuel; simpl; [reflexivity|]. now rewrite H. Qed.

Lemma take_app_length a b : take (String.length a) (a ++ b) = a.
Proof. induction a; simpl; [now destruct b|]. now rewrite IHa. Qed.

Lemma drop_app_length a b : drop (String.length a) (a ++ b) = b.
Proof. induction a; simpl; [now destruct b|]. exact IHa. Qed.

Lemma app_assoc_str (a b c : string) : (a ++ b) ++ c = a ++ b ++ c.
Proof. induction a; simpl; [reflexivity|]. now rewrite IHa. Qed.

Lemma length_app_str (a b : string) :
  String.length (a ++ b) = String.length a + String.length b.
Proof. induction a; simpl; [reflexivity|]. now rewrite IHa. Qed.

Lemma rstrip_closing chars d c :
  char_in c chars = true ->
  all_chars (fun x => negb (char_in x chars)) d = true ->
  rstrip chars (d ++ String c EmptyString) = d.
Proof.
  intros Hc. induction d as [|x d IH]; simpl; intros H.
  - now rewrite Hc.
  - apply andb_prop in H. destruct H as [Hx Hd]. rewrite (IH Hd).
    apply negb_true_iff in Hx. rewrite Hx. now destruct d.
Qed.

Lemma lstrip_clean chars d :
  all_chars (fun x => negb (char_in x chars)) d = true ->
  forall rest, lstrip chars (d ++ rest) = match d with EmptyString => lstrip chars rest | _ => d ++ rest end.
Proof.
  destruct d as [|x d]; simpl; [reflexivity|].
  intros H rest. apply andb_prop in H. destruct H as [Hx _].
  apply negb_true_iff in Hx. now rewrite Hx.
Qed.

Lemma strip_closing chars d c :
  char_in c chars = true ->
  all_chars (fun x => negb (char_in x chars)) d = true ->
  strip chars (d ++ String c EmptyString) = d.
Proof.
  intros Hc Hd. unfold strip. rewrite (lstrip_clean _ _ Hd).
  destruct d as [|x d].
  - simpl. now rewrite Hc.
  - now apply rstrip_closing.
Qed.

Lemma digits_of_uint u : all_chars is_digit (NilEmpty.string_of_uint u) = true.
Proof. induction u; simpl; auto. Qed.

Lemma digits_of_nonneg n : (0 <= n)%Z -> all_chars is_digit (str_of_int n) = true.
Proof.
  intros H. unfold str_of_int. destruct n as [|p|p]; [reflexivity| |lia].
  simpl. unfold NilZero.string_of_uint.
  destruct (Pos.to_uint p); try reflexivity; apply (digits_of_uint (_ _)).
Qed.

Lemma all_chars_weaken (p q : ascii -> bool) s :
  (forall c, p c = true -> q c = true) -> all_chars p s = true -> all_chars q s = true.
Proof.
  intros Hpq. induction s as [|c s IH]; simpl; [reflexivity|].
  intros H. apply andb_prop in H. destruct H as [Hc Hs].
  now rewrite (Hpq _ Hc), (IH Hs).
Qed.

Lemma int_of_str_of_int n : int_of_str (str_of_int n) = Ok n.
Proof.
  unfold int_of_str, str_of_int.
  rewrite NilZero.isi.
  - now rewrite DecimalZ.of_to.
  - destruct n; simpl; try discriminate. intros H. injection H as H.
    now apply Unsigned.to_uint_nonnil in H.
  - destruct n; simpl; try discriminate. intros H. injection H as H.
    now apply Unsigned.to_uint_nonnil in H.
Qed.

Lemma is_digit_cases c : is_digit c = true ->
  negb (Ascii.eqb "I" c) = true /\ negb (char_in c ")") = true.
Proof. destruct c as [[] [] [] [] [] [] [] []]; simpl; intros H; try discriminate H; split; reflexivity. Qed.

(** C10 (as amended): a label built from a name that neither contains
    ["ID: "] nor ends with ["ID:"] and from a nonnegative id parses back
    to that id. *)
Theorem label_roundtrip name id :
  contains "ID: " name = false -> endswith "ID:" name = false -> (0 <= id)%Z ->
  parse_selected_id (option_label name (str_of_int id)) = Ok id.
Proof.
  intros Hc He Hid. unfold parse_selected_id, option_label, split.
  pose proof (digits_of_nonneg _ Hid) as Hd.
  set (digits := str_of_int id) in *.
  assert (Hlab : find "ID: " (name ++ " (ID: " ++ digits ++ ")") = Some (String.length name + 2))
    by now apply find_label.
  destruct (String.length (name ++ " (ID: " ++ digits ++ ")")) as [|fuel] eqn:Hlen.
  { rewrite length_app_str in Hlen. simpl in Hlen. lia. }
  cbn [split_fuel]. rewrite Hlab. cbn [nth_error].
  replace (name ++ " (ID: " ++ digits ++ ")") with ((name ++ " (ID: ") ++ digits ++ ")")
    by now rewrite app_assoc_str.
  replace (String.length name + 2 + String.length "ID: ") with (String.length (name ++ " (ID: "))
    by (rewrite length_app_str; simpl; lia).
  rewrite drop_app_length.
  rewrite split_fuel_absent.
  - cbn [nth_error]. rewrite strip_closing; [apply int_of_str_of_int|reflexivity|].
    eapply all_chars_weaken; [|exact Hd]. intros c H. now apply is_digit_cases.
  - apply find_absent_first. rewrite all_chars_app. simpl. rewrite andb_true_r.
    eapply all_chars_weaken; [|exact Hd]. intros c H. now apply is_digit_cases.
Qed.

(** The witness of [label_roundtrip]: customer John Doe, id 42. *)
Lemma label_roundtrip_witness :
  parse_selected_id (option_label "John Doe" (str_of_int 42)) = Ok 42%Z.
Proof.
  apply label_roundtrip; [reflexivity | reflexivity | discriminate].
Defined.

(** C10 as first stated fails: the name ["ID:"] does not contain ["ID: "],
    yet its label ["ID: (ID: 5)"] splits at the name's own end and the
    text handed to [int] is ["("]. *)
Lemma label_roundtrip_breaks :
  contains "ID: " "ID:" = false /\
  (0 <= 5)%Z /\
  option_label "ID:" (str_of_int 5) = "ID: (ID: 5)" /\
  split "ID: " "ID: (ID: 5)" = [EmptyString; "("; "5)"]%list /\
  parse_selected_id (option_label "ID:" (str_of_int 5))
  = Raise (ValueError "invalid literal for int() with base 10: (").
Proof. repeat split; try reflexivity. discriminate. Qed.

(** *** The status styling *)







Example format_status_lost : format_status "Lost" = "Lost".
Proof. reflexivity. Qed.

Example format_status_in_transit :
  format_status "In Transit" = span "status-intransit" "In Transit"
  /\ format_status "in-transit" = span "status-intransit" "in-transit"
  /\ format_status "DELIVERED" = span "status-delivered" "DELIVERED".
Proof. repeat split. Qed.

End PyStrFacts.

(** ** The HTTP helpers *)

Section Helpers.
Local Open Scope string_scope.
Local Open Scope script_scope.
Context {B : Type} (serve : B -> request -> reply * B).

Lemma startswith_app p rest : PyStr.startswith p (p ++ rest) = true.
Proof. induction p as [|c p IH]; simpl; [reflexivity|]. now rewrite Ascii.eqb_refl. Qed.

Lemma contains_at_start sub s : PyStr.startswith sub s = true -> PyStr.contains sub s = true.
Proof. intros H. unfold PyStr.contains. destruct s; cbn [PyStr.find]; now rewrite H. Qed.

Lemma contains_middle sub a b : PyStr.contains sub (a ++ sub ++ b) = true.
Proof.
  induction a as [|c a IH]; cbn [append].
  - apply contains_at_start, startswith_app.
  - unfold PyStr.contains in *. cbn [PyStr.find].
    destruct (PyStr.startswith sub (String c (a ++ sub ++ b))); [reflexivity|].
    destruct (PyStr.find sub (a ++ sub ++ b)); [reflexivity|discriminate].
Qed.

Lemma call_ok r s code why v :
  fst (serve (backend s) r) = Reply code why (Json v) ->
  ~ (400 <= code < 600)%Z ->
  call serve r s = (Ok v, after_request s r (snd (serve (backend s) r))).
Proof.
  intros Hrep Hcode. unfold call, bind, requests_send.
  destruct (serve (backend s) r) as [rep b'] eqn:E. simpl in Hrep. subst rep.
  unfold raise_for_status. cbn [status_code].
  destruct ((400 <=? code)%Z && (code <? 500)%Z) eqn:E4.
  { apply andb_prop in E4. lia. }
  destruct ((500 <=? code)%Z && (code <? 600)%Z) eqn:E5.
  { apply andb_prop in E5. lia. }
  reflexivity.
Qed.

Lemma call_fails r s :
  http_failure (fst (serve (backend s) r)) ->
  exists why, call serve r s = (Raise (RequestException why), after_request s r (snd (serve (backend s) r))).
Proof.
  intros Hf. unfold call, bind, requests_send.
  destruct (serve (backend s) r) as [rep b'] eqn:E. simpl in Hf |- *.
  destruct rep as [why|code why bd]; [now exists why|].
  unfold raise_for_status. cbn [status_code].
  destruct ((400 <=? code)%Z && (code <? 500)%Z) eqn:E4; [eexists; reflexivity|].
  destruct ((500 <=? code)%Z && (code <? 600)%Z) eqn:E5; [eexists; reflexivity|].
  destruct bd as [v|w]; [|eexists; reflexivity].
  simpl in Hf. apply andb_false_iff in E4, E5. lia.
Qed.

Lemma fetch_data_call endpoint params :
  fetch_data serve endpoint params =
  try_except (call serve (get_request endpoint params))
    (fun e => show (ErrorBox ("Error fetching data from " ++ endpoint ++ ": " ++ e)) ;;; ret JNull).
Proof. reflexivity. Qed.

(** C1 (as amended): a response whose status is not 4xx or 5xx and whose
    body is JSON is returned as parsed, with nothing put on the page; no
    response, a 4xx or 5xx status, or a body that is not JSON gives [None]
    and exactly one error box, whose text contains the endpoint. *)
Theorem fetch_data_contract endpoint params (s : state B) :
  let r := get_request endpoint params in
  let rep := fst (serve (backend s) r) in
  let s' := after_request s r (snd (serve (backend s) r)) in
  (forall code why v, rep = Reply code why (Json v) -> ~ (400 <= code < 600)%Z ->
     fetch_data serve endpoint params s = (Ok v, s')) /\
  (http_failure rep ->
     exists msg, fetch_data serve endpoint params s = (Ok JNull, with_element s' (ErrorBox msg))
                 /\ PyStr.contains endpoint msg = true).
Proof.
  intros r rep s'. rewrite fetch_data_call. fold r. unfold try_except. split.
  - intros code why v Hrep Hcode. subst rep s'.
    now rewrite (call_ok _ _ _ _ _ Hrep Hcode).
  - intros Hf. destruct (call_fails r s Hf) as [why Hcall].
    exists ("Error fetching data from " ++ endpoint ++ ": " ++ why). split.
    + rewrite Hcall. reflexivity.
    + apply contains_middle.
Qed.

Lemma update_data_call endpoint data :
  update_data serve endpoint data =
  try_except (call serve (put_request endpoint data))
    (fun e => show (ErrorBox ("Error updating data at " ++ endpoint ++ ": " ++ e)) ;;; ret JNull).
Proof. reflexivity. Qed.

Lemma create_data_call endpoint data :
  create_data serve endpoint data =
  try_except (call serve (post_request endpoint data))
    (fun e => show (ErrorBox ("Error creating data at " ++ endpoint ++ ": " ++ e)) ;;; ret JNull).
Proof. reflexivity. Qed.

(** [update_data] and [create_data] follow the same contract. *)
Lemma update_data_contract endpoint data (s : state B) :
  let r := put_request endpoint data in
  let rep := fst (serve (backend s) r) in
  let s' := after_request s r (snd (serve (backend s) r)) in
  (forall code why v, rep = Reply code why (Json v) -> ~ (400 <= code < 600)%Z ->
     update_data serve endpoint data s = (Ok v, s')) /\
  (http_failure rep ->
     exists msg, update_data serve endpoint data s = (Ok JNull, with_element s' (ErrorBox msg))).
Proof.
  intros r rep s'. rewrite update_data_call. fold r. unfold try_except. split.
  - intros code why v Hrep Hcode. subst rep s'.
    now rewrite (call_ok _ _ _ _ _ Hrep Hcode).
  - intros Hf. destruct (call_fails r s Hf) as [why Hcall].
    eexists. rewrite Hcall. reflexivity.
Qed.

Lemma create_data_sends endpoint data (s : state B) :
  sent (snd (create_data serve endpoint data s)) = (sent s ++ [post_request endpoint data])%list.
Proof.
  rewrite create_data_call. unfold try_except, call, bind, requests_send.
  destruct (serve (backend s) (post_request endpoint data)) as [[why|code why bd] b']; [reflexivity|].
  unfold raise_for_status. cbn [status_code].
  destruct ((400 <=? code)%Z && (code <? 500)%Z); [reflexivity|].
  destruct ((500 <=? code)%Z && (code <? 600)%Z); [reflexivity|].
  destruct bd; reflexivity.
Qed.

Lemma update_data_sends endpoint data (s : state B) :
  sent (snd (update_data serve endpoint data s)) = (sent s ++ [put_request endpoint data])%list.
Proof.
  rewrite update_data_call. unfold try_except, call, bind, requests_send.
  destruct (serve (backend s) (put_request endpoint data)) as [[why|code why bd] b']; [reflexivity|].
  unfold raise_for_status. cbn [status_code].
  destruct ((400 <=? code)%Z && (code <? 500)%Z); [reflexivity|].
  destruct ((500 <=? code)%Z && (code <? 600)%Z); [reflexivity|].
  destruct bd; reflexivity.
Qed.

End Helpers.

(** C1 as first stated fails on a status that is neither 2xx nor an error
    for [raise_for_status]: a 300 answer with a JSON body comes back as
    data, and nothing is put on the page. *)
Lemma fetch_data_multiple_choices :
  fetch_data multiple_choices "customers" None (initial tt)
  = (Ok (JList [JInt 1]),
     mkState tt [get_request "customers" None] [] 0 0 [])
  /\ ~ fetch_data_claim_as_stated.
Proof.
  split; [reflexivity|].
  intros H.
  destruct (H multiple_choices "customers"%string None (initial tt)) as (_ & Hother & _).
  destruct (Hother 300%Z "Multiple Choices"%string (Json (JList [JInt 1]))) as [Hnull _].
  - reflexivity.
  - lia.
  - discriminate Hnull.
Qed.

(** ** The two forms *)

Section Forms.
Local Open Scope string_scope.
Local Open Scope script_scope.
Context {B : Type} (serve : B -> request -> reply * B) (env : Env).

Lemma pick_offered key first others :
  In (pick env key first others) (first :: others).
Proof.
  unfold pick. destruct (chosen env key) as [v|]; [|now left].
  destruct (existsb (String.eqb v) (first :: others)) eqn:E; [|now left].
  apply existsb_exists in E. destruct E as (x & Hx & Hv).
  apply String.eqb_eq in Hv. now subst x.
Qed.

Lemma status_update_form_submitted id id_text s :
  py_str id = Ok id_text ->
  pressed env ("update_form_" ++ id_text) = true ->
  status_update_form serve env id s =
  (result <- update_data serve ("shipments/" ++ id_text ++ "/status")
                         (JDict [("Status", JStr (new_status_of env id_text))]) ;;
   if Py.truthy result then
     show (SuccessBox ("Updated status to " ++ new_status_of env id_text)) ;;; st_rerun
   else ret tt) (update_form_shown s id_text).
Proof.
  intros Hid Hp. unfold status_update_form.
  unfold bind at 1. unfold lift at 1. rewrite Hid.
  unfold bind at 1. unfold selectbox at 1. unfold bind at 1. unfold show at 1.
  unfold ret at 1. unfold bind at 1. unfold form_submit_button at 1.
  unfold bind at 1. unfold show at 1. unfold ret at 1. cbn [backend sent page random_used normal_used session].
  rewrite Hp. reflexivity.
Qed.

(** C3 (as amended): submitting the update form of a shipment sends
    exactly one request, the PUT to [shipments/{id}/status] with the body
    [{"Status": new status}]; the run is restarted exactly when the helper
    returns a true value, that is when the response is no 4xx or 5xx and
    its JSON body is neither empty nor null; otherwise the run goes on. *)
Theorem status_update_contract id id_text (s : state B) :
  py_str id = Ok id_text ->
  pressed env ("update_form_" ++ id_text) = true ->
  let r := status_request env id_text in
  let rep := fst (serve (backend s) r) in
  let out := status_update_form serve env id s in
  In (new_status_of env id_text) ["Processing"; "In Transit"; "Delivered"; "Delayed"] /\
  sent (snd out) = (sent s ++ [r])%list /\
  (forall code why v, rep = Reply code why (Json v) -> ~ (400 <= code < 600)%Z ->
     Py.truthy v = true ->
     fst out = Raise RerunException) /\
  (forall code why v, rep = Reply code why (Json v) -> ~ (400 <= code < 600)%Z ->
     Py.truthy v = false ->
     fst out = Ok tt) /\
  (http_failure rep -> fst out = Ok tt).
Proof.
  intros Hid Hp r rep out.
  split; [apply pick_offered|].
  assert (Hout : out = (result <- update_data serve ("shipments/" ++ id_text ++ "/status")
                                   (JDict [("Status", JStr (new_status_of env id_text))]) ;;
                        if Py.truthy result then
                          show (SuccessBox ("Updated status to " ++ new_status_of env id_text)) ;;; st_rerun
                        else ret tt) (update_form_shown s id_text))
    by (apply status_update_form_submitted; assumption).
  pose proof (update_data_contract serve ("shipments/" ++ id_text ++ "/status")
                (JDict [("Status", JStr (new_status_of env id_text))])
                (update_form_shown s id_text)) as [Hok Hfail].
  pose proof (update_data_sends serve ("shipments/" ++ id_text ++ "/status")
                (JDict [("Status", JStr (new_status_of env id_text))])
                (update_form_shown s id_text)) as Hsent.
  cbn [update_form_shown with_element backend sent] in Hok, Hfail, Hsent.
  fold (status_request env id_text) in Hok, Hfail, Hsent. fold r in Hok, Hfail, Hsent.
  fold rep in Hok, Hfail.
  unfold bind at 1 in Hout. clearbody out. subst out.
  set (u := update_data serve ("shipments/" ++ id_text ++ "/status")
              (JDict [("Status", JStr (new_status_of env id_text))])
              (update_form_shown s id_text)) in *.
  repeat split.
  - destruct u as [[v|e] s1]; cbn [snd] in Hsent |- *; [|exact Hsent].
    destruct (Py.truthy v); exact Hsent.
  - intros code why v Hrep Hcode Hv. rewrite (Hok code why v Hrep Hcode), Hv. reflexivity.
  - intros code why v Hrep Hcode Hv. rewrite (Hok code why v Hrep Hcode), Hv. reflexivity.
  - intros Hf. destruct (Hfail Hf) as [msg Hmsg]. rewrite Hmsg. reflexivity.
Qed.

(** *** The Add Customer form *)

Lemma new_customer_form_submitted s :
  pressed env "new_customer_form" = true ->
  new_customer_form serve env s =
  (if Py.truthy (JStr (typed env "Name")) && Py.truthy (JStr (typed env "Email")) then
     result <- create_data serve "customers" (new_customer_of env) ;;
     if Py.truthy result then show (SuccessBox "Customer added successfully!") else ret tt
   else show (WarningBox "Please fill in all required fields")) (new_customer_form_shown s).
Proof.
  intros Hp. unfold new_customer_form.
  cbv beta iota delta [bind number_input text_input selectbox form_submit_button show ret
                       backend sent page random_used normal_used session].
  rewrite Hp. unfold new_customer_form_shown, new_customer_of.
  repeat rewrite <- app_assoc. reflexivity.
Qed.

Lemma truthy_text (t : string) : Py.truthy (JStr t) = true <-> t <> EmptyString.
Proof.
  cbn [Py.truthy]. rewrite negb_true_iff. apply String.eqb_neq.
Qed.

(** C9: when the Add Customer form is submitted with an empty name or an
    empty email, no request is sent, the backend is as it was and the
    warning is shown; the POST to [customers] with the collected customer
    is sent exactly when both are non-empty. *)
Theorem new_customer_form_guard (s : state B) :
  pressed env "new_customer_form" = true ->
  let name := typed env "Name" in
  let email := typed env "Email" in
  let out := new_customer_form serve env s in
  (name = EmptyString \/ email = EmptyString ->
     out = (Ok tt, with_element (new_customer_form_shown s)
                     (WarningBox "Please fill in all required fields"))
     /\ sent (snd out) = sent s /\ backend (snd out) = backend s) /\
  (sent (snd out) = (sent s ++ [post_request "customers" (new_customer_of env)])%list
     <-> name <> EmptyString /\ email <> EmptyString).
Proof.
  intros Hp name email out.
  assert (Hempty : name = EmptyString \/ email = EmptyString ->
            out = (Ok tt, with_element (new_customer_form_shown s)
                            (WarningBox "Please fill in all required fields"))).
  { intros Hany. subst out. rewrite (new_customer_form_submitted s Hp).
    fold name email.
    assert (E : Py.truthy (JStr name) && Py.truthy (JStr email) = false).
    { destruct Hany as [-> | ->]; [reflexivity | apply andb_false_r]. }
    rewrite E. reflexivity. }
  split.
  - intros Hany. rewrite (Hempty Hany). repeat split.
  - split.
    + intros Hsent.
      destruct (String.eqb_spec name EmptyString) as [En|En];
        [|destruct (String.eqb_spec email EmptyString) as [Ee|Ee]; [|now split]].
      * rewrite (Hempty (or_introl En)) in Hsent. cbn in Hsent.
        apply (f_equal (@List.length request)) in Hsent.
        rewrite length_app in Hsent. simpl in Hsent. lia.
      * rewrite (Hempty (or_intror Ee)) in Hsent. cbn in Hsent.
        apply (f_equal (@List.length request)) in Hsent.
        rewrite length_app in Hsent. simpl in Hsent. lia.
    + intros [Hn He]. subst out. rewrite (new_customer_form_submitted s Hp).
      fold name email.
      apply truthy_text in Hn, He. rewrite Hn, He. cbn [andb].
      unfold bind at 1.
      pose proof (create_data_sends serve "customers" (new_customer_of env)
                    (new_customer_form_shown s)) as Hs.
      destruct (create_data serve "customers" (new_customer_of env) (new_customer_form_shown s))
        as [[v|e] s1]; cbn [snd] in Hs |- *; [|exact Hs].
      destruct (Py.truthy v); exact Hs.
Qed.

End Forms.

(** The witness of [status_update_contract]: the counting backend accepts
    the update of shipment 7, and the run is restarted. *)
Lemma status_update_witness :
  sent (snd (status_update_form counting submitting (JInt 7) (initial 0)))
  = [put_request "shipments/7/status" (JDict [("Status", JStr "Processing")])]
  /\ fst (status_update_form counting submitting (JInt 7) (initial 0)) = Raise RerunException.
Proof.
  destruct (status_update_contract counting submitting (JInt 7) "7" (initial 0)
              eq_refl eq_refl) as (_ & Hsent & Hrerun & _).
  split; [exact Hsent|].
  apply (Hrerun 200%Z "OK"%string (JDict [("ok"%string, JBool true)])).
  - reflexivity.
  - intros [H _]. apply H. reflexivity.
  - reflexivity.
Defined.

(** C3 as first stated fails on a 2xx answer with an empty JSON object:
    the PUT succeeded, [update_data] returns [{}], which is false for
    [if result:], and the run is not restarted. *)
Lemma status_update_empty_object :
  fst (empty_object tt (put_request "shipments/7/status" (JDict [("Status", JStr "Processing")])))
  = Reply 200 "OK" (Json (JDict []))
  /\ status_update_form empty_object submitting (JInt 7) (initial tt)
     = (Ok tt,
        mkState tt
          [put_request "shipments/7/status" (JDict [("Status", JStr "Processing")])]
          [SelectBox "New Status" (map JStr ["Processing"; "In Transit"; "Delivered"; "Delayed"]);
           SubmitButton "update_form_7" "Update Status"]
          0 0 [])
  /\ fst (status_update_form empty_object submitting (JInt 7) (initial tt)) <> Raise RerunException.
Proof. repeat split. discriminate. Qed.

(** The witness of [new_customer_form_guard]: Ada's customer is posted. *)
Lemma new_customer_form_witness :
  sent (snd (new_customer_form counting submitting (initial 0)))
  = [post_request "customers" (new_customer_of submitting)].
Proof.
  destruct (new_customer_form_guard counting submitting (initial 0) eq_refl) as [_ [_ Hpost]].
  apply Hpost. split; discriminate.
Defined.

(** ** The customer filters *)

Section CustomerFilters.
Local Open Scope string_scope.
Import PyStr.

Lemma contains_step sub c s :
  contains sub (String c s) = startswith sub (String c s) || contains sub s.
Proof.
  unfold contains. cbn [find].
  destruct (startswith sub (String c s)); [reflexivity|].
  now destruct (find sub s).
Qed.

Lemma contains_empty sub :
  contains sub EmptyString = startswith sub EmptyString.
Proof. unfold contains. cbn [find]. now destruct (startswith sub EmptyString). Qed.

Lemma re_match_here_literal pat text :
  dotless pat = true ->
  re_match_here pat text = startswith (lower pat) (lower text).
Proof.
  revert text. induction pat as [|p pat IH]; intros text Hd; [reflexivity|].
  cbn [dotless all_chars] in Hd. apply andb_prop in Hd. destruct Hd as [Hp Hd].
  apply negb_true_iff in Hp.
  destruct text as [|c text]; [reflexivity|].
  cbn [re_match_here lower startswith]. unfold re_char. rewrite Hp.
  now rewrite (IH text Hd).
Qed.

Lemma re_search_here_literal pat text :
  dotless pat = true ->
  re_search_here pat text = contains_ignoring_case pat text.
Proof.
  intros Hd. unfold contains_ignoring_case.
  induction text as [|c text IH].
  - cbn [re_search_here lower]. rewrite contains_empty, orb_false_r.
    now apply re_match_here_literal.
  - cbn [re_search_here]. rewrite IH. cbn [lower]. rewrite contains_step.
    f_equal. now rewrite (re_match_here_literal pat (String c text) Hd).
Qed.

Lemma lookup_key_in {A : Type} (key : string) (d : list (string * A)) (v : A) :
  Py.lookup key d = Some v -> In key (Py.keys d).
Proof.
  induction d as [|[k x] d IH]; simpl; [discriminate|].
  destruct (String.eqb_spec key k) as [->|]; [now left | auto].
Qed.

Lemma cell_of_row (df : frame) row key v :
  In row df -> Py.lookup key row = Some v -> cell df row key = Ok v.
Proof.
  intros Hin Hv. unfold cell.
  assert (Hc : existsb (String.eqb key) (columns df) = true).
  { apply existsb_exists. exists key. split; [|apply String.eqb_refl].
    unfold columns. apply nodup_In, in_concat.
    exists (Py.keys row). split; [now apply in_map | now apply lookup_key_in with v]. }
  now rewrite Hc, Hv.
Qed.

Lemma filter_r_total {A : Type} (p : A -> result bool) (q : A -> bool) (xs : list A) :
  (forall x, In x xs -> p x = Ok (q x)) -> filter_r p xs = Ok (filter q xs).
Proof.
  induction xs as [|x xs IH]; intros H; [reflexivity|].
  cbn [filter_r filter]. rewrite (H x (or_introl eq_refl)). cbn [rbind].
  rewrite IH by (intros y Hy; apply H; now right).
  cbn [rbind]. reflexivity.
Qed.

(** With nothing typed and "All" chosen the list is the fetched one. *)
Lemma filter_customers_all (df : frame) :
  filter_customers df EmptyString "All" = Ok df.
Proof. reflexivity. Qed.

(** A type other than "All" keeps exactly the rows of that type. *)
Lemma filter_customers_by_type (df : frame) (filter_type : string) :
  filter_type <> "All" -> text_column "Type" df ->
  filter_customers df EmptyString filter_type
  = Ok (filter (fun row => String.eqb (text_at "Type" row) filter_type) df).
Proof.
  intros Hne Hcol. unfold filter_customers. cbn [String.eqb negb rbind].
  apply String.eqb_neq in Hne. rewrite Hne. cbn [negb].
  apply filter_r_total. intros row Hin.
  pose proof (proj1 (Forall_forall _ _) Hcol row Hin) as [t Ht].
  unfold type_is, text_at. rewrite (cell_of_row df row "Type" (JStr t) Hin Ht), Ht.
  reflexivity.
Qed.

(** A filter text of ordinary characters keeps exactly the rows whose
    name contains it, case apart. *)
Lemma filter_customers_by_plain_name (df : frame) (filter_name : string) :
  filter_name <> EmptyString ->
  re_plain filter_name = true -> dotless filter_name = true ->
  text_column "Name" df ->
  filter_customers df filter_name "All"
  = Ok (filter (fun row => contains_ignoring_case filter_name (text_at "Name" row)) df).
Proof.
  intros Hne Hplain Hdot Hcol. unfold filter_customers.
  apply String.eqb_neq in Hne. rewrite Hne. cbn [negb].
  rewrite (filter_r_total (name_matches df filter_name)
             (fun row => contains_ignoring_case filter_name (text_at "Name" row))).
  - reflexivity.
  - intros row Hin.
    pose proof (proj1 (Forall_forall _ _) Hcol row Hin) as [t Ht].
    unfold name_matches, text_at.
    rewrite (cell_of_row df row "Name" (JStr t) Hin Ht), Ht. cbn [rbind as_text].
    unfold re_search_ignorecase. rewrite Hplain.
    now rewrite re_search_here_literal.
Qed.

End CustomerFilters.

Example filter_jo : filter_customers [john_doe; jane] "jo" "All" = Ok [john_doe].
Proof. reflexivity. Qed.

Example filter_business : filter_customers [john_doe; jane] "" "Business" = Ok [john_doe].
Proof. reflexivity. Qed.

(** C4 at the failing input: the filter text "." is contained in neither
    name, yet the filter keeps both customers, because the text is handed
    to [str.contains] as a regular expression. *)
Theorem name_filter_reads_a_pattern :
  contains_ignoring_case "." "John Doe" = false
  /\ contains_ignoring_case "." "Jane" = false
  /\ filter_customers [john_doe; jane] "." "All" = Ok [john_doe; jane].
Proof. repeat split. Qed.
(** ** Placing shipments on the map *)

Section MapPlacement.
Local Open Scope string_scope.
Context {B : Type} (env : Env).

Lemma lookup_of_key {A : Type} (d : list (string * A)) (k : string) :
  In k (Py.keys d) -> exists v, Py.lookup k d = Some v /\ In v (Py.values d).
Proof.
  induction d as [|[k' v'] d IH]; simpl; [tauto|].
  intros [->|Hin].
  - rewrite String.eqb_refl. exists v'. auto.
  - destruct (String.eqb k k'); [exists v'; auto|].
    destruct (IH Hin) as (v & Hv & Hin'). exists v. auto.
Qed.

Lemma lookup_in_values {A : Type} (d : list (string * A)) (k : string) (v : A) :
  Py.lookup k d = Some v -> In v (Py.values d).
Proof.
  induction d as [|[k' v'] d IH]; simpl; [discriminate|].
  destruct (String.eqb k k'); [intros [= ->]; now left | auto].
Qed.

Lemma key_in_columns (df : frame) row key (v : json) :
  In row df -> Py.lookup key row = Some v -> existsb (String.eqb key) (columns df) = true.
Proof.
  intros Hin Hv. apply existsb_exists. exists key. split; [|apply String.eqb_refl].
  unfold columns. apply nodup_In, in_concat.
  exists (Py.keys row). split; [now apply in_map | now apply lookup_key_in with v].
Qed.

(** A cell of a column the frame has is the row's value, NaN when the
    row has none. *)
Lemma cell_of_column (df : frame) row key :
  existsb (String.eqb key) (columns df) = true -> cell df row key = Ok (value_at key row).
Proof. intros H. unfold cell, value_at. rewrite H. now destruct (Py.lookup key row). Qed.

(** The table has twenty cities, each once, none at a null coordinate. *)
Lemma locations_count : List.length (Py.keys locations) = 20.
Proof. reflexivity. Qed.



Lemma city_of_draw_known d : In (city_of_draw d) (Py.keys locations).
Proof.
  unfold city_of_draw. apply nth_In. rewrite locations_count.
  apply Nat.mod_upper_bound. discriminate.
Qed.


(** A draw places the shipment on a city of the table. *)
Lemma random_placement (s : state B) :
  exists p, Py.lookup (city_of_draw (random_draw env (random_used s))) locations = Some p
            /\ In p (Py.values locations)
            /\ (random_location <- random_choice env (Py.keys locations) ;;
                lift (locations_at random_location))%script s = (Ok p, after_draw s).
Proof.
  destruct (lookup_of_key locations _ (city_of_draw_known (random_draw env (random_used s))))
    as (p & Hp & Hin).
  exists p. split; [exact Hp|]. split; [exact Hin|].
  unfold bind, random_choice, lift, locations_at. cbn [Py.keys locations map fst].
  change (nth _ _ _) with (city_of_draw (random_draw env (random_used s))).
  rewrite Hp. reflexivity.
Qed.

(** The placement of a location that can be looked up in a dict: its own
    pair without a draw when it is a key of the table, the pair of the
    city one draw selects otherwise. *)
Lemma map_placement_run (location : json) (s : state B) :
  hashable location = true ->
  exists p, In p (Py.values locations) /\
    match own_pair location with
    | Some q => p = q /\ map_placement env location s = (Ok p, s)
    | None => Py.lookup (city_of_draw (random_draw env (random_used s))) locations = Some p
              /\ map_placement env location s = (Ok p, after_draw s)
    end.
Proof.
  intros Hh. destruct (random_placement s) as (p & Hp & Hin & Hrun).
  unfold map_placement. unfold bind at 1. unfold lift at 1. unfold in_dict, own_pair.
  destruct location as [|b|n|x|city|items|fields]; try discriminate Hh;
    try (exists p; split; [exact Hin | split; [exact Hp | exact Hrun]]).
  destruct (Py.lookup city locations) as [q|] eqn:E.
  - exists q. split; [now apply lookup_in_values with city|].
    split; [reflexivity|]. unfold lift, locations_at. now rewrite E.
  - exists p. split; [exact Hin|]. split; [exact Hp | exact Hrun].
Qed.

(** One row of the map data: the shipment's cells and the pair of its
    placement. *)
Lemma map_data_row_run (df : frame) (row : list (string * json)) (s : state B) :
  has_columns df map_columns = true ->
  hashable (value_at "CurrentLocation" row) = true ->
  exists p, In p (Py.values locations) /\
    let r := mkMapRow (value_at "ShipmentID" row) (value_at "ShipmentName" row)
                      (value_at "Status" row) (value_at "CurrentLocation" row)
                      (fst p) (snd p) in
    match own_pair (value_at "CurrentLocation" row) with
    | Some q => p = q /\ map_data_row env df row s = (Ok r, s)
    | None => Py.lookup (city_of_draw (random_draw env (random_used s))) locations = Some p
              /\ map_data_row env df row s = (Ok r, after_draw s)
    end.
Proof.
  intros Hcols Hh. unfold has_columns, map_columns in Hcols. cbn [forallb] in Hcols.
  apply andb_prop in Hcols. destruct Hcols as [Hl Hcols].
  apply andb_prop in Hcols. destruct Hcols as [Hi Hcols].
  apply andb_prop in Hcols. destruct Hcols as [Hn Hcols].
  apply andb_prop in Hcols. destruct Hcols as [Hs _].
  destruct (map_placement_run _ s Hh) as (p & Hin & Hcase).
  exists p. split; [exact Hin|]. cbv zeta.
  unfold map_data_row, bind, lift, ret.
  rewrite (cell_of_column df row _ Hl), (cell_of_column df row _ Hi),
          (cell_of_column df row _ Hn), (cell_of_column df row _ Hs).
  destruct (own_pair (value_at "CurrentLocation" row)) as [q|].
  - destruct Hcase as [-> Hrun]. split; [reflexivity|]. now rewrite Hrun.
  - destruct Hcase as [Hp Hrun]. split; [exact Hp|]. now rewrite Hrun.
Qed.


End MapPlacement.



(** The shipment at "Nowhereville", with the idle environment's draw 0,
    lands on the first city of the table. *)
Example nowhereville_run :
  map_placement idle (JStr "Nowhereville") (initial tt)
  = (Ok (40.7128, -74.0060)%float, mkState tt [] [] 1 0 []).
Proof. reflexivity. Qed.

Example chicago_is_placed :
  map_placement idle (JStr "Chicago") (initial tt)
  = (Ok (41.8781, -87.6298)%float, initial tt).
Proof. reflexivity. Qed.

(** ** Floats: the order of numbers, and sums that stay numbers *)

Section FloatOrder.
Local Open Scope float_scope.

Lemma SFcompare_antisym (f1 f2 : spec_float) :
  SFcompare f2 f1 = option_map CompOpp (SFcompare f1 f2).
Proof.
  destruct f1 as [s1|s1| |s1 m1 e1], f2 as [s2|s2| |s2 m2 e2]; try reflexivity;
    try (destruct s1; reflexivity); try (destruct s2; reflexivity);
    try (destruct s1, s2; reflexivity).
  cbn [SFcompare option_map].
  destruct s1, s2; try reflexivity; f_equal;
    rewrite (Z.compare_antisym e1 e2); destruct (e1 ?= e2)%Z; cbn [CompOpp]; try reflexivity.
  - now rewrite (Pos.compare_cont_antisym m1 m2 Eq).
  - now rewrite (Pos.compare_cont_antisym m1 m2 Eq).
Qed.

Lemma SFcompare_refl (f : spec_float) :
  f <> S754_nan -> SFcompare f f = Some Eq.
Proof.
  destruct f as [s|s| |s m e]; try (destruct s; reflexivity); [congruence|].
  intros _. cbn [SFcompare]. rewrite Z.compare_refl.
  change (PosDef.Pos.compare_cont Eq m m) with (Pos.compare m m).
  rewrite Pos.compare_refl. now destruct s.
Qed.

Lemma SFcompare_total (f1 f2 : spec_float) :
  f1 <> S754_nan -> f2 <> S754_nan -> exists c, SFcompare f1 f2 = Some c.
Proof.
  destruct f1, f2; try congruence; intros _ _; eexists; reflexivity.
Qed.

Lemma is_nan_Prim2SF (x : float) : is_nan x = false <-> Prim2SF x <> S754_nan.
Proof.
  unfold is_nan. rewrite eqb_spec. unfold SFeqb. split.
  - intros H E. rewrite E in H. discriminate H.
  - intros H. now rewrite (SFcompare_refl _ H).
Qed.

Lemma leb_refl (x : float) : is_nan x = false -> (x <=? x) = true.
Proof.
  intros H. apply is_nan_Prim2SF in H. rewrite leb_spec. unfold SFleb.
  now rewrite (SFcompare_refl _ H).
Qed.

Lemma leb_not_nan (x y : float) :
  (x <=? y) = true -> is_nan x = false /\ is_nan y = false.
Proof.
  rewrite leb_spec. unfold SFleb. intros H.
  split; apply is_nan_Prim2SF; intros E; rewrite E in H.
  - discriminate H.
  - destruct (Prim2SF x); discriminate H.
Qed.

Lemma not_ltb_leb (x y : float) :
  is_nan x = false -> is_nan y = false -> (x <? y) = false -> (y <=? x) = true.
Proof.
  intros Hx Hy. apply is_nan_Prim2SF in Hx, Hy.
  rewrite ltb_spec, leb_spec. unfold SFltb, SFleb.
  rewrite (SFcompare_antisym (Prim2SF x) (Prim2SF y)).
  destruct (SFcompare_total _ _ Hx Hy) as [c ->].
  now destruct c.
Qed.

Lemma leb_not_ltb (x y : float) : (x <=? y) = true -> (y <? x) = false.
Proof.
  rewrite ltb_spec, leb_spec. unfold SFltb, SFleb.
  rewrite (SFcompare_antisym (Prim2SF x) (Prim2SF y)).
  destruct (SFcompare (Prim2SF x) (Prim2SF y)) as [[]|]; easy.
Qed.

(** The clamp keeps a number between its bounds. *)
Lemma clamp_bounds (lower upper v : float) :
  (lower <=? upper) = true -> is_nan v = false ->
  (lower <=? Py.max (Py.min v upper) lower) = true
  /\ (Py.max (Py.min v upper) lower <=? upper) = true.
Proof.
  intros Hb Hv. destruct (leb_not_nan _ _ Hb) as [Hl Hu].
  unfold Py.min, Py.max.
  destruct (upper <? v) eqn:E1.
  - rewrite (leb_not_ltb _ _ Hb). split; [exact Hb | now apply leb_refl].
  - destruct (v <? lower) eqn:E2.
    + split; [now apply leb_refl | exact Hb].
    + split; now apply not_ltb_leb.
Qed.

End FloatOrder.

Section AddNotNan.
Local Open Scope Z_scope.

Lemma shr_1_nonneg mrs : 0 <= shr_m mrs -> 0 <= shr_m (shr_1 mrs).
Proof.
  destruct mrs as [m r s]. cbn [shr_m]. intros H.
  destruct m as [|p|p]; [simpl; lia | destruct p; simpl; lia | lia].
Qed.

Lemma iter_shr_1_nonneg p : forall mrs,
  0 <= shr_m mrs -> 0 <= shr_m (SpecFloat.iter_pos shr_1 p mrs).
Proof.
  induction p as [p IH|p IH|]; intros mrs H; cbn [SpecFloat.iter_pos].
  - apply IH, IH, shr_1_nonneg, H.
  - apply IH, IH, H.
  - apply shr_1_nonneg, H.
Qed.

Lemma shr_fexp_nonneg prec emax m e l :
  0 <= m -> 0 <= shr_m (fst (shr_fexp prec emax m e l)).
Proof.
  intros H. unfold shr_fexp, shr.
  assert (H0 : 0 <= shr_m (shr_record_of_loc m l)) by (destruct l as [|[]]; exact H).
  destruct (fexp prec emax (Zdigits2 m + e) - e); cbn [fst]; try exact H0.
  now apply iter_shr_1_nonneg.
Qed.

Lemma round_nearest_even_nonneg m l : 0 <= m -> 0 <= round_nearest_even m l.
Proof.
  intros H. unfold round_nearest_even.
  destruct l as [|[]]; try lia. destruct (IntDef.Z.even m); lia.
Qed.

Lemma binary_round_aux_not_nan prec emax sx mx ex lx :
  0 <= mx -> binary_round_aux prec emax sx mx ex lx <> S754_nan.
Proof.
  intros H. unfold binary_round_aux.
  pose proof (shr_fexp_nonneg prec emax mx ex lx H) as H1.
  destruct (shr_fexp prec emax mx ex lx) as [mrs' e']. cbn [fst] in H1.
  pose proof (shr_fexp_nonneg prec emax _ e' loc_Exact
                (round_nearest_even_nonneg _ (loc_of_shr_record mrs') H1)) as H2.
  destruct (shr_fexp prec emax _ e' loc_Exact) as [mrs'' e'']. cbn [fst] in H2.
  destruct (shr_m mrs''); [discriminate| |lia].
  destruct (e'' <=? emax - prec); discriminate.
Qed.

Lemma binary_normalize_not_nan prec emax m e szero :
  binary_normalize prec emax m e szero <> S754_nan.
Proof.
  unfold binary_normalize, binary_round.
  destruct m as [|p|p]; [discriminate| |];
    destruct (shl_align _ _ _) as [mz ez]; apply binary_round_aux_not_nan; lia.
Qed.

Lemma SFadd_not_nan prec emax x y :
  x <> S754_nan -> y <> S754_nan -> (forall s, y <> S754_infinity s) ->
  SFadd prec emax x y <> S754_nan.
Proof.
  intros Hx Hy Hinf. unfold SFadd.
  destruct x as [sx|sx| |sx mx ex]; [| | congruence |];
    destruct y as [sy|sy| |sy my ey]; try congruence;
    try (now destruct (Hinf sy)); try discriminate.
  - destruct sx, sy; discriminate.
  - apply binary_normalize_not_nan.
Qed.
End AddNotNan.

(** ** The mock trends *)

Section Trends.
Local Open Scope float_scope.

Lemma is_finite_Prim2SF (x : float) :
  is_finite x = true ->
  Prim2SF x <> S754_nan /\ forall s, Prim2SF x <> S754_infinity s.
Proof.
  unfold is_finite. rewrite negb_true_iff. intros H.
  apply orb_false_elim in H. destruct H as [Hn Hi].
  split; [now apply is_nan_Prim2SF|].
  intros s E. unfold is_infinity in Hi.
  rewrite eqb_spec, abs_spec, E in Hi. discriminate Hi.
Qed.

Lemma add_not_nan (base noise : float) :
  is_nan base = false -> is_finite noise = true -> is_nan (base + noise) = false.
Proof.
  intros Hb Hn. apply is_nan_Prim2SF. rewrite add_spec.
  destruct (is_finite_Prim2SF noise Hn) as [H1 H2].
  apply SFadd_not_nan; [now apply is_nan_Prim2SF | exact H1 | exact H2].
Qed.

(** One point of a trend lies between the bounds. *)
Lemma trend_point_bounds (lower upper base noise : float) :
  (lower <=? upper) = true -> is_nan base = false -> is_finite noise = true ->
  (lower <=? trend_point lower upper base noise) = true
  /\ (trend_point lower upper base noise <=? upper) = true.
Proof.
  intros Hb Hbase Hnoise. unfold trend_point.
  apply clamp_bounds; [exact Hb | now apply add_not_nan].
Qed.

(** A KPI value read from the payload is NaN only when the payload says
    NaN: integers and booleans convert to numbers. *)
Lemma float_of_int_not_nan (n : Z) (x : float) :
  float_of_int n = Ok x -> is_nan x = false.
Proof.
  unfold float_of_int. destruct (Z.abs n <? 2 ^ 63)%Z; [|discriminate].
  intros [= <-]. apply is_nan_Prim2SF.
  destruct (n <? 0)%Z; [rewrite opp_spec|]; rewrite of_uint63_spec;
    pose proof (binary_normalize_not_nan prec emax
                  (Uint63Axioms.to_Z (Uint63.of_Z (Z.abs n))) 0 false) as H;
    destruct (binary_normalize _ _ _ _ _); try discriminate; congruence.
Qed.

Lemma as_float_not_nan (v : json) (x : float) :
  as_float v = Ok x -> is_nan x = true -> v = JFloat nan.
Proof.
  destruct v as [|b|n|y|s|l|d]; cbn [as_float]; try discriminate.
  - intros [= <-]. now destruct b.
  - intros H Hn. now rewrite (float_of_int_not_nan n x H) in Hn.
  - intros [= <-] Hn. f_equal. apply Prim2SF_inj.
    destruct (Prim2SF y) eqn:E;
      try (assert (Hy : is_nan y = false) by (apply is_nan_Prim2SF; congruence);
           congruence).
    reflexivity.
Qed.

Context {B : Type} (env : Env).

Lemma trend_series_bounded (n : nat) (base scale upper lower : float) :
  (lower <=? upper) = true -> is_nan base = false ->
  (forall k, is_finite (normal_draw env k 0 scale) = true) ->
  forall s : state B,
  exists points,
    trend_series env n base scale upper lower s = (Ok points, after_normals n s)
    /\ List.length points = n
    /\ Forall (within lower upper) points.
Proof.
  intros Hb Hbase Hdraws. induction n as [|n IH]; intros s.
  - exists []. repeat split; [now destruct s | constructor].
  - cbn [trend_series]. unfold bind at 1. unfold np_random_normal at 1.
    destruct (IH (mkState (backend s) (sent s) (page s) (random_used s)
                          (S (normal_used s)) (session s))) as (points & Hrun & Hlen & Hall).
    unfold bind at 1. rewrite Hrun.
    eexists. split; [|split].
    + unfold ret, after_normals. cbn [backend sent page random_used normal_used session].
      rewrite Nat.add_succ_r. reflexivity.
    + cbn [List.length]. now rewrite Hlen.
    + constructor; [|exact Hall]. apply trend_point_bounds; auto.
Qed.

(** C6 (as amended): when the base KPI value is a number (not NaN) and
    the noise draws are finite, each of the three series is generated,
    has 30 points, and every point lies within its bounds: efficiency in
    [50, 100], customer rating in [1, 5], on-time percentage in
    [70, 100]. *)
Theorem trend_series_within_bounds (base : float) (s : state B) :
  is_nan base = false ->
  (forall k scale, is_finite (normal_draw env k 0 scale) = true) ->
  (exists points,
     trend_series env 30%nat base 5 100 50 s = (Ok points, after_normals 30%nat s)
     /\ List.length points = 30%nat /\ Forall (within 50 100) points) /\
  (exists points,
     trend_series env 30%nat base 0.3 5 1 s = (Ok points, after_normals 30%nat s)
     /\ List.length points = 30%nat /\ Forall (within 1 5) points) /\
  (exists points,
     trend_series env 30%nat base 3 100 70 s = (Ok points, after_normals 30%nat s)
     /\ List.length points = 30%nat /\ Forall (within 70 100) points).
Proof.
  intros Hbase Hdraws.
  repeat split; apply trend_series_bounded; auto.
Qed.

End Trends.

(** The witness of [trend_series_within_bounds]: base 75 and draws that
    are all zero. *)
Lemma trend_series_witness :
  exists points,
    trend_series idle 30 75%float 5%float 100%float 50%float (initial tt)
    = (Ok points, after_normals 30 (initial tt))
    /\ List.length points = 30 /\ Forall (within 50 100) points.
Proof.
  destruct (trend_series_within_bounds idle 75%float (initial tt)) as [H _].
  - reflexivity.
  - intros k scale. reflexivity.
  - exact H.
Defined.

(** C6 as first stated fails on a base that is NaN: the comparisons of the
    clamp are all false on NaN, so every point is NaN and lies within no
    bounds.  The backend [nan_kpi] brings that base to the page. *)
Lemma trend_series_of_nan :
  trend_series idle 30 nan 5%float 100%float 50%float (initial tt)
  = (Ok (repeat nan 30), after_normals 30 (initial tt))
  /\ PrimFloat.leb 50%float nan = false
  /\ PrimFloat.leb nan 100%float = false
  /\ In (LineChart "Efficiency Score Trend" (trend_dates (viewing "Analytics" 0))
                   (repeat nan 30))
        (page (snd (run nan_kpi (viewing "Analytics" 0) (initial tt)))).
Proof.
  split; [vm_compute; reflexivity|].
  split; [vm_compute; reflexivity|].
  split; [vm_compute; reflexivity|].
  vm_compute. do 11 right. left. reflexivity.
Qed.

(** ** Navigation *)

Section Navigation.
Local Open Scope string_scope.

Lemma offered_page_cases (page : string) :
  In page navigation_options ->
  page = "Dashboard" \/ page = "Shipments" \/ page = "Customers"
  \/ page = "Parcels" \/ page = "Analytics".
Proof.
  unfold navigation_options. simpl.
  intros [<-|[<-|[<-|[<-|[<-|[]]]]]]; tauto.
Qed.

(** C8: for every page name the navigation radio offers, the tests
    [page == "Personnel"] and [page == "Network Visualization"] are false,
    and the chain of branches selects neither of the two pages. *)
Theorem dead_pages_unreachable (page : string) :
  In page navigation_options ->
  String.eqb page "Personnel" = false
  /\ String.eqb page "Network Visualization" = false
  /\ dispatch page <> PersonnelBranch
  /\ dispatch page <> NetworkBranch.
Proof.
  intros H. apply offered_page_cases in H.
  destruct H as [->|[->|[->|[->| ->]]]]; repeat split; discriminate.
Qed.

(** The radio yields one of its options whatever the user did. *)
Lemma navigation_yields_option (env : Env) :
  In (pick env "Navigation" "Dashboard" ["Shipments"; "Customers"; "Parcels"; "Analytics"])
     navigation_options.
Proof. apply pick_offered. Qed.

(** So every run of the script renders one of the five offered pages. *)
Lemma script_branch_is_live (env : Env) :
  In (dispatch (pick env "Navigation" "Dashboard"
                     ["Shipments"; "Customers"; "Parcels"; "Analytics"]))
     [DashboardBranch; ShipmentsBranch; CustomersBranch; ParcelsBranch; AnalyticsBranch].
Proof.
  destruct (offered_page_cases _ (navigation_yields_option env))
    as [->|[->|[->|[->| ->]]]]; simpl; tauto.
Qed.

End Navigation.

(** The witness of [dead_pages_unreachable]: the Analytics entry. *)
Lemma dead_pages_witness :
  String.eqb "Analytics" "Personnel" = false
  /\ String.eqb "Analytics" "Network Visualization" = false
  /\ dispatch "Analytics" <> PersonnelBranch
  /\ dispatch "Analytics" <> NetworkBranch.
Proof.
  apply dead_pages_unreachable. unfold navigation_options. simpl. tauto.
Defined.

(** ** The run is a function of what it reads

    Every page reads the entries through the widgets and the draws
    through the generators; the clock is read by the Analytics page
    alone and the hash order by the Customers page alone. *)

Section SameRun.
Context {B : Type} (serve : B -> request -> reply * B).

Lemma bind_ext {A C : Type} (c1 c2 : M B A) (k1 k2 : A -> M B C) (s : state B) :
  c1 s = c2 s -> (forall a s', k1 a s' = k2 a s') -> bind c1 k1 s = bind c2 k2 s.
Proof.
  intros Hc Hk. unfold bind. rewrite Hc.
  destruct (c2 s) as [[a|e] s']; [apply Hk | reflexivity].
Qed.

Lemma for_each_ext {A : Type} (f g : A -> M B unit) (xs : list A) :
  (forall x s, f x s = g x s) -> forall s, for_each xs f s = for_each xs g s.
Proof.
  intros H. induction xs as [|x xs IH]; intros s; [reflexivity|].
  cbn [for_each]. apply bind_ext; [apply H | intros _ s'; apply IH].
Qed.

Lemma map_m_ext {A C : Type} (f g : A -> M B C) (xs : list A) :
  (forall x s, f x s = g x s) -> forall s, map_m f xs s = map_m g xs s.
Proof.
  intros H. induction xs as [|x xs IH]; intros s; [reflexivity|].
  cbn [map_m]. apply bind_ext; [apply H | intros y s'].
  apply bind_ext; [apply IH | reflexivity].
Qed.

Variables e1 e2 : Env.
Hypothesis same : same_inputs_and_draws e1 e2.

Lemma pick_same key first others : pick e1 key first others = pick e2 key first others.
Proof. destruct same as (_ & _ & H & _). unfold pick. now rewrite H. Qed.

Lemma text_input_same label (s : state B) : text_input e1 label s = text_input e2 label s.
Proof. destruct same as (H & _). unfold text_input. now rewrite H. Qed.

Lemma number_input_same label lo (s : state B) :
  number_input e1 label lo s = number_input e2 label lo s.
Proof. destruct same as (_ & H & _). unfold number_input. now rewrite H. Qed.

Lemma selectbox_same label key first others (s : state B) :
  selectbox e1 label key first others s = selectbox e2 label key first others s.
Proof. unfold selectbox. now rewrite pick_same. Qed.

Lemma radio_same label first others (s : state B) :
  radio e1 label first others s = radio e2 label first others s.
Proof. unfold radio. now rewrite pick_same. Qed.

Lemma button_same label key (s : state B) : button e1 label key s = button e2 label key s.
Proof. destruct same as (_ & _ & _ & H & _). unfold button. now rewrite H. Qed.

Lemma form_submit_button_same form label (s : state B) :
  form_submit_button e1 form label s = form_submit_button e2 form label s.
Proof. destruct same as (_ & _ & _ & H & _). unfold form_submit_button. now rewrite H. Qed.

Lemma random_choice_same {A : Type} (xs : list A) (s : state B) :
  random_choice e1 xs s = random_choice e2 xs s.
Proof. destruct same as (_ & _ & _ & _ & H & _). unfold random_choice. now rewrite H. Qed.

Lemma np_random_normal_same loc scale (s : state B) :
  np_random_normal e1 loc scale s = np_random_normal e2 loc scale s.
Proof. destruct same as (_ & _ & _ & _ & _ & H). unfold np_random_normal. now rewrite H. Qed.

(** The clock and the hash order, for the two pages that read them. *)
Hypothesis same_today : today e1 = today e2.
Hypothesis same_hash_rank : forall k, hash_rank e1 k = hash_rank e2 k.

Lemma insert_by_same x l :
  insert_by (hash_rank e1) x l = insert_by (hash_rank e2) x l.
Proof.
  induction l as [|y l IH]; [reflexivity|].
  cbn [insert_by]. now rewrite !same_hash_rank, IH.
Qed.

Lemma list_set_same xs : list_set (hash_rank e1) xs = list_set (hash_rank e2) xs.
Proof.
  unfold list_set. induction (nodup string_dec xs) as [|x l IH]; [reflexivity|].
  cbn [fold_right]. now rewrite IH, insert_by_same.
Qed.

Lemma trend_dates_same : trend_dates e1 = trend_dates e2.
Proof. unfold trend_dates. now rewrite same_today. Qed.


(** One step of a run on both sides: the same bind, the same branch. *)
Ltac same_step leaf :=
  first
    [ match goal with |- ?x = ?y => constr_eq x y; reflexivity end
    | leaf
    | rewrite list_set_same
    | apply bind_ext; [ | intros ? ?; cbv beta ]
    | apply for_each_ext; intros ? ?
    | apply map_m_ext; intros ? ?
    | match goal with
      | |- (if ?b then _ else _) _ = (if ?b then _ else _) _ => destruct b
      | |- (match ?x with _ => _ end) _ = (match ?x with _ => _ end) _ => destruct x
      end ].

(** The widgets and generators, recognised by their head. *)
Ltac same_widget :=
  match goal with
  | |- text_input _ _ _ = _ => apply text_input_same
  | |- number_input _ _ _ _ = _ => apply number_input_same
  | |- selectbox _ _ _ _ _ _ = _ => apply selectbox_same
  | |- radio _ _ _ _ _ = _ => apply radio_same
  | |- button _ _ _ _ = _ => apply button_same
  | |- form_submit_button _ _ _ _ = _ => apply form_submit_button_same
  | |- random_choice _ _ _ = _ => apply random_choice_same
  | |- np_random_normal _ _ _ _ = _ => apply np_random_normal_same
  end.

Ltac same_run_with leaf := cbv zeta; repeat (same_step ltac:(first [same_widget | leaf])).
Ltac same_run := same_run_with fail.

Lemma customer_card_same df row (s : state B) :
  customer_card serve e1 df row s = customer_card serve e2 df row s.
Proof. unfold customer_card. same_run. Qed.

Lemma customer_list_tab_same (s : state B) :
  customer_list_tab serve e1 s = customer_list_tab serve e2 s.
Proof. unfold customer_list_tab. same_run_with ltac:(idtac; match goal with |- customer_card _ _ _ _ _ = _ => apply customer_card_same end). Qed.

Lemma new_customer_form_same (s : state B) :
  new_customer_form serve e1 s = new_customer_form serve e2 s.
Proof. unfold new_customer_form. same_run. Qed.

Lemma customers_page_same (s : state B) :
  customers_page serve e1 s = customers_page serve e2 s.
Proof. unfold customers_page. same_run_with ltac:(idtac; match goal with
                       | |- customer_list_tab _ _ _ = _ => apply customer_list_tab_same
                       | |- new_customer_form _ _ _ = _ => apply new_customer_form_same
                       end). Qed.

Lemma parcels_page_same (s : state B) :
  parcels_page serve e1 s = parcels_page serve e2 s.
Proof. unfold parcels_page. same_run. Qed.

Lemma map_placement_same location (s : state B) :
  map_placement e1 location s = map_placement e2 location s.
Proof. unfold map_placement. same_run. Qed.

Lemma map_data_row_same df row (s : state B) :
  map_data_row e1 df row s = map_data_row e2 df row s.
Proof. unfold map_data_row. same_run_with ltac:(idtac; match goal with |- map_placement _ _ _ = _ => apply map_placement_same end). Qed.

Lemma status_update_form_same id (s : state B) :
  status_update_form serve e1 id s = status_update_form serve e2 id s.
Proof. unfold status_update_form. same_run. Qed.

Lemma shipment_entry_same df row (s : state B) :
  shipment_entry serve e1 df row s = shipment_entry serve e2 df row s.
Proof. unfold shipment_entry. same_run_with ltac:(idtac; match goal with |- status_update_form _ _ _ _ = _ => apply status_update_form_same end). Qed.

Lemma shipments_page_same (s : state B) :
  shipments_page serve e1 s = shipments_page serve e2 s.
Proof. unfold shipments_page. same_run_with ltac:(idtac; match goal with
                       | |- map_data_row _ _ _ _ = _ => apply map_data_row_same
                       | |- shipment_entry _ _ _ _ _ = _ => apply shipment_entry_same
                       end). Qed.

Lemma selectbox_of_same label options (s : state B) :
  selectbox_of e1 label options s = selectbox_of e2 label options s.
Proof. unfold selectbox_of. destruct options; [reflexivity | apply selectbox_same]. Qed.

Lemma personnel_assignment_same personnel (s : state B) :
  personnel_assignment serve e1 personnel s = personnel_assignment serve e2 personnel s.
Proof. unfold personnel_assignment. same_run_with ltac:(idtac; match goal with |- selectbox_of _ _ _ _ = _ => apply selectbox_of_same end). Qed.

Lemma personnel_page_same (s : state B) :
  personnel_page serve e1 s = personnel_page serve e2 s.
Proof. unfold personnel_page. same_run_with ltac:(idtac; match goal with |- personnel_assignment _ _ _ _ = _ => apply personnel_assignment_same end). Qed.

Lemma trend_series_same n base scale upper lower (s : state B) :
  trend_series e1 n base scale upper lower s = trend_series e2 n base scale upper lower s.
Proof.
  revert s. induction n as [|n IH]; intros s; [reflexivity|].
  cbn [trend_series]. apply bind_ext; [apply np_random_normal_same | intros noise s'].
  apply bind_ext; [apply IH | reflexivity].
Qed.

Lemma analytics_page_same (s : state B) :
  analytics_page serve e1 s = analytics_page serve e2 s.
Proof.
  unfold analytics_page. rewrite trend_dates_same.
  same_run_with ltac:(idtac; match goal with |- trend_series _ _ _ _ _ _ _ = _ => apply trend_series_same end).
Qed.


End SameRun.

(** The branches: the clock is wanted on Analytics alone, the hash order
    on Customers alone. *)
Lemma render_same {B : Type} (serve : B -> request -> reply * B) (e1 e2 : Env)
    (b : branch) (s : state B) :
  same_inputs_and_draws e1 e2 ->
  (b = AnalyticsBranch -> today e1 = today e2) ->
  (b = CustomersBranch -> forall k, hash_rank e1 k = hash_rank e2 k) ->
  render serve e1 b s = render serve e2 b s.
Proof.
  intros same Htoday Hhash. destruct b; cbn [render].
  - reflexivity.
  - apply customers_page_same; [exact same | exact (Hhash eq_refl)].
  - now apply parcels_page_same.
  - now apply shipments_page_same.
  - now apply personnel_page_same.
  - apply analytics_page_same; [exact same | exact (Htoday eq_refl)].
  - reflexivity.
  - reflexivity.
Qed.

Lemma bind_radio_run {B C : Type} (env : Env) label first others (k : string -> M B C)
    (s : state B) :
  bind (radio env label first others) k s
  = k (pick env label first others) (snd (show (Radio label (first :: others)) s)).
Proof. reflexivity. Qed.

Lemma run_same {B : Type} (serve : B -> request -> reply * B) (e1 e2 : Env) (s : state B) :
  same_inputs_and_draws e1 e2 ->
  (chosen_page e1 = AnalyticsBranch -> today e1 = today e2) ->
  (chosen_page e1 = CustomersBranch -> forall k, hash_rank e1 k = hash_rank e2 k) ->
  run serve e1 s = run serve e2 s.
Proof.
  intros same Htoday Hhash. unfold run, script, chosen_page in *.
  do 3 (apply bind_ext; [reflexivity | intros [] ?]).
  rewrite !bind_radio_run, <- (pick_same e1 e2 same).
  do 4 (apply bind_ext; [reflexivity | intros [] ?]).
  apply bind_ext; [now apply render_same | reflexivity].
Qed.

(** The Analytics pages of two consecutive days, all else equal: their
    trend charts carry different dates. *)
Lemma analytics_of_two_days :
  first_trend_date (page (snd (run counting (viewing "Analytics" 20760) (initial 0))))
  = Some "2026-10-04"
  /\ first_trend_date (page (snd (run counting (viewing "Analytics" 20761) (initial 0))))
     = Some "2026-10-05".
Proof. split; vm_compute; reflexivity. Qed.

(** The type filter of the Customers page under two hash orders, all
    else equal: its choices come in two orders. *)
Lemma customers_of_two_hash_orders :
  type_filter_choices
    (page (snd (run ada_and_grace (viewing "Customers" 20760) (initial tt))))
  = Some [JStr "All"; JStr "Business"; JStr "Individual"]
  /\ type_filter_choices
       (page (snd (run ada_and_grace
                       (with_hash_rank longest_first (viewing "Customers" 20760))
                       (initial tt))))
     = Some [JStr "All"; JStr "Individual"; JStr "Business"].
Proof. split; vm_compute; reflexivity. Qed.

(** C7 (as amended): what a run is a function of.  Two runs of the script
    from the same state, against the same backend, with the same
    entries and the same random draws, return the same result and leave
    the same state (the same page, the same requests, the same
    session), provided the current date is the same when the Analytics
    page is chosen and the iteration order of a set of strings is the
    same when the Customers page is chosen; on the other pages neither
    is read.  Both provisos are needed: on the Analytics page two days
    give two pages, and on the Customers page two hash orders give two
    pages. *)
Theorem run_determined :
  (forall (B : Type) (serve : B -> request -> reply * B) (e1 e2 : Env) (s : state B),
      same_inputs_and_draws e1 e2 ->
      (chosen_page e1 = AnalyticsBranch -> today e1 = today e2) ->
      (chosen_page e1 = CustomersBranch -> forall k, hash_rank e1 k = hash_rank e2 k) ->
      run serve e1 s = run serve e2 s)
  /\ page (snd (run counting (viewing "Analytics" 20760) (initial 0)))
     <> page (snd (run counting (viewing "Analytics" 20761) (initial 0)))
  /\ page (snd (run ada_and_grace (viewing "Customers" 20760) (initial tt)))
     <> page (snd (run ada_and_grace
                       (with_hash_rank longest_first (viewing "Customers" 20760))
                       (initial tt))).
Proof.
  split; [intros B serve e1 e2 s; apply run_same|]. split.
  - intros H. apply (f_equal first_trend_date) in H.
    destruct analytics_of_two_days as [H1 H2]. rewrite H1, H2 in H. discriminate H.
  - intros H. apply (f_equal type_filter_choices) in H.
    destruct customers_of_two_hash_orders as [H1 H2]. rewrite H1, H2 in H. discriminate H.
Qed.

(** The witness of [run_determined]: the Dashboard of two consecutive
    days, under two hash orders. *)
Lemma run_determined_witness :
  run counting (viewing "Dashboard" 20760) (initial 0)
  = run counting (with_hash_rank longest_first (viewing "Dashboard" 20761)) (initial 0).
Proof.
  apply (proj1 run_determined); [repeat split | discriminate | discriminate].
Defined.

(** C7 as first stated fails on the clock: the same backend, the same
    entries and the same draws on two consecutive days give two Analytics
    pages whose trend charts carry different dates. *)
Lemma analytics_depends_on_the_day :
  same_inputs_and_draws (viewing "Analytics" 20760) (viewing "Analytics" 20761)
  /\ first_trend_date (page (snd (run counting (viewing "Analytics" 20760) (initial 0))))
     = Some "2026-10-04"
  /\ first_trend_date (page (snd (run counting (viewing "Analytics" 20761) (initial 0))))
     = Some "2026-10-05"
  /\ ~ render_claim_as_stated.
Proof.
  assert (Hsame : same_inputs_and_draws (viewing "Analytics" 20760) (viewing "Analytics" 20761))
    by (repeat split).
  split; [exact Hsame|].
  destruct analytics_of_two_days as [H1 H2].
  split; [exact H1|]. split; [exact H2|].
  intros claim.
  specialize (claim counting _ _ (initial 0) Hsame).
  apply (f_equal first_trend_date) in claim.
  rewrite H1, H2 in claim. discriminate claim.
Qed.

(** ** What every page preserves

    A relation between the state before and after that is reflexive and
    transitive, and that every elementary step respects (an element
    shown, a draw, a session assignment, an allowed request), holds
    across every page and across the script.  The writes are reached
    through their forms only, so a request of a form has to be allowed
    only when that form is submitted. *)

Section Steps.
Local Open Scope string_scope.
Local Open Scope script_scope.
Context {B : Type} (serve : B -> request -> reply * B) (env : Env).
Context (R : state B -> state B -> Prop) (allowed : request -> bool).
Context {inv : Invariant R allowed} {reads : Reads allowed}.

Lemma preserves_ret {A : Type} (a : A) : preserves R (@ret B A a).
Proof. intros s. apply R_refl. Qed.

Lemma preserves_raise {A : Type} e : preserves R (@raise B A e).
Proof. intros s. apply R_refl. Qed.

Lemma preserves_lift {A : Type} (r : result A) : preserves R (@lift B A r).
Proof. intros s. apply R_refl. Qed.

Lemma preserves_rerun {A : Type} : preserves R (@st_rerun B A).
Proof. intros s. apply R_refl. Qed.

Lemma preserves_show e : preserves R (@show B e).
Proof. intros s. apply R_show. Qed.

Lemma preserves_session_set k v : preserves R (@session_set B k v).
Proof. intros s. apply R_session. Qed.

Lemma preserves_session_default k : preserves R (@session_default B k).
Proof.
  intros s. unfold session_default.
  destruct (Py.lookup k (session s)); [apply R_refl | apply R_session].
Qed.

Lemma preserves_bind {A C : Type} (c : M B A) (k : A -> M B C) :
  preserves R c -> (forall a, preserves R (k a)) -> preserves R (bind c k).
Proof.
  intros Hc Hk s. unfold bind. specialize (Hc s).
  destruct (c s) as [[a|e] s']; simpl in Hc; [|exact Hc].
  exact (R_trans _ _ _ Hc (Hk a s')).
Qed.

(** A step that changes nothing and returns [a] hands [a] on. *)
Lemma preserves_bind_lift {A C : Type} (r : result A) (k : A -> M B C) :
  (forall a, r = Ok a -> preserves R (k a)) -> preserves R (bind (lift r) k).
Proof.
  intros Hk s. unfold bind, lift. destruct r as [a|e]; [now apply Hk | apply R_refl].
Qed.

Lemma preserves_for_each {A : Type} (xs : list A) (body : A -> M B unit) :
  (forall x, preserves R (body x)) -> preserves R (for_each xs body).
Proof.
  intros H. induction xs as [|x xs IH]; cbn [for_each]; [apply preserves_ret|].
  apply preserves_bind; [apply H | intros _; exact IH].
Qed.

Lemma preserves_map_m {A C : Type} (f : A -> M B C) (xs : list A) :
  (forall x, preserves R (f x)) -> preserves R (map_m f xs).
Proof.
  intros H. induction xs as [|x xs IH]; cbn [map_m]; [apply preserves_ret|].
  apply preserves_bind; [apply H | intros y].
  apply preserves_bind; [exact IH | intros ys; apply preserves_ret].
Qed.

(** One call and what its [except] clause shows. *)
Lemma preserves_helper r (h : string -> element) :
  allowed r = true ->
  preserves R (try_except (call serve r) (fun e => show (h e) ;;; ret JNull)).
Proof.
  intros Hr s. unfold try_except, call, bind, requests_send.
  destruct (serve (backend s) r) as [[why|code why bd] b'] eqn:E.
  - eapply R_trans; [apply (R_request s r b' Hr) | apply R_show].
  - unfold raise_for_status. cbn [status_code].
    destruct ((400 <=? code)%Z && (code <? 500)%Z);
      [eapply R_trans; [apply (R_request s r b' Hr) | apply R_show]|].
    destruct ((500 <=? code)%Z && (code <? 600)%Z);
      [eapply R_trans; [apply (R_request s r b' Hr) | apply R_show]|].
    destruct bd as [v|w]; [apply (R_request s r b' Hr)|].
    eapply R_trans; [apply (R_request s r b' Hr) | apply R_show].
Qed.

Lemma preserves_fetch_data endpoint params : preserves R (fetch_data serve endpoint params).
Proof. rewrite fetch_data_call. apply preserves_helper, allowed_get. Qed.

Lemma preserves_update_data endpoint data :
  allowed (put_request endpoint data) = true -> preserves R (update_data serve endpoint data).
Proof. intros H. rewrite update_data_call. now apply preserves_helper. Qed.

Lemma preserves_create_data endpoint data :
  allowed (post_request endpoint data) = true -> preserves R (create_data serve endpoint data).
Proof. intros H. rewrite create_data_call. now apply preserves_helper. Qed.

Lemma preserves_text_input label : preserves R (@text_input B env label).
Proof. intros s. apply R_show. Qed.

Lemma preserves_number_input label lo : preserves R (@number_input B env label lo).
Proof. intros s. apply R_show. Qed.

Lemma preserves_selectbox label key first others :
  preserves R (@selectbox B env label key first others).
Proof. intros s. apply R_show. Qed.

Lemma preserves_radio label first others : preserves R (@radio B env label first others).
Proof. intros s. apply R_show. Qed.

Lemma preserves_button label key : preserves R (@button B env label key).
Proof. intros s. apply R_show. Qed.

Lemma preserves_form_submit_button form label :
  preserves R (@form_submit_button B env form label).
Proof. intros s. apply R_show. Qed.

(** A widget hands on what the user entered. *)
Lemma preserves_after_selectbox {C : Type} label key first others (k : string -> M B C) :
  preserves R (k (pick env key first others)) ->
  preserves R (bind (selectbox env label key first others) k).
Proof. intros Hk s. exact (R_trans _ _ _ (R_show s _) (Hk _)). Qed.

Lemma preserves_after_text_input {C : Type} label (k : string -> M B C) :
  preserves R (k (typed env label)) -> preserves R (bind (text_input env label) k).
Proof. intros Hk s. exact (R_trans _ _ _ (R_show s _) (Hk _)). Qed.

Lemma preserves_after_number_input {C : Type} label lo (k : Z -> M B C) :
  preserves R (k (Z.max lo (number env label))) ->
  preserves R (bind (number_input env label lo) k).
Proof. intros Hk s. exact (R_trans _ _ _ (R_show s _) (Hk _)). Qed.

Lemma preserves_after_submit {C : Type} form label (k : bool -> M B C) :
  preserves R (k (pressed env form)) ->
  preserves R (bind (form_submit_button env form label) k).
Proof. intros Hk s. exact (R_trans _ _ _ (R_show s _) (Hk _)). Qed.

Lemma preserves_random_choice {A : Type} (xs : list A) : preserves R (@random_choice B env A xs).
Proof. intros s. unfold random_choice. destruct xs; [apply R_refl | apply R_random]. Qed.

Lemma preserves_np_random_normal loc scale : preserves R (@np_random_normal B env loc scale).
Proof. intros s. apply R_normal. Qed.

End Steps.

(** A step lemma applied under the invariant at hand. *)
Ltac by_inv lem :=
  eapply lem;
  try match goal with
      | |- Invariant _ _ => eassumption
      | |- Reads _ => eassumption
      | |- Writes _ _ => eassumption
      end.

(** One step through a page: a bind, a loop, a branch, or a leaf. *)
Ltac keep_leaf :=
  match goal with
  | |- preserves _ (ret _) => by_inv @preserves_ret
  | |- preserves _ (raise _) => by_inv @preserves_raise
  | |- preserves _ (lift _) => by_inv @preserves_lift
  | |- preserves _ st_rerun => by_inv @preserves_rerun
  | |- preserves _ (show _) => by_inv @preserves_show
  | |- preserves _ (session_set _ _) => by_inv @preserves_session_set
  | |- preserves _ (session_default _) => by_inv @preserves_session_default
  | |- preserves _ (fetch_data _ _ _) => by_inv @preserves_fetch_data
  | |- preserves _ (text_input _ _) => by_inv @preserves_text_input
  | |- preserves _ (number_input _ _ _) => by_inv @preserves_number_input
  | |- preserves _ (selectbox _ _ _ _ _) => by_inv @preserves_selectbox
  | |- preserves _ (radio _ _ _ _) => by_inv @preserves_radio
  | |- preserves _ (button _ _ _) => by_inv @preserves_button
  | |- preserves _ (form_submit_button _ _ _) => by_inv @preserves_form_submit_button
  | |- preserves _ (random_choice _ _) => by_inv @preserves_random_choice
  | |- preserves _ (np_random_normal _ _ _) => by_inv @preserves_np_random_normal
  end.

Ltac keep_step leaf :=
  first
    [ keep_leaf
    | leaf
    | match goal with
      | |- preserves _ (bind _ _) => by_inv @preserves_bind; [ | intros ? ]
      | |- preserves _ (for_each _ _) => by_inv @preserves_for_each; intros ?
      | |- preserves _ (map_m _ _) => by_inv @preserves_map_m; intros ?
      | |- preserves _ (if ?b then _ else _) => destruct b
      | |- preserves _ (match ?x with _ => _ end) => destruct x
      end ].

Ltac keep_with leaf := cbv zeta; repeat (keep_step leaf).
Ltac keep := keep_with fail.

Section Pages.
Local Open Scope string_scope.
Local Open Scope script_scope.
Context {B : Type} (serve : B -> request -> reply * B) (env : Env).
Context (R : state B -> state B -> Prop) (allowed : request -> bool).
Context {inv : Invariant R allowed} {reads : Reads allowed} {writes : Writes env allowed}.

Lemma preserves_recent_shipment_card df row : preserves R (@recent_shipment_card B df row).
Proof. unfold recent_shipment_card. keep. Qed.

Lemma preserves_dashboard_page : preserves R (dashboard_page serve).
Proof.
  unfold dashboard_page.
  keep_with ltac:(idtac; match goal with
                         | |- preserves _ (recent_shipment_card _ _) =>
                             apply preserves_recent_shipment_card
                         end).
Qed.

Lemma preserves_customer_card df row : preserves R (customer_card serve env df row).
Proof. unfold customer_card. keep. Qed.

Lemma preserves_customer_list_tab : preserves R (customer_list_tab serve env).
Proof.
  unfold customer_list_tab.
  keep_with ltac:(idtac; match goal with
                         | |- preserves _ (customer_card _ _ _ _) => apply preserves_customer_card
                         end).
Qed.

(** The Add Customer form sends its POST only when it is submitted with a
    name and an email. *)
Lemma preserves_new_customer_form : preserves R (new_customer_form serve env).
Proof.
  unfold new_customer_form.
  by_inv @preserves_after_number_input.
  do 4 by_inv @preserves_after_text_input.
  by_inv @preserves_after_selectbox.
  cbv zeta. by_inv @preserves_after_submit.
  generalize (allowed_customer (Writes := writes)).
  destruct (pressed env "new_customer_form"); [|intros _; keep].
  destruct (Py.truthy (JStr (typed env "Name")) && Py.truthy (JStr (typed env "Email")));
    [|intros _; keep].
  intros Hc. by_inv @preserves_bind; [|intros result; keep].
  by_inv @preserves_create_data. exact (Hc eq_refl eq_refl).
Qed.

Lemma preserves_customers_page : preserves R (customers_page serve env).
Proof.
  unfold customers_page.
  keep_with ltac:(idtac; match goal with
                         | |- preserves _ (customer_list_tab _ _) => apply preserves_customer_list_tab
                         | |- preserves _ (new_customer_form _ _) => apply preserves_new_customer_form
                         end).
Qed.

Lemma preserves_shipment_card df row : preserves R (@shipment_card B df row).
Proof. unfold shipment_card. keep. Qed.

Lemma preserves_parcel_details id : preserves R (parcel_details serve id).
Proof.
  unfold parcel_details.
  keep_with ltac:(idtac; match goal with
                         | |- preserves _ (shipment_card _ _) => apply preserves_shipment_card
                         end).
Qed.

Lemma preserves_parcels_page : preserves R (parcels_page serve env).
Proof.
  unfold parcels_page.
  keep_with ltac:(idtac; match goal with
                         | |- preserves _ (parcel_details _ _) => apply preserves_parcel_details
                         end).
Qed.

Lemma preserves_map_placement location : preserves R (@map_placement B env location).
Proof. unfold map_placement. keep. Qed.

Lemma preserves_map_data_row df row : preserves R (@map_data_row B env df row).
Proof.
  unfold map_data_row.
  keep_with ltac:(idtac; match goal with
                         | |- preserves _ (map_placement _ _) => apply preserves_map_placement
                         end).
Qed.

(** The update form sends its PUT only when it is submitted. *)
Lemma preserves_status_update_form id : preserves R (status_update_form serve env id).
Proof.
  unfold status_update_form.
  by_inv @preserves_bind_lift. intros id_text _.
  by_inv @preserves_after_selectbox. by_inv @preserves_after_submit.
  destruct (pressed env ("update_form_" ++ id_text)) eqn:Hp; [|keep].
  by_inv @preserves_bind; [|intros result; keep].
  by_inv @preserves_update_data. exact (allowed_status id_text Hp).
Qed.

Lemma preserves_shipment_entry df row : preserves R (shipment_entry serve env df row).
Proof.
  unfold shipment_entry.
  keep_with ltac:(idtac; match goal with
                         | |- preserves _ (shipment_card _ _) => apply preserves_shipment_card
                         | |- preserves _ (status_update_form _ _ _) =>
                             apply preserves_status_update_form
                         end).
Qed.

Lemma preserves_shipments_page : preserves R (shipments_page serve env).
Proof.
  unfold shipments_page.
  keep_with ltac:(idtac; match goal with
                         | |- preserves _ (map_data_row _ _ _) => apply preserves_map_data_row
                         | |- preserves _ (shipment_entry _ _ _ _) => apply preserves_shipment_entry
                         end).
Qed.

Lemma preserves_person_card df row : preserves R (@person_card B df row).
Proof. unfold person_card. keep. Qed.

Lemma preserves_selectbox_of label options : preserves R (@selectbox_of B env label options).
Proof. unfold selectbox_of. keep. Qed.

Lemma preserves_personnel_assignment personnel :
  preserves R (personnel_assignment serve env personnel).
Proof.
  unfold personnel_assignment.
  keep_with ltac:(idtac; match goal with
                         | |- preserves _ (selectbox_of _ _ _) => apply preserves_selectbox_of
                         end).
Qed.

Lemma preserves_personnel_page : preserves R (personnel_page serve env).
Proof.
  unfold personnel_page.
  keep_with ltac:(idtac; match goal with
                         | |- preserves _ (person_card _ _) => apply preserves_person_card
                         | |- preserves _ (personnel_assignment _ _ _) =>
                             apply preserves_personnel_assignment
                         end).
Qed.

Lemma preserves_trend_series n base scale upper lower :
  preserves R (@trend_series B env n base scale upper lower).
Proof. induction n as [|n IH]; cbn [trend_series]; keep_with ltac:(exact IH). Qed.

Lemma preserves_kpi_card kpi_data key label suffix :
  preserves R (@kpi_card B kpi_data key label suffix).
Proof. unfold kpi_card. keep. Qed.

Lemma preserves_kpi_base kpi_data key default : preserves R (@kpi_base B kpi_data key default).
Proof. unfold kpi_base. keep. Qed.

Lemma preserves_analytics_charts kpi_data analytics_data customer_insights :
  preserves R (@analytics_charts B env kpi_data analytics_data customer_insights).
Proof.
  unfold analytics_charts.
  keep_with ltac:(idtac; match goal with
                         | |- preserves _ (kpi_card _ _ _ _) => apply preserves_kpi_card
                         | |- preserves _ (kpi_base _ _ _) => apply preserves_kpi_base
                         | |- preserves _ (trend_series _ _ _ _ _ _) => apply preserves_trend_series
                         end).
Qed.

Lemma preserves_analytics_page : preserves R (analytics_page serve env).
Proof.
  unfold analytics_page.
  keep_with ltac:(idtac; match goal with
                         | |- preserves _ (kpi_card _ _ _ _) => apply preserves_kpi_card
                         | |- preserves _ (kpi_base _ _ _) => apply preserves_kpi_base
                         | |- preserves _ (trend_series _ _ _ _ _ _) => apply preserves_trend_series
                         end).
Qed.

Lemma preserves_whole_table v : preserves R (@whole_table B v).
Proof. unfold whole_table. keep. Qed.

Lemma preserves_network_page : preserves R (network_page serve).
Proof.
  unfold network_page.
  keep_with ltac:(idtac; match goal with
                         | |- preserves _ (whole_table _) => apply preserves_whole_table
                         end).
Qed.

Lemma preserves_render b : preserves R (render serve env b).
Proof.
  destruct b; cbn [render];
    [ apply preserves_dashboard_page | apply preserves_customers_page
    | apply preserves_parcels_page | apply preserves_shipments_page
    | apply preserves_personnel_page | apply preserves_analytics_page
    | apply preserves_network_page | keep ].
Qed.

Lemma preserves_script : preserves R (script serve env).
Proof.
  unfold script.
  keep_with ltac:(idtac; match goal with
                         | |- preserves _ (render _ _ _) => apply preserves_render
                         end).
Qed.

End Pages.

(** The parts of the pages, as steps of what contains them. *)
Ltac keep_part :=
  match goal with
  | |- preserves _ (recent_shipment_card _ _) => by_inv @preserves_recent_shipment_card
  | |- preserves _ (customer_card _ _ _ _) => by_inv @preserves_customer_card
  | |- preserves _ (new_customer_form _ _) => by_inv @preserves_new_customer_form
  | |- preserves _ (shipment_card _ _) => by_inv @preserves_shipment_card
  | |- preserves _ (parcel_details _ _) => by_inv @preserves_parcel_details
  | |- preserves _ (map_data_row _ _ _) => by_inv @preserves_map_data_row
  | |- preserves _ (shipment_entry _ _ _ _) => by_inv @preserves_shipment_entry
  | |- preserves _ (analytics_charts _ _ _ _) => by_inv @preserves_analytics_charts
  end.

Ltac keep_page := keep_with ltac:(idtac; keep_part).

(** ** The requests a run sends *)

Section Requests.
Local Open Scope string_scope.
Context {B : Type}.

Lemma adds_only_refl allowed (s : state B) : adds_only allowed s s.
Proof. exists []. now rewrite app_nil_r. Qed.

Lemma adds_only_trans allowed (s1 s2 s3 : state B) :
  adds_only allowed s1 s2 -> adds_only allowed s2 s3 -> adds_only allowed s1 s3.
Proof.
  intros (m1 & E1 & H1) (m2 & E2 & H2). exists (m1 ++ m2)%list. split.
  - now rewrite E2, E1, app_assoc.
  - now rewrite forallb_app, H1, H2.
Qed.

Lemma adds_only_same_sent allowed (s s' : state B) :
  sent s' = sent s -> adds_only allowed s s'.
Proof. intros E. exists []. now rewrite app_nil_r. Qed.

Lemma adds_only_request allowed (s : state B) r b' :
  allowed r = true -> adds_only allowed s (after_request s r b').
Proof. intros H. exists [r]. split; [reflexivity|]. simpl. now rewrite H. Qed.

Lemma keeps_keys_refl (s : state B) : keeps_keys s s.
Proof. intros k H. exact H. Qed.

Lemma keeps_keys_trans (s1 s2 s3 : state B) :
  keeps_keys s1 s2 -> keeps_keys s2 s3 -> keeps_keys s1 s3.
Proof. intros H1 H2 k H. apply H2, H1, H. Qed.

Lemma lookup_assign_same {A : Type} k (v : A) d : Py.lookup k (Py.assign k v d) = Some v.
Proof.
  induction d as [|[k' v'] d IH]; simpl; [now rewrite String.eqb_refl|].
  destruct (String.eqb k k') eqn:E; simpl; [now rewrite String.eqb_refl | now rewrite E].
Qed.

Lemma lookup_assign_other {A : Type} k k0 (v : A) d :
  k0 <> k -> Py.lookup k0 (Py.assign k v d) = Py.lookup k0 d.
Proof.
  intros Hk. induction d as [|[k' v'] d IH]; simpl.
  - destruct (String.eqb_spec k0 k); [contradiction | reflexivity].
  - destruct (String.eqb_spec k k') as [->|]; simpl.
    + destruct (String.eqb_spec k0 k'); [contradiction | reflexivity].
    + now rewrite IH.
Qed.

Lemma keeps_keys_assign (s : state B) k v :
  keeps_keys s (mkState (backend s) (sent s) (page s) (random_used s)
                        (normal_used s) (Py.assign k v (session s))).
Proof.
  intros k0 H. cbn [session].
  destruct (String.eqb_spec k0 k) as [->|Hk].
  - now rewrite lookup_assign_same.
  - now rewrite lookup_assign_other.
Qed.

Lemma endswith_app suffix a : PyStr.endswith suffix (a ++ suffix) = true.
Proof.
  induction a as [|c a IH]; cbn [append].
  - destruct suffix; cbn [PyStr.endswith]; now rewrite String.eqb_refl.
  - cbn [PyStr.endswith]. rewrite IH. apply orb_true_r.
Qed.

Lemma offered_exists v options : In v options -> existsb (String.eqb v) options = true.
Proof. intros H. apply existsb_exists. exists v. split; [exact H | apply String.eqb_refl]. Qed.

(** The request of the update form is a status update. *)
Lemma status_request_is_status_update env id_text :
  is_status_update (status_request env id_text) = true.
Proof.
  unfold is_status_update, status_request, put_request.
  cbn [req_method req_params req_json req_url].
  rewrite String.eqb_refl.
  rewrite (offered_exists (new_status_of env id_text) statuses (pick_offered env _ _ _)).
  cbn [andb]. apply andb_true_intro. split; [reflexivity|].
  replace (API_BASE_URL ++ "/" ++ "shipments/" ++ id_text ++ "/status")
    with ((API_BASE_URL ++ "/" ++ "shipments/" ++ id_text) ++ "/status")
    by (now rewrite !app_assoc_str).
  apply endswith_app.
Qed.

(** The request of the Add Customer form, when its guard lets it
    through, is a customer creation. *)
Lemma new_customer_is_new_customer env :
  Py.truthy (JStr (typed env "Name")) && Py.truthy (JStr (typed env "Email")) = true ->
  is_new_customer (post_request "customers" (new_customer_of env)) = true.
Proof.
  intros Ht. apply andb_prop in Ht. destruct Ht as [Hn He]. cbn [Py.truthy] in Hn, He.
  unfold is_new_customer, post_request, new_customer_of.
  cbn [req_method req_params req_json req_url].
  rewrite Hn, He.
  rewrite (offered_exists _ _ (pick_offered env "Type" "Individual"
                                 ["Business"; "Corporate"; "Government"])).
  rewrite !andb_true_r.
  apply andb_true_intro. split; [apply String.eqb_refl | apply Z.leb_le, Z.le_max_l].
Qed.

End Requests.

(** [adds_only] is an invariant of the runs whose requests are allowed. *)
Lemma adds_only_invariant {B : Type} (allowed : request -> bool) :
  Invariant (B := B) (adds_only allowed) allowed.
Proof.
  constructor.
  - apply adds_only_refl.
  - apply adds_only_trans.
  - intros; now apply adds_only_same_sent.
  - intros; now apply adds_only_same_sent.
  - intros; now apply adds_only_same_sent.
  - intros; now apply adds_only_same_sent.
  - intros s r b'. apply adds_only_request.
Qed.

(** X1: A run sends nothing but the reads, the status update of a submitted
    update form and the customer creation of a submitted Add Customer
    form, whatever the user does and whatever the backend answers. *)
Theorem script_sends_only_its_requests {B : Type} (serve : B -> request -> reply * B)
    (env : Env) (s : state B) :
  adds_only script_request s (snd (run serve env s)).
Proof.
  unfold run. revert s. fold (preserves (adds_only script_request) (script serve env)).
  apply (@preserves_script _ serve env _ script_request).
  - apply adds_only_invariant.
  - now constructor.
  - constructor.
    + intros id_text _. unfold script_request.
      rewrite status_request_is_status_update. now rewrite orb_true_r.
    + intros _ Ht. unfold script_request.
      rewrite (new_customer_is_new_customer env Ht). apply orb_true_r.
Qed.

(** X2: A run in which no button is pressed and no form submitted only
    reads: every request it sends is a GET. *)
Theorem viewing_only_reads {B : Type} (serve : B -> request -> reply * B)
    (env : Env) (s : state B) :
  presses_nothing env -> adds_only is_get s (snd (run serve env s)).
Proof.
  intros Hp. unfold run. revert s. fold (preserves (adds_only is_get) (script serve env)).
  apply (@preserves_script _ serve env _ is_get).
  - apply adds_only_invariant.
  - now constructor.
  - constructor.
    + intros id_text H. rewrite Hp in H. discriminate H.
    + intros H. rewrite Hp in H. discriminate H.
Qed.

(** The witness of [viewing_only_reads]: the idle user and the counting
    backend. *)
Lemma viewing_only_reads_witness :
  presses_nothing idle /\ adds_only is_get (initial 0) (snd (run counting idle (initial 0))).
Proof.
  assert (H : presses_nothing idle) by (intros key; reflexivity).
  split; [exact H | exact (viewing_only_reads counting idle (initial 0) H)].
Defined.

(** X3: Only the Customers and the Shipments branch can write: every other
    branch of the script, the two pages without a navigation entry
    among them, sends nothing but GETs even when every button is pressed
    and every form submitted. *)
Theorem other_pages_only_read {B : Type} (serve : B -> request -> reply * B)
    (env : Env) (b : branch) (s : state B) :
  b <> CustomersBranch -> b <> ShipmentsBranch ->
  adds_only is_get s (snd (render serve env b s)).
Proof.
  intros Hc Hs. revert s. fold (preserves (adds_only is_get) (render serve env b)).
  pose proof (adds_only_invariant (B := B) is_get) as inv.
  assert (reads : Reads is_get) by now constructor.
  destruct b; cbn [render]; try contradiction.
  - by_inv @preserves_dashboard_page.
  - by_inv @preserves_parcels_page.
  - by_inv @preserves_personnel_page.
  - by_inv @preserves_analytics_page.
  - by_inv @preserves_network_page.
  - keep.
Qed.

(** The witness of [other_pages_only_read]: the Personnel branch with
    its assignment form submitted. *)
Lemma other_pages_only_read_witness :
  PersonnelBranch <> CustomersBranch /\ PersonnelBranch <> ShipmentsBranch /\
  adds_only is_get (initial 0) (snd (render counting eager PersonnelBranch (initial 0))).
Proof.
  assert (Hc : PersonnelBranch <> CustomersBranch) by discriminate.
  assert (Hs : PersonnelBranch <> ShipmentsBranch) by discriminate.
  split; [exact Hc|]. split; [exact Hs|].
  exact (other_pages_only_read counting eager PersonnelBranch (initial 0) Hc Hs).
Defined.

(** ** The pages, run *)

Section PageRuns.
Local Open Scope string_scope.
Local Open Scope script_scope.
Context {B : Type} (serve : B -> request -> reply * B) (env : Env).

Lemma bind_ok {A C : Type} (c : M B A) (k : A -> M B C) s a s' :
  c s = (Ok a, s') -> bind c k s = k a s'.
Proof. intros H. unfold bind. now rewrite H. Qed.

Lemma bind_show {C : Type} e (k : unit -> M B C) s :
  bind (show e) k s = k tt (with_element s e).
Proof. reflexivity. Qed.

Lemma bind_lift_ok {A C : Type} (r : result A) (k : A -> M B C) s a :
  r = Ok a -> bind (lift r) k s = k a s.
Proof. intros ->. reflexivity. Qed.

Lemma bind_selectbox {C : Type} label key first others (k : string -> M B C) s :
  bind (selectbox env label key first others) k s
  = k (pick env key first others)
      (with_element s (SelectBox label (map JStr (first :: others)))).
Proof. reflexivity. Qed.

Lemma error_status code :
  ((400 <=? code)%Z && (code <? 600)%Z)
  = ((400 <=? code)%Z && (code <? 500)%Z) || ((500 <=? code)%Z && (code <? 600)%Z).
Proof.
  destruct (Z.leb_spec 400 code), (Z.ltb_spec code 600), (Z.ltb_spec code 500),
           (Z.leb_spec 500 code); simpl; try reflexivity; lia.
Qed.

Lemma bind_button {C : Type} label key (k : bool -> M B C) s :
  bind (button env label key) k s = k (pressed env key) (with_element s (Button label)).
Proof. reflexivity. Qed.

(** [fetch_data] always returns: the payload of a usable reply and
    nothing shown, or [None] and one error. *)
Lemma fetch_data_run endpoint params (s : state B) :
  let r := get_request endpoint params in
  let rep := fst (serve (backend s) r) in
  exists shown,
    fetch_data serve endpoint params s
    = (Ok (fetched rep), after_fetch s r (snd (serve (backend s) r)) shown)
    /\ forallb is_error_box shown = true
    /\ (Py.truthy (fetched rep) = true -> shown = []).
Proof.
  intros r rep. subst rep. rewrite fetch_data_call. fold r.
  unfold try_except, call, bind, requests_send, after_fetch.
  destruct (serve (backend s) r) as [[why|code why bd] b'] eqn:E; cbn [fst snd fetched].
  - eexists [_]. repeat split. discriminate.
  - unfold raise_for_status. cbn [status_code]. rewrite error_status.
    destruct ((400 <=? code)%Z && (code <? 500)%Z) eqn:E4.
    { eexists [_]. destruct bd; repeat split; discriminate. }
    destruct ((500 <=? code)%Z && (code <? 600)%Z) eqn:E5.
    { eexists [_]. destruct bd; repeat split; discriminate. }
    destruct bd as [v|w].
    + exists []. rewrite app_nil_r. repeat split.
    + eexists [_]. repeat split. discriminate.
Qed.

Lemma analytics_page_steps :
  analytics_page serve env
  = (show (Header "Analytics & KPIs") ;;;
     kpi_data <- fetch_data serve "analytics/kpi" None ;;
     analytics_data <- fetch_data serve "analytics" (Some [("limit", JInt 100)]) ;;
     customer_insights <- fetch_data serve "dashboard/customer-insights" None ;;
     if Py.truthy kpi_data && Py.truthy analytics_data && Py.truthy customer_insights
     then analytics_charts env kpi_data analytics_data customer_insights
     else show (ErrorBox "Failed to load analytics data")).
Proof. reflexivity. Qed.

(** A computation that sends nothing leaves the requests as they are. *)
Lemma sends_nothing {A : Type} (c : M B A) (s : state B) :
  preserves (adds_only (fun _ => false)) c -> sent (snd (c s)) = sent s.
Proof.
  intros H. destruct (H s) as (more & E & Hm).
  destruct more; [now rewrite app_nil_r in E | discriminate Hm].
Qed.

Lemma analytics_charts_sends_nothing kpi_data analytics_data customer_insights (s : state B) :
  sent (snd (analytics_charts env kpi_data analytics_data customer_insights s)) = sent s.
Proof.
  apply sends_nothing.
  pose proof (adds_only_invariant (B := B) (fun _ => false)) as inv.
  keep_page.
Qed.

End PageRuns.

(** X4: The Analytics page sends exactly its three reads, in the order of
    the source, whatever they come back with: a failed read does not
    stop the next one, and the charts send nothing. *)
Theorem analytics_page_sends_three {B : Type} (serve : B -> request -> reply * B)
    (env : Env) (s : state B) :
  sent (snd (analytics_page serve env s)) = (sent s ++ analytics_requests)%list.
Proof.
  rewrite analytics_page_steps, bind_show.
  destruct (fetch_data_run serve "analytics/kpi" None (with_element s (Header "Analytics & KPIs")))
    as (shown1 & H1 & _).
  rewrite (bind_ok _ _ _ _ _ H1).
  match type of H1 with _ = (_, ?s1) =>
    destruct (fetch_data_run serve "analytics" (Some [("limit", JInt 100)]) s1)
      as (shown2 & H2 & _) end.
  rewrite (bind_ok _ _ _ _ _ H2).
  match type of H2 with _ = (_, ?s2) =>
    destruct (fetch_data_run serve "dashboard/customer-insights" None s2)
      as (shown3 & H3 & _) end.
  rewrite (bind_ok _ _ _ _ _ H3).
  match goal with |- context [if ?c then _ else _] => destruct c end.
  - rewrite analytics_charts_sends_nothing. cbn [sent after_fetch with_element].
    unfold analytics_requests. now rewrite <- !app_assoc.
  - cbn [show sent snd after_fetch with_element].
    unfold analytics_requests. now rewrite <- !app_assoc.
Qed.

(** X5: The Analytics page needs all three payloads: when one of them is
    missing or is a false value (a failed read, but also an empty object
    or list), the page shows its header, the errors of the failed reads
    and "Failed to load analytics data", draws no random number and
    shows no chart. *)
Theorem analytics_page_needs_all_three {B : Type} (serve : B -> request -> reply * B)
    (env : Env) (s : state B) :
  forallb (fun rep => Py.truthy (fetched rep))
          (replies serve (backend s) analytics_requests) = false ->
  let out := analytics_page serve env s in
  fst out = Ok tt /\
  (exists errors,
     page (snd out) = (page s ++ Header "Analytics & KPIs" :: errors
                              ++ [ErrorBox "Failed to load analytics data"])%list
     /\ forallb is_error_box errors = true) /\
  normal_used (snd out) = normal_used s.
Proof.
  intros Hfail out. subst out.
  rewrite analytics_page_steps, bind_show.
  destruct (fetch_data_run serve "analytics/kpi" None (with_element s (Header "Analytics & KPIs")))
    as (shown1 & H1 & E1 & _).
  rewrite (bind_ok _ _ _ _ _ H1).
  match type of H1 with _ = (_, ?s1) =>
    destruct (fetch_data_run serve "analytics" (Some [("limit", JInt 100)]) s1)
      as (shown2 & H2 & E2 & _) end.
  rewrite (bind_ok _ _ _ _ _ H2).
  match type of H2 with _ = (_, ?s2) =>
    destruct (fetch_data_run serve "dashboard/customer-insights" None s2)
      as (shown3 & H3 & E3 & _) end.
  rewrite (bind_ok _ _ _ _ _ H3).
  cbn [replies analytics_requests forallb] in Hfail.
  cbn [backend with_element after_fetch].
  rewrite andb_true_r, andb_assoc in Hfail. rewrite Hfail.
  cbn [show fst snd page normal_used after_fetch with_element].
  split; [reflexivity|]. split; [|reflexivity].
  exists (shown1 ++ shown2 ++ shown3)%list. split.
  - now rewrite <- !app_assoc.
  - now rewrite !forallb_app, E1, E2, E3.
Qed.

(** The witness of [analytics_page_needs_all_three]: a backend whose
    every answer is the empty object. *)
Lemma analytics_page_needs_all_three_witness :
  fst (analytics_page empty_object idle (initial tt)) = Ok tt /\
  (exists errors,
     page (snd (analytics_page empty_object idle (initial tt)))
     = ([] ++ Header "Analytics & KPIs" :: errors
           ++ [ErrorBox "Failed to load analytics data"])%list
     /\ forallb is_error_box errors = true) /\
  normal_used (snd (analytics_page empty_object idle (initial tt))) = 0.
Proof.
  apply (analytics_page_needs_all_three empty_object idle (initial tt)). reflexivity.
Defined.

(** X6: The Shipments page cannot go on without the customer list: when the
    customers read fails or brings a false value, [selected_customer] is
    never assigned, the page raises [NameError] at its first use, and
    the shipments are not requested. *)
Theorem shipments_page_needs_customers {B : Type} (serve : B -> request -> reply * B)
    (env : Env) (s : state B) :
  Py.truthy (fetched (fst (serve (backend s) customers_request))) = false ->
  fst (shipments_page serve env s) = Raise (NameError "selected_customer") /\
  sent (snd (shipments_page serve env s)) = (sent s ++ [customers_request])%list.
Proof.
  intros Hfail. unfold shipments_page. rewrite bind_show, bind_selectbox.
  match goal with |- context [bind (fetch_data _ _ _) _ ?s1] =>
    destruct (fetch_data_run serve "customers" (Some [("limit", JInt 100)]) s1)
      as (shown & H & _) end.
  rewrite !(bind_ok _ _ _ _ _ H).
  cbn [backend with_element]. fold customers_request. rewrite Hfail.
  split; reflexivity.
Qed.

(** The witness of [shipments_page_needs_customers]: a backend that
    cannot be reached. *)
Lemma shipments_page_needs_customers_witness :
  fst (shipments_page unreachable idle (initial tt)) = Raise (NameError "selected_customer") /\
  sent (snd (shipments_page unreachable idle (initial tt))) = ([] ++ [customers_request])%list.
Proof.
  apply (shipments_page_needs_customers unreachable idle (initial tt)). reflexivity.
Defined.

(** Whatever a part of a page does, it only adds to the requests sent. *)
Ltac only_adds :=
  let inv := fresh "inv" in
  let reads := fresh "reads" in
  match goal with
  | |- @preserves ?B _ _ _ => pose proof (@adds_only_invariant B (fun _ => true)) as inv
  end;
  assert (reads : Reads (fun _ : request => true)) by (now constructor);
  keep_page;
  match goal with |- Writes _ _ => constructor; intros; reflexivity end.

(** X7: The customer filter of the Parcels page reaches the backend: when a
    customer is selected and the label parses to [id], the third request
    of the page asks for the parcels with [customer_id = id]. *)
Theorem parcels_page_asks_for_the_customer {B : Type} (serve : B -> request -> reply * B)
    (env : Env) (s : state B) (customers : json) (labels : list string) (id : Z) :
  fetched (fst (serve (snd (serve (backend s) parcels_request)) customers_request)) = customers ->
  Py.truthy customers = true ->
  options_of "Name" "CustomerID" customers = Ok labels ->
  selected_customer env labels <> "All"%string ->
  parse_selected_id (selected_customer env labels) = Ok id ->
  exists rest,
    sent (snd (parcels_page serve env s))
    = (sent s ++ [parcels_request; customers_request; parcels_of_customer id] ++ rest)%list.
Proof.
  intros Hcustomers Htruthy Hoptions Hselected Hparse.
  unfold parcels_page. rewrite bind_show.
  match goal with |- context [bind (fetch_data _ _ _) _ ?s1] =>
    destruct (fetch_data_run serve "parcels" (Some [("limit", JInt 100)]) s1)
      as (shown1 & H1 & _) end.
  rewrite (bind_ok _ _ _ _ _ H1).
  match type of H1 with _ = (_, ?s2) =>
    destruct (fetch_data_run serve "customers" (Some [("limit", JInt 100)]) s2)
      as (shown2 & H2 & _) end.
  rewrite (bind_ok _ _ _ _ _ H2).
  cbn [backend with_element after_fetch] in *.
  fold parcels_request customers_request in *. rewrite Hcustomers, Htruthy.
  match goal with |- exists rest, sent (snd (bind ?inner ?tail ?s3)) = _ =>
    destruct (fetch_data_run serve "parcels"
                (Some [("customer_id", JInt id); ("limit", JInt 100)])
                (with_element s3 (SelectBox "Filter by Customer" (map JStr ("All" :: labels)))))
      as (shown3 & H3 & _);
    match type of H3 with _ = ?out => assert (Hinner : inner s3 = out) end;
    [ rewrite (bind_lift_ok _ _ _ _ Hoptions), bind_selectbox;
      fold (selected_customer env labels);
      destruct (String.eqb_spec (selected_customer env labels) "All"); [contradiction|];
      cbn [negb]; rewrite (bind_lift_ok _ _ _ _ Hparse); exact H3
    | rewrite (bind_ok _ _ _ _ _ Hinner) ]
  end.
  match goal with |- exists rest, sent (snd (?tail ?s4)) = _ =>
    assert (Htail : preserves (adds_only (fun _ => true)) tail) by only_adds;
    destruct (Htail s4) as (rest & E & _)
  end.
  exists rest. rewrite E. cbn [sent after_fetch with_element].
  fold parcels_request customers_request (parcels_of_customer id).
  now rewrite <- !app_assoc.
Qed.

(** The witness of [parcels_page_asks_for_the_customer]: John Doe
    selected among two customers. *)
Lemma parcels_page_asks_for_the_customer_witness :
  exists rest,
    sent (snd (parcels_page two_customers filtering (initial tt)))
    = ([] ++ [parcels_request; customers_request; parcels_of_customer 1] ++ rest)%list.
Proof.
  apply (parcels_page_asks_for_the_customer two_customers filtering (initial tt)
           (JList [JDict john_doe; JDict jane]) ["John Doe (ID: 1)"; "Jane (ID: 2)"]%string 1%Z);
    try reflexivity.
  discriminate.
Defined.

(** X8: The filters of the Shipments page reach the backend: the shipments
    request carries the limit, then the selected status unless it is
    "All", then the id read from the selected customer's label unless
    that is "All". *)
Theorem shipments_page_asks_with_the_filters {B : Type} (serve : B -> request -> reply * B)
    (env : Env) (s : state B) (customers : json) (labels : list string) (id : Z) :
  fetched (fst (serve (backend s) customers_request)) = customers ->
  Py.truthy customers = true ->
  options_of "Name" "CustomerID" customers = Ok labels ->
  (selected_customer env labels = "All"%string
   \/ parse_selected_id (selected_customer env labels) = Ok id) ->
  exists rest,
    sent (snd (shipments_page serve env s))
    = (sent s ++ [customers_request;
                  get_request "shipments"
                    (Some (shipments_query (selected_status env)
                                           (selected_customer env labels) id))]
              ++ rest)%list.
Proof.
  intros Hcustomers Htruthy Hoptions Hselected.
  unfold shipments_page. rewrite bind_show, bind_selectbox. fold (selected_status env).
  match goal with |- context [bind (fetch_data _ _ _) _ ?s1] =>
    destruct (fetch_data_run serve "customers" (Some [("limit", JInt 100)]) s1)
      as (shown1 & H1 & _) end.
  rewrite (bind_ok _ _ _ _ _ H1).
  cbn [backend with_element after_fetch] in *.
  fold customers_request in *. rewrite Hcustomers, Htruthy.
  match goal with |- exists rest, sent (snd (bind ?inner ?tail ?s2)) = _ =>
    assert (Hinner : inner s2
                     = (Ok (Some (selected_customer env labels)),
                        with_element s2 (SelectBox "Filter by Customer"
                                           (map JStr ("All" :: labels)))));
    [ rewrite (bind_lift_ok _ _ _ _ Hoptions), bind_selectbox; reflexivity
    | rewrite (bind_ok _ _ _ _ _ Hinner) ]
  end.
  cbv zeta.
  match goal with |- exists rest, sent (snd (bind ?params ?tail ?s3)) = _ =>
    assert (Hparams : params s3
                      = (Ok (shipments_query (selected_status env)
                                             (selected_customer env labels) id), s3));
    [ unfold shipments_query;
      destruct Hselected as [Hall | Hparse];
      [ rewrite Hall; cbn [String.eqb negb]; rewrite ?app_nil_r;
        destruct (String.eqb (selected_status env) "All"); reflexivity
      | destruct (String.eqb (selected_customer env labels) "All") eqn:Hall;
        [ cbn [negb]; rewrite ?app_nil_r;
          destruct (String.eqb (selected_status env) "All"); reflexivity
        | cbn [negb]; rewrite (bind_lift_ok _ _ _ _ Hparse);
          destruct (String.eqb (selected_status env) "All"); reflexivity ] ]
    | rewrite (bind_ok _ _ _ _ _ Hparams) ]
  end.
  match goal with |- context [bind (fetch_data _ ?endpoint ?params) _ ?s3] =>
    destruct (fetch_data_run serve endpoint params s3) as (shown2 & H2 & _) end.
  rewrite (bind_ok _ _ _ _ _ H2).
  match goal with |- exists rest, sent (snd (?tail ?s4)) = _ =>
    assert (Htail : preserves (adds_only (fun _ => true)) tail) by only_adds;
    destruct (Htail s4) as (rest & E & _)
  end.
  exists rest. rewrite E. cbn [sent after_fetch with_element].
  fold customers_request. now rewrite <- !app_assoc.
Qed.

(** The witness of [shipments_page_asks_with_the_filters]: the status
    Delayed and the customer John Doe. *)
Lemma shipments_page_asks_with_the_filters_witness :
  exists rest,
    sent (snd (shipments_page two_customers filtering (initial tt)))
    = ([] ++ [customers_request;
              get_request "shipments"
                (Some [("limit", JInt 100); ("status", JStr "Delayed");
                       ("customer_id", JInt 1)])]
          ++ rest)%list.
Proof.
  apply (shipments_page_asks_with_the_filters two_customers filtering (initial tt)
           (JList [JDict john_doe; JDict jane]) ["John Doe (ID: 1)"; "Jane (ID: 2)"]%string 1%Z);
    try reflexivity.
  right. reflexivity.
Defined.

(** ** The Dashboard *)

(** X9: Without a summary the Dashboard is its header and the error of the
    failed read: no card, no chart, and no exception. *)
Theorem dashboard_page_without_data {B : Type} (serve : B -> request -> reply * B)
    (s : state B) :
  Py.truthy (fetched (fst (serve (backend s) dashboard_request))) = false ->
  fst (dashboard_page serve s) = Ok tt /\
  exists errors,
    page (snd (dashboard_page serve s))
    = (page s ++ Header "DHL Logistics Dashboard" :: errors)%list
    /\ forallb is_error_box errors = true.
Proof.
  intros Hfail. unfold dashboard_page. rewrite bind_show.
  match goal with |- context [bind (fetch_data _ _ _) _ ?s1] =>
    destruct (fetch_data_run serve "dashboard/summary" None s1) as (shown & H & E & _) end.
  rewrite !(bind_ok _ _ _ _ _ H).
  cbn [backend with_element]. fold dashboard_request. rewrite Hfail.
  split; [reflexivity|]. exists shown. split; [|exact E].
  cbn [ret snd page after_fetch with_element]. now rewrite <- app_assoc.
Qed.

(** The witness of [dashboard_page_without_data]: a backend that cannot
    be reached. *)
Lemma dashboard_page_without_data_witness :
  fst (dashboard_page unreachable (initial tt)) = Ok tt /\
  exists errors,
    page (snd (dashboard_page unreachable (initial tt)))
    = ([] ++ Header "DHL Logistics Dashboard" :: errors)%list
    /\ forallb is_error_box errors = true.
Proof.
  apply (dashboard_page_without_data unreachable (initial tt)). reflexivity.
Defined.

(** X10: A summary object that has none of the keys the Dashboard reads is
    shown with every count at 0, the gauge at 0, and the two notices in
    place of the status chart and the recent shipments. *)
Theorem dashboard_page_defaults {B : Type} (serve : B -> request -> reply * B)
    (s : state B) (fields : list (string * json)) :
  fetched (fst (serve (backend s) dashboard_request)) = JDict fields ->
  fields <> [] ->
  Forall (fun k => Py.lookup k fields = None) dashboard_keys ->
  dashboard_page serve s
  = (Ok tt, with_elements (after_request s dashboard_request
                             (snd (serve (backend s) dashboard_request)))
                          empty_dashboard).
Proof.
  intros Hdata Hfields Hkeys. unfold dashboard_page. rewrite bind_show.
  match goal with |- context [bind (fetch_data _ _ _) _ ?s1] =>
    destruct (fetch_data_run serve "dashboard/summary" None s1) as (shown & H & _ & E) end.
  rewrite (bind_ok _ _ _ _ _ H).
  cbn [backend with_element] in *. fold dashboard_request in *. rewrite Hdata in *.
  assert (Ht : Py.truthy (JDict fields) = true) by (destruct fields; [contradiction | reflexivity]).
  rewrite (E Ht), Ht.
  unfold dashboard_keys in Hkeys.
  repeat match goal with
         | H : Forall _ (_ :: _) |- _ => inversion_clear H
         end.
  cbv beta in *. cbn [Py.get].
  repeat match goal with H : Py.lookup _ fields = None |- _ => rewrite H; clear H end.
  unfold with_elements, after_request, empty_dashboard, after_fetch.
  cbn. unfold show. cbn [backend sent page random_used normal_used session].
  rewrite app_nil_r, <- !app_assoc. reflexivity.
Qed.

(** The witness of [dashboard_page_defaults]: the backend that answers
    every request with a small object of its own. *)
Lemma dashboard_page_defaults_witness :
  dashboard_page counting (initial 0)
  = (Ok tt, with_elements (after_request (initial 0) dashboard_request 1) empty_dashboard).
Proof.
  apply (dashboard_page_defaults counting (initial 0) [("ok", JBool true)]).
  - reflexivity.
  - discriminate.
  - repeat constructor.
Defined.

(** ** The Customers page *)

(** X11: The Add Customer form does not depend on the list: when the
    customers cannot be loaded, the page shows its header, the error of
    the read, "Failed to load customer data" and the form's heading, and
    then runs the form as it would on any other page state. *)
Theorem customers_page_without_list {B : Type} (serve : B -> request -> reply * B)
    (env : Env) (s : state B) :
  Py.truthy (fetched (fst (serve (backend s) customers_request))) = false ->
  exists errors,
    forallb is_error_box errors = true /\
    customers_page serve env s
    = new_customer_form serve env
        (with_elements (after_request s customers_request
                          (snd (serve (backend s) customers_request)))
           (Header "Customer Management" :: errors
              ++ [ErrorBox "Failed to load customer data"; SubHeader "Add New Customer"])).
Proof.
  intros Hfail. unfold customers_page. rewrite bind_show.
  match goal with |- context [bind (customer_list_tab _ _) _ ?s1] =>
    destruct (fetch_data_run serve "customers" (Some [("limit", JInt 100)]) s1)
      as (shown & H & E & _);
    assert (Hlist : customer_list_tab serve env s1
                    = (Ok tt, with_element (after_fetch s1 customers_request
                                              (snd (serve (backend s) customers_request)) shown)
                                           (ErrorBox "Failed to load customer data")))
  end.
  { unfold customer_list_tab. rewrite (bind_ok _ _ _ _ _ H).
    cbn [backend with_element]. fold customers_request. now rewrite Hfail. }
  rewrite (bind_ok _ _ _ _ _ Hlist), bind_show.
  exists shown. split; [exact E|]. f_equal.
  unfold with_elements, with_element, after_fetch, after_request.
  cbn [backend sent page random_used normal_used session]. f_equal.
  rewrite <- !app_assoc. reflexivity.
Qed.

(** The witness of [customers_page_without_list]: a backend that cannot
    be reached. *)
Lemma customers_page_without_list_witness :
  exists errors,
    forallb is_error_box errors = true /\
    customers_page unreachable idle (initial tt)
    = new_customer_form unreachable idle
        (with_elements (after_request (initial tt) customers_request tt)
           (Header "Customer Management" :: errors
              ++ [ErrorBox "Failed to load customer data"; SubHeader "Add New Customer"])).
Proof.
  apply (customers_page_without_list unreachable idle (initial tt)). reflexivity.
Defined.


(** ** The session state *)

Section Session.
Local Open Scope string_scope.
Local Open Scope script_scope.
Context {B : Type} (serve : B -> request -> reply * B) (env : Env).

Ltac same_fields :=
  unfold same_but_session in *;
  cbv beta in *;
  cbn [fst snd backend sent page random_used normal_used session] in *;
  intuition congruence.

Lemma blind_ret {A : Type} (a : A) : session_blind (@ret B A a).
Proof. intros s1 s2 H. split; [reflexivity | exact H]. Qed.

Lemma blind_raise {A : Type} e : session_blind (@raise B A e).
Proof. intros s1 s2 H. split; [reflexivity | exact H]. Qed.

Lemma blind_lift {A : Type} (r : result A) : session_blind (@lift B A r).
Proof. intros s1 s2 H. split; [reflexivity | exact H]. Qed.

Lemma blind_rerun {A : Type} : session_blind (@st_rerun B A).
Proof. intros s1 s2 H. split; [reflexivity | exact H]. Qed.

Lemma blind_show e : session_blind (@show B e).
Proof. intros s1 s2 H. split; [reflexivity | unfold show; same_fields]. Qed.

Lemma blind_session_set k v : session_blind (@session_set B k v).
Proof. intros s1 s2 H. split; [reflexivity | unfold session_set; same_fields]. Qed.

(** The initialisation looks the key up, and returns and leaves the same
    apart from the session either way. *)
Lemma blind_session_default k : session_blind (@session_default B k).
Proof.
  intros s1 s2 H. unfold session_default, session_set.
  destruct (Py.lookup k (session s1)), (Py.lookup k (session s2));
    (split; [reflexivity | same_fields]).
Qed.

Lemma blind_bind {A C : Type} (c : M B A) (k : A -> M B C) :
  session_blind c -> (forall a, session_blind (k a)) -> session_blind (bind c k).
Proof.
  intros Hc Hk s1 s2 H. unfold bind. destruct (Hc s1 s2 H) as [Hr Hs].
  destruct (c s1) as [[a1|e1] s1'], (c s2) as [[a2|e2] s2']; cbn [fst snd] in *;
    try discriminate Hr.
  - injection Hr as <-. now apply Hk.
  - injection Hr as <-. split; [reflexivity | exact Hs].
Qed.

Lemma blind_for_each {A : Type} (xs : list A) (body : A -> M B unit) :
  (forall x, session_blind (body x)) -> session_blind (for_each xs body).
Proof.
  intros H. induction xs as [|x xs IH]; cbn [for_each]; [apply blind_ret|].
  apply blind_bind; [apply H | intros _; exact IH].
Qed.

Lemma blind_map_m {A C : Type} (f : A -> M B C) (xs : list A) :
  (forall x, session_blind (f x)) -> session_blind (map_m f xs).
Proof.
  intros H. induction xs as [|x xs IH]; cbn [map_m]; [apply blind_ret|].
  apply blind_bind; [apply H | intros y].
  apply blind_bind; [exact IH | intros ys; apply blind_ret].
Qed.

Lemma blind_helper r (h : string -> element) :
  session_blind (try_except (call serve r) (fun e => show (h e) ;;; ret JNull)).
Proof.
  intros s1 s2 H. unfold try_except, call, bind, requests_send.
  assert (Hb : backend s1 = backend s2) by same_fields. rewrite Hb.
  destruct (serve (backend s2) r) as [[why|code why bd] b'].
  - split; [reflexivity | unfold show, ret; same_fields].
  - unfold raise_for_status. cbn [status_code].
    destruct ((400 <=? code)%Z && (code <? 500)%Z);
      [split; [reflexivity | unfold show, ret, raise; same_fields]|].
    destruct ((500 <=? code)%Z && (code <? 600)%Z);
      [split; [reflexivity | unfold show, ret, raise; same_fields]|].
    destruct bd as [v|w]; unfold response_json; cbn [body];
      (split; [reflexivity | unfold show, ret, raise; same_fields]).
Qed.

Lemma blind_fetch_data endpoint params : session_blind (fetch_data serve endpoint params).
Proof. rewrite fetch_data_call. apply blind_helper. Qed.

Lemma blind_update_data endpoint data : session_blind (update_data serve endpoint data).
Proof. rewrite update_data_call. apply blind_helper. Qed.

Lemma blind_create_data endpoint data : session_blind (create_data serve endpoint data).
Proof. rewrite create_data_call. apply blind_helper. Qed.

Lemma blind_text_input label : session_blind (@text_input B env label).
Proof. intros s1 s2 H. split; [reflexivity | unfold text_input, bind, show, ret; same_fields]. Qed.

Lemma blind_number_input label lo : session_blind (@number_input B env label lo).
Proof. intros s1 s2 H. split; [reflexivity | unfold number_input, bind, show, ret; same_fields]. Qed.

Lemma blind_selectbox label key first others :
  session_blind (@selectbox B env label key first others).
Proof. intros s1 s2 H. split; [reflexivity | unfold selectbox, bind, show, ret; same_fields]. Qed.

Lemma blind_radio label first others : session_blind (@radio B env label first others).
Proof. intros s1 s2 H. split; [reflexivity | unfold radio, bind, show, ret; same_fields]. Qed.

Lemma blind_button label key : session_blind (@button B env label key).
Proof. intros s1 s2 H. split; [reflexivity | unfold button, bind, show, ret; same_fields]. Qed.

Lemma blind_form_submit_button form label :
  session_blind (@form_submit_button B env form label).
Proof.
  intros s1 s2 H. split; [reflexivity | unfold form_submit_button, bind, show, ret; same_fields].
Qed.

Lemma blind_random_choice {A : Type} (xs : list A) : session_blind (@random_choice B env A xs).
Proof.
  intros s1 s2 H. unfold random_choice. destruct xs as [|x xs]; [now split|].
  assert (Hr : random_used s1 = random_used s2) by same_fields. rewrite Hr.
  split; [reflexivity | same_fields].
Qed.

Lemma blind_np_random_normal loc scale : session_blind (@np_random_normal B env loc scale).
Proof.
  intros s1 s2 H. unfold np_random_normal.
  assert (Hn : normal_used s1 = normal_used s2) by same_fields. rewrite Hn.
  split; [reflexivity | same_fields].
Qed.

(** One step through a page. *)
Ltac blind_leaf :=
  match goal with
  | |- session_blind (ret _) => apply blind_ret
  | |- session_blind (raise _) => apply blind_raise
  | |- session_blind (lift _) => apply blind_lift
  | |- session_blind st_rerun => apply blind_rerun
  | |- session_blind (show _) => apply blind_show
  | |- session_blind (session_set _ _) => apply blind_session_set
  | |- session_blind (session_default _) => apply blind_session_default
  | |- session_blind (fetch_data _ _ _) => apply blind_fetch_data
  | |- session_blind (update_data _ _ _) => apply blind_update_data
  | |- session_blind (create_data _ _ _) => apply blind_create_data
  | |- session_blind (text_input _ _) => apply blind_text_input
  | |- session_blind (number_input _ _ _) => apply blind_number_input
  | |- session_blind (selectbox _ _ _ _ _) => apply blind_selectbox
  | |- session_blind (radio _ _ _ _) => apply blind_radio
  | |- session_blind (button _ _ _) => apply blind_button
  | |- session_blind (form_submit_button _ _ _) => apply blind_form_submit_button
  | |- session_blind (random_choice _ _) => apply blind_random_choice
  | |- session_blind (np_random_normal _ _ _) => apply blind_np_random_normal
  end.

Ltac blind_step leaf :=
  first
    [ blind_leaf
    | leaf
    | match goal with
      | |- session_blind (bind _ _) => apply blind_bind; [ | intros ? ]
      | |- session_blind (for_each _ _) => apply blind_for_each; intros ?
      | |- session_blind (map_m _ _) => apply blind_map_m; intros ?
      | |- session_blind (if ?b then _ else _) => destruct b
      | |- session_blind (match ?x with _ => _ end) => destruct x
      end ].

Ltac blind_with leaf := cbv zeta; repeat (blind_step leaf).
Ltac blind := blind_with fail.

Lemma blind_recent_shipment_card df row : session_blind (@recent_shipment_card B df row).
Proof. unfold recent_shipment_card. blind. Qed.

Lemma blind_dashboard_page : session_blind (dashboard_page serve).
Proof.
  unfold dashboard_page.
  blind_with ltac:(idtac; match goal with
                          | |- session_blind (recent_shipment_card _ _) =>
                              apply blind_recent_shipment_card
                          end).
Qed.

Lemma blind_customer_card df row : session_blind (customer_card serve env df row).
Proof. unfold customer_card. blind. Qed.

Lemma blind_customers_page : session_blind (customers_page serve env).
Proof.
  unfold customers_page, customer_list_tab, new_customer_form.
  blind_with ltac:(idtac; match goal with
                          | |- session_blind (customer_card _ _ _ _) => apply blind_customer_card
                          end).
Qed.

Lemma blind_shipment_card df row : session_blind (@shipment_card B df row).
Proof. unfold shipment_card. blind. Qed.

Lemma blind_parcels_page : session_blind (parcels_page serve env).
Proof.
  unfold parcels_page, parcel_details.
  blind_with ltac:(idtac; match goal with
                          | |- session_blind (shipment_card _ _) => apply blind_shipment_card
                          end).
Qed.

Lemma blind_map_data_row df row : session_blind (@map_data_row B env df row).
Proof. unfold map_data_row, map_placement. blind. Qed.

Lemma blind_shipment_entry df row : session_blind (shipment_entry serve env df row).
Proof.
  unfold shipment_entry, status_update_form.
  blind_with ltac:(idtac; match goal with
                          | |- session_blind (shipment_card _ _) => apply blind_shipment_card
                          end).
Qed.

Lemma blind_shipments_page : session_blind (shipments_page serve env).
Proof.
  unfold shipments_page.
  blind_with ltac:(idtac; match goal with
                          | |- session_blind (map_data_row _ _ _) => apply blind_map_data_row
                          | |- session_blind (shipment_entry _ _ _ _) => apply blind_shipment_entry
                          end).
Qed.

Lemma blind_person_card df row : session_blind (@person_card B df row).
Proof. unfold person_card. blind. Qed.

Lemma blind_personnel_page : session_blind (personnel_page serve env).
Proof.
  unfold personnel_page, personnel_assignment, selectbox_of.
  blind_with ltac:(idtac; match goal with
                          | |- session_blind (person_card _ _) => apply blind_person_card
                          end).
Qed.

Lemma blind_trend_series n base scale upper lower :
  session_blind (@trend_series B env n base scale upper lower).
Proof. induction n as [|n IH]; cbn [trend_series]; blind_with ltac:(exact IH). Qed.

Lemma blind_analytics_page : session_blind (analytics_page serve env).
Proof.
  unfold analytics_page, kpi_card, kpi_base.
  blind_with ltac:(idtac; match goal with
                          | |- session_blind (trend_series _ _ _ _ _ _) =>
                              apply blind_trend_series
                          end).
Qed.

Lemma blind_network_page : session_blind (network_page serve).
Proof. unfold network_page, whole_table. blind. Qed.

Lemma blind_render b : session_blind (render serve env b).
Proof.
  destruct b; cbn [render];
    [ apply blind_dashboard_page | apply blind_customers_page
    | apply blind_parcels_page | apply blind_shipments_page
    | apply blind_personnel_page | apply blind_analytics_page
    | apply blind_network_page | apply blind_ret ].
Qed.

Lemma blind_script : session_blind (script serve env).
Proof.
  unfold script.
  blind_with ltac:(idtac; match goal with
                          | |- session_blind (render _ _ _) => apply blind_render
                          end).
Qed.

End Session.

(** X13: What the script keeps in the session state is written and never
    read back: two runs that start from states differing only in the
    entries of [st.session_state] (the script's own [customer_filter]
    and [status_filter]; what the widgets hold is the user's) return the
    same, show the same page and send the same requests.  The id the
    View Details button stores changes nothing of the run that
    follows. *)
Theorem session_is_never_read {B : Type} (serve : B -> request -> reply * B)
    (env : Env) (s1 s2 : state B) :
  same_but_session s1 s2 ->
  fst (run serve env s1) = fst (run serve env s2)
  /\ same_but_session (snd (run serve env s1)) (snd (run serve env s2)).
Proof. intros H. unfold run. now apply blind_script. Qed.

(** The witness of [session_is_never_read]: the first run and a run after
    View Details of customer 7. *)
Lemma session_is_never_read_witness :
  same_but_session (initial 0) after_view_details /\
  fst (run counting idle (initial 0)) = fst (run counting idle after_view_details)
  /\ same_but_session (snd (run counting idle (initial 0)))
                      (snd (run counting idle after_view_details)).
Proof.
  assert (H : same_but_session (initial 0) after_view_details) by (repeat split).
  split; [exact H | exact (session_is_never_read counting idle _ _ H)].
Defined.

Lemma keeps_keys_invariant {B : Type} : Invariant (B := B) keeps_keys (fun _ => true).
Proof.
  constructor.
  - apply keeps_keys_refl.
  - apply keeps_keys_trans.
  - intros s e k H. exact H.
  - intros s k H. exact H.
  - intros s k H. exact H.
  - intros s k v. apply keeps_keys_assign.
  - intros s r b' _ k H. exact H.
Qed.

(** The initialisation of a key leaves it in the session, whether it
    was there or not, and removes no other. *)
Lemma session_default_run {B : Type} k (s : state B) :
  exists s', session_default k s = (Ok tt, s')
             /\ Py.lookup k (session s') <> None /\ keeps_keys s s'.
Proof.
  unfold session_default. destruct (Py.lookup k (session s)) eqn:E.
  - exists s. split; [reflexivity|]. split; [now rewrite E | apply keeps_keys_refl].
  - eexists. split; [reflexivity|]. split; [|apply keeps_keys_assign].
    cbn [session]. now rewrite lookup_assign_same.
Qed.

Lemma bind_radio {B C : Type} env label first others (k : string -> M B C) s :
  bind (radio env label first others) k s
  = k (pick env label first others) (with_element s (Radio label (first :: others))).
Proof. reflexivity. Qed.

(** X14: Every run leaves both filter keys in [st.session_state], also a run
    that ends in an exception or in a rerun: the script sets them before
    it renders a page, and no page removes a key. *)
Theorem session_has_its_keys {B : Type} (serve : B -> request -> reply * B)
    (env : Env) (s : state B) :
  Py.lookup "customer_filter" (session (snd (run serve env s))) <> None /\
  Py.lookup "status_filter" (session (snd (run serve env s))) <> None.
Proof.
  unfold run, script. rewrite !bind_show, bind_radio, !bind_show.
  match goal with |- context [bind (session_default _) _ ?s0] =>
    destruct (session_default_run "customer_filter" s0) as (s1 & H1 & Hc & _) end.
  rewrite !(bind_ok _ _ _ _ _ H1).
  destruct (session_default_run "status_filter" s1) as (s2 & H2 & Hs & K2).
  rewrite !(bind_ok _ _ _ _ _ H2).
  match goal with |- context [snd (?tail s2)] =>
    assert (Htail : preserves keeps_keys tail)
  end.
  { pose proof (@keeps_keys_invariant B) as inv.
    assert (reads : Reads (fun _ : request => true)) by (now constructor).
    assert (writes : Writes env (fun _ : request => true)) by (now constructor).
    keep_with ltac:(idtac; match goal with
                           | |- preserves _ (render _ _ _) => by_inv @preserves_render
                           end). }
  split; apply (Htail s2); [apply K2; exact Hc | exact Hs].
Qed.

(** ** The write helpers, the filters and the map, as wholes *)

(** X15: [update_data] and [create_data] keep the contract of [fetch_data]: a
    response that is no 4xx or 5xx and whose body is JSON comes back as
    parsed with nothing shown; every other outcome gives [None] and one
    error box that names the helper's action and the endpoint. *)
Theorem write_helpers_contract {B : Type} (serve : B -> request -> reply * B)
    (endpoint : string) (data : json) (s : state B) :
  let put := put_request endpoint data in
  let post := post_request endpoint data in
  let after r := after_request s r (snd (serve (backend s) r)) in
  (forall code why v,
     fst (serve (backend s) put) = Reply code why (Json v) -> ~ (400 <= code < 600)%Z ->
     update_data serve endpoint data s = (Ok v, after put)) /\
  (http_failure (fst (serve (backend s) put)) ->
   exists msg, update_data serve endpoint data s
               = (Ok JNull, with_element (after put) (ErrorBox msg))
               /\ PyStr.startswith "Error updating data at " msg = true
               /\ PyStr.contains endpoint msg = true) /\
  (forall code why v,
     fst (serve (backend s) post) = Reply code why (Json v) -> ~ (400 <= code < 600)%Z ->
     create_data serve endpoint data s = (Ok v, after post)) /\
  (http_failure (fst (serve (backend s) post)) ->
   exists msg, create_data serve endpoint data s
               = (Ok JNull, with_element (after post) (ErrorBox msg))
               /\ PyStr.startswith "Error creating data at " msg = true
               /\ PyStr.contains endpoint msg = true).
Proof.
  intros put post after. subst after. cbv beta.
  rewrite update_data_call, create_data_call. fold put post. unfold try_except.
  split; [|split; [|split]].
  - intros code why v Hrep Hcode. now rewrite (call_ok _ _ _ _ _ _ Hrep Hcode).
  - intros Hf. destruct (call_fails serve put s Hf) as [why Hcall].
    exists ("Error updating data at " ++ endpoint ++ ": " ++ why)%string.
    rewrite Hcall. split; [reflexivity|]. split; [reflexivity | apply contains_middle].
  - intros code why v Hrep Hcode. now rewrite (call_ok _ _ _ _ _ _ Hrep Hcode).
  - intros Hf. destruct (call_fails serve post s Hf) as [why Hcall].
    exists ("Error creating data at " ++ endpoint ++ ": " ++ why)%string.
    rewrite Hcall. split; [reflexivity|]. split; [reflexivity | apply contains_middle].
Qed.

Section Filters.
Local Open Scope string_scope.

Lemma filter_all_true {A : Type} (q : A -> bool) (xs : list A) :
  (forall x, q x = true) -> filter q xs = xs.
Proof.
  intros H. induction xs as [|x xs IH]; [reflexivity|]. cbn [filter]. now rewrite H, IH.
Qed.

Lemma filter_twice {A : Type} (q1 q2 : A -> bool) (xs : list A) :
  filter q2 (filter q1 xs) = filter (fun x => q1 x && q2 x) xs.
Proof.
  induction xs as [|x xs IH]; [reflexivity|]. cbn [filter].
  destruct (q1 x); cbn [filter andb]; [destruct (q2 x)|]; now rewrite IH.
Qed.

Lemma contains_ignoring_case_empty name : contains_ignoring_case EmptyString name = true.
Proof. unfold contains_ignoring_case, PyStr.contains. now destruct (PyStr.lower name). Qed.

(** The name filter alone, the empty text included. *)
Lemma name_filter_plain (df : frame) (filter_name : string) :
  re_plain filter_name = true -> dotless filter_name = true ->
  text_column "Name" df ->
  (if negb (String.eqb filter_name EmptyString)
   then filter_r (name_matches df filter_name) df
   else Ok df)
  = Ok (filter (fun row => contains_ignoring_case filter_name (text_at "Name" row)) df).
Proof.
  intros Hplain Hdot Hcol.
  destruct (String.eqb_spec filter_name EmptyString) as [->|Hne]; cbn [negb].
  - rewrite filter_all_true; [reflexivity|]. intros row. apply contains_ignoring_case_empty.
  - apply filter_r_total. intros row Hin.
    pose proof (proj1 (Forall_forall _ _) Hcol row Hin) as [t Ht].
    unfold name_matches, text_at.
    rewrite (cell_of_row df row "Name" (JStr t) Hin Ht), Ht. cbn [rbind as_text].
    unfold re_search_ignorecase. rewrite Hplain.
    now rewrite re_search_here_literal.
Qed.

End Filters.

Lemma filter_customers_plain (df : frame) (filter_name filter_type : string) :
  re_plain filter_name = true -> dotless filter_name = true ->
  text_column "Name" df -> text_column "Type" df ->
  filter_customers df filter_name filter_type
  = Ok (filter (customer_matches filter_name filter_type) df).
Proof.
  intros Hplain Hdot Hname Htype. unfold filter_customers.
  rewrite (name_filter_plain df filter_name Hplain Hdot Hname). cbn [rbind].
  unfold customer_matches.
  destruct (String.eqb filter_type "All") eqn:Hall; cbn [negb orb].
  - f_equal. apply filter_ext. intros row. now rewrite andb_true_r.
  - rewrite <- filter_twice.
    apply filter_r_total. intros row Hin.
    apply filter_In in Hin. destruct Hin as [Hin _].
    pose proof (proj1 (Forall_forall _ _) Htype row Hin) as [t Ht].
    unfold type_is, text_at. rewrite (cell_of_row df row "Type" (JStr t) Hin Ht), Ht.
    reflexivity.
Qed.

(** X16: The two customer filters together, on ASCII text: for an ASCII
    filter text without regular-expression metacharacters (the empty
    text included), any type choice and a loaded list whose names are
    ASCII texts, the customers kept are exactly those of the list, in
    its order, whose name contains the text, the case of the letters
    apart, and whose type is the chosen one unless "All" is chosen. *)
Theorem filter_customers_keeps_the_matches (df : frame) (filter_name filter_type : string) :
  is_ascii filter_name = true -> ascii_names df = true ->
  re_plain filter_name = true -> dotless filter_name = true ->
  text_column "Name" df -> text_column "Type" df ->
  filter_customers df filter_name filter_type
  = Ok (filter (customer_matches filter_name filter_type) df).
Proof. intros _ _. apply filter_customers_plain. Qed.

(** The witness of [filter_customers_keeps_the_matches]: the text "jo"
    and the type Business against John Doe and Jane. *)
Lemma filter_customers_keeps_the_matches_witness :
  filter_customers [john_doe; jane] "jo" "Business"
  = Ok (filter (customer_matches "jo" "Business") [john_doe; jane]).
Proof.
  apply filter_customers_keeps_the_matches; try reflexivity;
    repeat constructor; eexists; reflexivity.
Defined.

Section MapRows.
Local Open Scope string_scope.
Context {B : Type} (env : Env).

Lemma shipment_row_cells row :
  is_shipment_row row = true ->
  exists city id name status,
    Py.lookup "CurrentLocation" row = Some (JStr city)
    /\ Py.lookup "ShipmentID" row = Some id
    /\ Py.lookup "ShipmentName" row = Some name
    /\ Py.lookup "Status" row = Some status.
Proof.
  unfold is_shipment_row.
  destruct (Py.lookup "CurrentLocation" row) as [[| | | |city| |]|]; try discriminate.
  destruct (Py.lookup "ShipmentID" row) as [[| |n| |t| |]|]; try discriminate;
    (destruct (Py.lookup "ShipmentName" row) as [[| | | |name| |]|]; try discriminate);
    (destruct (Py.lookup "Status" row) as [[| | | |status| |]|]; try discriminate);
    intros _; eexists _, _, _, _; repeat split; reflexivity.
Qed.

Lemma map_data_row_marks (df : frame) row (s : state B) :
  In row df -> is_shipment_row row = true ->
  exists r s', map_data_row env df row s = (Ok r, s') /\ marks row r
               /\ sent s' = sent s /\ page s' = page s.
Proof.
  intros Hin Hrow.
  destruct (shipment_row_cells row Hrow) as (city & id & name & status & Hc & Hi & Hn & Hs).
  assert (Hcols : has_columns df map_columns = true).
  { unfold has_columns, map_columns. cbn [forallb].
    now rewrite (key_in_columns df row _ _ Hin Hc), (key_in_columns df row _ _ Hin Hi),
                (key_in_columns df row _ _ Hin Hn), (key_in_columns df row _ _ Hin Hs). }
  assert (Hh : hashable (value_at "CurrentLocation" row) = true)
    by (unfold value_at; now rewrite Hc).
  destruct (map_data_row_run env df row s Hcols Hh) as (p & Hp & Hcase). cbv zeta in Hcase.
  assert (Hmarks : forall r, r = mkMapRow (value_at "ShipmentID" row)
                                     (value_at "ShipmentName" row) (value_at "Status" row)
                                     (value_at "CurrentLocation" row) (fst p) (snd p) ->
                             match own_pair (value_at "CurrentLocation" row) with
                             | Some q => p = q
                             | None => True
                             end -> marks row r).
  { intros r -> Hown. unfold marks.
    cbn [mr_ShipmentID mr_ShipmentName mr_Status mr_Location mr_lat mr_lon].
    rewrite <- surjective_pairing. repeat split; assumption. }
  destruct (own_pair (value_at "CurrentLocation" row)) as [q|] eqn:Eown.
  - destruct Hcase as [Hq Hrun]. eexists _, s. split; [exact Hrun|].
    split; [apply Hmarks; [reflexivity | exact Hq] | now split].
  - destruct Hcase as [_ Hrun]. eexists _, (after_draw s). split; [exact Hrun|].
    split; [apply Hmarks; [reflexivity | exact I] | now split].
Qed.

Lemma map_data_rows_mark (df rows : frame) (s : state B) :
  incl rows df -> forallb is_shipment_row rows = true ->
  exists markers s',
    map_m (map_data_row env df) rows s = (Ok markers, s')
    /\ Forall2 marks rows markers /\ sent s' = sent s /\ page s' = page s.
Proof.
  revert s. induction rows as [|row rows IH]; intros s Hincl Hrows.
  - exists [], s. repeat split. constructor.
  - cbn [forallb] in Hrows. apply andb_prop in Hrows. destruct Hrows as [Hrow Hrows].
    destruct (map_data_row_marks df row s (Hincl row (or_introl eq_refl)) Hrow)
      as (r & s1 & Hr & Hm & Hsent1 & Hpage1).
    destruct (IH s1 (fun x Hx => Hincl x (or_intror Hx)) Hrows)
      as (markers & s2 & Hrest & Hall & Hsent2 & Hpage2).
    exists (r :: markers), s2. cbn [map_m]. unfold bind at 1. rewrite Hr.
    unfold bind at 1. rewrite Hrest. unfold ret.
    split; [reflexivity|]. split; [now constructor|]. split; congruence.
Qed.

End MapRows.

(** X17: Every shipment gets its marker: for a frame of shipment rows as
    the data model has them (text location, name and status, an id that
    is an integer or text), the map data has one row per shipment, in
    the order of the frame, with the shipment's id, name, status and
    location, at the shipment's own city when the table has it and at
    a city of the table in any case; building it sends no request and
    shows nothing. *)
Theorem map_has_a_marker_per_shipment {B : Type} (env : Env) (df : frame) (s : state B) :
  forallb is_shipment_row df = true ->
  exists markers s',
    map_m (map_data_row env df) df s = (Ok markers, s')
    /\ Forall2 marks df markers /\ sent s' = sent s /\ page s' = page s.
Proof. intros H. apply map_data_rows_mark; [apply incl_refl | exact H]. Qed.

(** The witness of [map_has_a_marker_per_shipment]: a shipment in
    Chicago and one in a place the table does not have. *)
Lemma map_has_a_marker_per_shipment_witness :
  exists markers s',
    map_m (map_data_row idle two_shipments) two_shipments (initial tt) = (Ok markers, s')
    /\ Forall2 marks two_shipments markers
    /\ sent s' = sent (initial tt) /\ page s' = page (initial tt).
Proof.
  apply (map_has_a_marker_per_shipment idle two_shipments (initial tt)). reflexivity.
Defined.

(** X18: The colour table is stricter than the styling: a status that is one
    of the four statuses only up to case and spaces, "delivered" or
    "InTransit" say, is styled in the shipment list like the status it
    resembles, while its entry in the colour column of the map data is
    the default "gray", because [color_mapping.get] looks the exact
    spelling up. *)
Theorem map_colour_needs_the_exact_status (s c : string) :
  In c statuses -> same_ignoring_case_and_spaces s c -> s <> c ->
  format_status s
  = span (status_class (PyStr.lower (PyStr.replace_char " " EmptyString c))) s
  /\ color_of (JStr s) = Ok "gray"%string.
Proof.
  intros Hc Hsame Hne. unfold same_ignoring_case_and_spaces in Hsame. split.
  - unfold format_status. cbv zeta. rewrite <- lower_replace_space, Hsame.
    unfold statuses in Hc. simpl in Hc.
    destruct Hc as [<-|[<-|[<-|[<-|[]]]]]; reflexivity.
  - unfold color_of, color_mapping. cbn [Py.lookup].
    assert (Hother : forall c', In c' statuses -> c' <> c -> String.eqb s c' = false).
    { intros c' Hc' Hdiff. apply String.eqb_neq. intros ->.
      unfold statuses in Hc, Hc'. simpl in Hc, Hc'.
      destruct Hc as [<-|[<-|[<-|[<-|[]]]]], Hc' as [<-|[<-|[<-|[<-|[]]]]];
        try (now apply Hdiff); discriminate Hsame. }
    assert (Hself : String.eqb s c = false) by now apply String.eqb_neq.
    unfold statuses in Hc. simpl in Hc.
    destruct Hc as [<-|[<-|[<-|[<-|[]]]]];
      rewrite Hself, !Hother; try reflexivity;
      try (unfold statuses; simpl; tauto); discriminate.
Qed.

(** The witness of [map_colour_needs_the_exact_status]: the status
    "delivered", in lower case. *)
Lemma map_colour_needs_the_exact_status_witness :
  format_status "delivered" = span "status-delivered" "delivered"
  /\ color_of (JStr "delivered") = Ok "gray"%string.
Proof.
  apply (map_colour_needs_the_exact_status "delivered" "Delivered").
  - unfold statuses. simpl. tauto.
  - reflexivity.
  - discriminate.
Defined.

(** X19: The shipments of a parcel: for a parcel whose id is the integer
    [n], the detail view reads the id back from the text the selection
    holds and lists exactly the shipments whose [ParcelID] equals [n],
    in the order of the shipment list. *)
Theorem parcel_details_selects_the_shipments (items : list json) (n : Z) :
  Forall (fun s => exists v, Py.subscript s "ParcelID" = Ok v) items ->
  filter_r (for_parcel (PyStr.str_of_int n)) items = Ok (filter (of_parcel n) items).
Proof.
  intros Hitems. apply filter_r_total. intros s Hs.
  destruct (proj1 (Forall_forall _ _) Hitems s Hs) as [v Hv].
  unfold for_parcel, of_parcel. rewrite Hv, int_of_str_of_int. reflexivity.
Qed.

(** The witness of [parcel_details_selects_the_shipments]: two
    shipments, of parcels 5 and 6, and the detail view of parcel 5. *)
Lemma parcel_details_selects_the_shipments_witness :
  filter_r (for_parcel (PyStr.str_of_int 5))
           [JDict [("ParcelID", JInt 5)]; JDict [("ParcelID", JInt 6)]]
  = Ok (filter (of_parcel 5) [JDict [("ParcelID", JInt 5)]; JDict [("ParcelID", JInt 6)]]).
Proof.
  apply parcel_details_selects_the_shipments.
  repeat constructor; eexists; reflexivity.
Defined.

(** ** The customer list, as shown *)

Section CustomerList.
Local Open Scope string_scope.
Local Open Scope script_scope.
Context {B : Type} (serve : B -> request -> reply * B) (env : Env).


Lemma customer_row_cells row :
  is_customer_row row = true ->
  (exists name, Py.lookup "Name" row = Some (JStr name))
  /\ (exists type, Py.lookup "Type" row = Some (JStr type))
  /\ (exists id, Py.lookup "CustomerID" row = Some id /\ py_str id = Ok (id_text_of row))
  /\ (exists v, Py.lookup "Email" row = Some v)
  /\ (exists v, Py.lookup "Phone" row = Some v)
  /\ (exists v, Py.lookup "Address" row = Some v).
Proof.
  unfold is_customer_row, id_text_of, value_at.
  destruct (Py.lookup "CustomerID" row) as [[| |n| |t| |]|]; try discriminate;
    cbn [forallb];
    (destruct (Py.lookup "Name" row) as [[| | | |name| |]|]; try discriminate);
    (destruct (Py.lookup "Type" row) as [[| | | |type| |]|]; try discriminate);
    (destruct (Py.lookup "Email" row) as [[| | | |email| |]|]; try discriminate);
    (destruct (Py.lookup "Phone" row) as [[| | | |phone| |]|]; try discriminate);
    (destruct (Py.lookup "Address" row) as [[| | | |address| |]|]; try discriminate);
    intros _; repeat split; eexists; try split; reflexivity.
Qed.








End CustomerList.

(** X12: The View Details button of a customer card, for a list of
    customer rows as the data model has them: pressed, it reads the
    customer at [customers/<id>]; when that brings a true value it
    stores the customer's id, as the row has it, under
    [customer_filter] and reruns the script, and when it does not, the
    card ends as if nothing had been pressed and the session is as it
    was. *)
Theorem view_details_stores_the_customer {B : Type} (serve : B -> request -> reply * B)
    (env : Env) (df : frame) (row : list (string * json)) (s : state B) :
  In row df ->
  forallb is_customer_row df = true ->
  pressed env ("view_" ++ id_text_of row) = true ->
  let out := customer_card serve env df row s in
  sent (snd out) = (sent s ++ [customer_request (id_text_of row)])%list /\
  if Py.truthy (fetched (fst (serve (backend s) (customer_request (id_text_of row)))))
  then fst out = Raise RerunException
       /\ Py.lookup "customer_filter" (session (snd out)) = Some (value_at "CustomerID" row)
  else fst out = Ok tt /\ session (snd out) = session s.
Proof.
  intros Hin Hrows Hpressed out. subst out.
  pose proof (proj1 (forallb_forall _ _) Hrows row Hin) as Hrow.
  destruct (customer_row_cells row Hrow)
    as ((name & Hn) & (type & Ht) & (id & Hi & Hstr) & (email & He) & (phone & Hp)
        & (address & Ha)).
  unfold customer_card.
  rewrite (bind_lift_ok _ _ _ _ (cell_of_row df row _ _ Hin Hn)),
          (bind_lift_ok _ _ _ _ (cell_of_row df row _ _ Hin Hi)),
          (bind_lift_ok _ _ _ _ (cell_of_row df row _ _ Hin Ht)),
          (bind_lift_ok _ _ _ _ (cell_of_row df row _ _ Hin He)),
          (bind_lift_ok _ _ _ _ (cell_of_row df row _ _ Hin Hp)),
          (bind_lift_ok _ _ _ _ (cell_of_row df row _ _ Hin Ha)).
  rewrite bind_show, (bind_lift_ok _ _ _ _ Hstr).
  rewrite bind_button, Hpressed.
  match goal with |- context [bind (fetch_data _ ?endpoint None) _ ?s1] =>
    destruct (fetch_data_run serve endpoint None s1) as (shown & H & _) end.
  rewrite !(bind_ok _ _ _ _ _ H).
  cbn [backend with_element]. fold (customer_request (id_text_of row)).
  unfold value_at. rewrite Hi.
  destruct (Py.truthy (fetched (fst (serve (backend s) (customer_request (id_text_of row)))))).
  - cbn [bind session_set st_rerun raise fst snd sent session after_fetch with_element].
    split; [reflexivity|]. split; [reflexivity | apply lookup_assign_same].
  - cbn [ret fst snd sent session after_fetch with_element].
    split; [reflexivity|]. split; reflexivity.
Qed.

(** The witness of [view_details_stores_the_customer]: View Details of
    customer 1, against the backend that answers every request. *)
Lemma view_details_stores_the_customer_witness :
  sent (snd (customer_card counting curious [ada] ada (initial 0)))
  = ([] ++ [customer_request "1"])%list /\
  if Py.truthy (fetched (fst (counting 0 (customer_request "1"))))
  then fst (customer_card counting curious [ada] ada (initial 0)) = Raise RerunException
       /\ Py.lookup "customer_filter"
            (session (snd (customer_card counting curious [ada] ada (initial 0))))
          = Some (JInt 1)
  else fst (customer_card counting curious [ada] ada (initial 0)) = Ok tt
       /\ session (snd (customer_card counting curious [ada] ada (initial 0))) = [].
Proof.
  apply (view_details_stores_the_customer counting curious [ada] ada (initial 0));
    [now left | reflexivity | reflexivity].
Defined.



(** ** The Analytics page of a KPI object without its keys *)

Section MissingKpis.
Local Open Scope string_scope.
Local Open Scope script_scope.
Context {B : Type} (serve : B -> request -> reply * B) (env : Env).

(** A trend is the clamp of the base plus each of [n] consecutive draws. *)
Lemma trend_series_points n base scale upper lower (s : state B) :
  trend_series env n base scale upper lower s
  = (Ok (trend_points env n (normal_used s) base scale upper lower), after_normals n s).
Proof.
  revert s. induction n as [|n IH]; intros s.
  - unfold trend_points, after_normals. cbn. now destruct s.
  - cbn [trend_series]. unfold bind at 1, np_random_normal at 1.
    rewrite (bind_ok _ _ _ _ _ (IH _)).
    unfold ret, trend_points, after_normals.
    cbn [backend sent page random_used normal_used session].
    cbn [seq map]. rewrite <- seq_shift, map_map, Nat.add_0_r.
    f_equal; [f_equal; f_equal|].
    + apply map_ext. intros i. now rewrite Nat.add_succ_r.
    + f_equal. now rewrite Nat.add_succ_r.
Qed.

Lemma kpi_card_missing fields key label suffix (s : state B) :
  Py.lookup key fields = None ->
  kpi_card (JDict fields) key label suffix s
  = (Ok tt, with_element s (MetricCard1f label (JInt 0) suffix)).
Proof. intros H. unfold kpi_card, bind, lift. cbn [Py.get]. now rewrite H. Qed.

Lemma kpi_base_missing fields key default x (s : state B) :
  Py.lookup key fields = None -> float_of_int default = Ok x ->
  kpi_base (JDict fields) key default s = (Ok x, s).
Proof.
  intros H Hx. unfold kpi_base, bind, lift. cbn [Py.get]. rewrite H.
  cbn [as_float]. now rewrite Hx.
Qed.

Lemma page_grows_invariant : Invariant (B := B) page_grows (fun _ => true).
Proof.
  constructor.
  - intros s. exists []. now rewrite app_nil_r.
  - intros s1 s2 s3 [m1 E1] [m2 E2]. exists (m1 ++ m2)%list. now rewrite E2, E1, app_assoc.
  - intros s e. now exists [e].
  - intros s. exists []. cbn [page after_draw]. now rewrite app_nil_r.
  - intros s. exists []. cbn [page after_normals]. now rewrite app_nil_r.
  - intros s k v. exists []. cbn [page]. now rewrite app_nil_r.
  - intros s r b' _. exists []. cbn [page after_request]. now rewrite app_nil_r.
Qed.

End MissingKpis.

(** X21: A KPI object without the KPI keys is shown inconsistently: each of
    the three cards reads its missing value as 0, while the three trend
    charts are generated around 75, 4 and 85, the defaults of the second
    lookup of the same keys.  The charts take 30 consecutive draws each
    and share the 30 dates. *)
Theorem analytics_page_of_missing_kpis {B : Type} (serve : B -> request -> reply * B)
    (env : Env) (s : state B) (fields : list (string * json))
    (analytics_data customer_insights : json) :
  map fetched (replies serve (backend s) analytics_requests)
  = [JDict fields; analytics_data; customer_insights] ->
  fields <> [] ->
  Forall (fun k => Py.lookup k fields = None) kpi_keys ->
  Py.truthy analytics_data = true -> Py.truthy customer_insights = true ->
  exists rest,
    page (snd (analytics_page serve env s))
    = (page s ++ analytics_of_missing_kpis env (normal_used s) ++ rest)%list.
Proof.
  intros Hreplies Hfields Hkeys Ha Hc.
  cbn [replies analytics_requests map] in Hreplies.
  injection Hreplies as Hk Ha' Hc'.
  assert (Ht : Py.truthy (JDict fields) = true) by (destruct fields; [contradiction | reflexivity]).
  unfold kpi_keys in Hkeys.
  inversion_clear Hkeys as [|? ? He Hkeys']. inversion_clear Hkeys' as [|? ? Hr Hkeys''].
  inversion_clear Hkeys'' as [|? ? Ho _]. cbv beta in He, Hr, Ho.
  rewrite analytics_page_steps, bind_show.
  destruct (fetch_data_run serve "analytics/kpi" None (with_element s (Header "Analytics & KPIs")))
    as (shown1 & H1 & _ & E1).
  rewrite (bind_ok _ _ _ _ _ H1).
  match type of H1 with _ = (_, ?s1) =>
    destruct (fetch_data_run serve "analytics" (Some [("limit", JInt 100)]) s1)
      as (shown2 & H2 & _ & E2) end.
  rewrite (bind_ok _ _ _ _ _ H2).
  match type of H2 with _ = (_, ?s2) =>
    destruct (fetch_data_run serve "dashboard/customer-insights" None s2)
      as (shown3 & H3 & _ & E3) end.
  rewrite (bind_ok _ _ _ _ _ H3).
  cbn [backend with_element after_fetch] in *.
  rewrite Hk in *. rewrite Ha' in *. rewrite Hc' in *.
  rewrite (E1 Ht), (E2 Ha), (E3 Hc), Ht, Ha, Hc. cbn [andb].
  unfold analytics_charts.
  rewrite (bind_ok _ _ _ _ _ (kpi_card_missing _ _ _ _ _ He)),
          (bind_ok _ _ _ _ _ (kpi_card_missing _ _ _ _ _ Hr)),
          (bind_ok _ _ _ _ _ (kpi_card_missing _ _ _ _ _ Ho)).
  rewrite bind_show. cbv zeta.
  rewrite (bind_ok _ _ _ _ _ (kpi_base_missing _ _ 75 75%float _ He eq_refl)),
          (bind_ok _ _ _ _ _ (trend_series_points _ _ _ _ _ _ _)),
          (bind_ok _ _ _ _ _ (kpi_base_missing _ _ 4 4%float _ Hr eq_refl)),
          (bind_ok _ _ _ _ _ (trend_series_points _ _ _ _ _ _ _)),
          (bind_ok _ _ _ _ _ (kpi_base_missing _ _ 85 85%float _ Ho eq_refl)),
          (bind_ok _ _ _ _ _ (trend_series_points _ _ _ _ _ _ _)).
  rewrite !bind_show.
  match goal with |- exists rest, page (snd (?tail ?s4)) = _ =>
    assert (Htail : preserves page_grows tail);
    [ pose proof (@page_grows_invariant B) as inv; keep_page
    | destruct (Htail s4) as (rest & E) ]
  end.
  exists rest. rewrite E. unfold analytics_of_missing_kpis.
  cbn [page with_element after_fetch after_normals normal_used].
  rewrite !app_nil_r, <- !app_assoc. cbn [app].
  replace (30 + normal_used s)%nat with (normal_used s + 30)%nat by apply Nat.add_comm.
  replace (30 + (normal_used s + 30))%nat with (normal_used s + 60)%nat
    by (rewrite (Nat.add_comm 30), <- Nat.add_assoc; reflexivity).
  reflexivity.
Qed.

(** The witness of [analytics_page_of_missing_kpis]: the backend that
    answers every request with a small object of its own. *)
Lemma analytics_page_of_missing_kpis_witness :
  exists rest,
    page (snd (analytics_page counting idle (initial 0)))
    = ([] ++ analytics_of_missing_kpis idle 0 ++ rest)%list.
Proof.
  apply (analytics_page_of_missing_kpis counting idle (initial 0) [("ok", JBool true)]
           (JDict [("ok", JBool true)]) (JDict [("ok", JBool true)]));
    try reflexivity.
  - discriminate.
  - repeat constructor.
Defined.
